(** * A shallow embedding of [lambda_function.py]

    The Lambda handler of the Bedrock chatbot, its inference call and its
    DynamoDB history gateway, as Rocq functions over an explicit world
    (environment variables, clock, Bedrock endpoint, DynamoDB table).

    Python values are dynamically typed, so the embedding works on a
    universal value type [pyval]; an operation applied to a value of the
    wrong type raises, exactly where the interpreter would raise.  The
    built-ins whose semantics belong to the interpreter and not to this
    program ([json.loads], [int], [float], [str], float arithmetic, the
    text of interpreter-raised errors) are the methods of the class
    [Builtins].

    [print] writes to a UTF-8 stream, which raises [UnicodeEncodeError]
    on a lone surrogate.  The log lines of [call_bedrock] carry the model
    id and the text of exceptions, and two of them sit in [except]
    clauses: they are modelled.  The other log lines are taken to be
    written: those of the handler write the event as ASCII (line 19) and
    the text of exceptions that [call_bedrock] has logged before or that
    the interpreter raised (lines 128 and 150), those of the history
    gateway sit in a [try] or write the text of a store error.  The
    evaluation of their arguments is modelled where it can raise. *)

From Stdlib Require Import ZArith NArith Ascii String List Lia QArith Qround.
From stdpp Require Import base option list gmap.

Set Warnings "-register-all".
Local Open Scope Z_scope.

(** ** Python strings

    A [str] is a sequence of Unicode code points: [len] counts code
    points, not bytes. *)

Definition pystr : Type := list N.

(** Source literals are written as UTF-8 text and decoded. *)
Fixpoint utf8_decode (acc : N) (need : nat) (bs : list N) : pystr :=
  match bs with
  | [] => []
  | b :: bs' =>
      match need with
      | O =>
          if (b <? 128)%N then b :: utf8_decode 0%N 0%nat bs'
          else if (b <? 224)%N then utf8_decode (N.land b 31) 1%nat bs'
          else if (b <? 240)%N then utf8_decode (N.land b 15) 2%nat bs'
          else utf8_decode (N.land b 7) 3%nat bs'
      | S O => (acc * 64 + N.land b 63)%N :: utf8_decode 0%N 0%nat bs'
      | S n => utf8_decode (acc * 64 + N.land b 63)%N n bs'
      end
  end.

Definition lit (s : string) : pystr :=
  utf8_decode 0%N 0%nat (List.map N_of_ascii (list_ascii_of_string s)).

Fixpoint pystr_eqb (s t : pystr) : bool :=
  match s, t with
  | [], [] => true
  | a :: s', b :: t' => (a =? b)%N && pystr_eqb s' t'
  | _, _ => false
  end.

Fixpoint is_prefix (p s : pystr) : bool :=
  match p, s with
  | [], _ => true
  | a :: p', b :: s' => (a =? b)%N && is_prefix p' s'
  | _ :: _, [] => false
  end.

(** [needle in hay] for two strings. *)
Fixpoint contains (needle hay : pystr) : bool :=
  is_prefix needle hay ||
  match hay with
  | [] => false
  | _ :: hay' => contains needle hay'
  end.

(** The characters [str.strip()] removes: those for which [str.isspace]
    holds. *)
Definition is_space (c : N) : bool :=
  ((9 <=? c) && (c <=? 13) || (28 <=? c) && (c <=? 32) ||
   (c =? 133) || (c =? 160) || (c =? 5760) ||
   (8192 <=? c) && (c <=? 8202) ||
   (c =? 8232) || (c =? 8233) || (c =? 8239) || (c =? 8287) ||
   (c =? 12288))%N.

Fixpoint lstrip (s : pystr) : pystr :=
  match s with
  | [] => []
  | c :: s' => if is_space c then lstrip s' else s
  end.

Definition rstrip (s : pystr) : pystr := rev (lstrip (rev s)).

Definition strip (s : pystr) : pystr := rstrip (lstrip s).

(** A lone surrogate (U+D800 to U+DFFF) has no UTF-8 encoding: a text
    can be printed when it holds none. *)
Definition is_surrogate (c : N) : bool := ((55296 <=? c) && (c <=? 57343))%N.

Definition printable (s : pystr) : bool :=
  forallb (fun c => negb (is_surrogate c)) s.

(** ** Python values *)

Section Values.

(** [F] is the carrier of Python's [float]. *)
Context {F : Type}.

Inductive pyval : Type :=
| PNone
| PBool (b : bool)
| PInt (z : Z)
| PFloat (f : F)
| PStr (s : pystr)
| PList (l : list pyval)
| PDict (d : list (pystr * pyval))  (* str-keyed dict, in insertion order *)
| PObject.                          (* an instance of [object]: no methods,
                                       no length, rejected by [json.dumps] *)

Definition pydict : Type := list (pystr * pyval).

(** [d.get(k)], [None] when the key is missing. *)
Fixpoint dict_find (k : pystr) (d : pydict) : option pyval :=
  match d with
  | [] => None
  | (k', v) :: d' => if pystr_eqb k k' then Some v else dict_find k d'
  end.

(** [d.get(k, dflt)] *)
Definition dict_get (k : pystr) (dflt : pyval) (d : pydict) : pyval :=
  match dict_find k d with
  | Some v => v
  | None => dflt
  end.

(** What [json.dumps] accepts: everything but [PObject], at any depth. *)
Fixpoint serializable (v : pyval) : bool :=
  match v with
  | PObject => false
  | PList l => forallb serializable l
  | PDict d => forallb (fun kv => serializable (snd kv)) d
  | _ => true
  end.

(** The places where the interpreter itself raises. *)
Inductive fault : Type :=
| NoAttribute (v : pyval) (attr : pystr)   (* v.attr on a value without it *)
| NotContainer (v : pyval)                 (* [s in v] *)
| NoLen (v : pyval)                        (* [len(v)] *)
| BadSubscript (v key : pyval)             (* [v[key]], wrong type *)
| MissingKey (key : pystr)                 (* [d[key]] *)
| IndexOutOfRange                          (* [l[0]] on an empty sequence *)
| IntArgument (v : pyval)                  (* [int(v)] *)
| FloatArgument (v : pyval)                (* [float(v)] *)
| JsonArgument (v : pyval)                 (* [json.loads(v)], v not text *)
| JsonSyntax (s : pystr)                   (* [json.loads(s)], s not accepted *)
| Unencodable (s : pystr)                  (* [print(s)], s with a lone surrogate *)
| NotSerializable (v : pyval)              (* [json.dumps(v)] *)
| UnboundLocal (name : pystr).             (* a local read before assignment *)

End Values.

Arguments pyval : clear implicits.
Arguments pydict : clear implicits.
Arguments fault : clear implicits.

(** ** Exceptions *)

Inductive exn_class : Type :=
| AttributeError_ | TypeError_ | ValueError_ | KeyError_ | IndexError_
| OverflowError_ | JSONDecodeError_ | UnboundLocalError_
| RecursionError_ | UnicodeEncodeError_
| Exception_        (* the plain [Exception] raised at the end of [call_bedrock] *)
| ServiceError_.    (* raised by boto3, other than [ClientError] *)

(** [ClientError] is the exception botocore builds from the error
    response of a service, which has an ['Error'] entry with a ['Code']
    and a ['Message']: it carries [e.response['Error']['Code']],
    [e.response['Error']['Message']] and [str(e)].  The other exceptions
    carry their class and [str(e)]. *)
Inductive exn : Type :=
| ClientError (code message text : pystr)
| PyError (cls : exn_class) (text : pystr).

Definition str_exn (e : exn) : pystr :=
  match e with
  | ClientError _ _ text => text
  | PyError _ text => text
  end.

Inductive outcome (A : Type) : Type :=
| Ok (a : A)
| Raise (e : exn).

Arguments Ok {A} a.
Arguments Raise {A} e.

(** ** The interpreter's built-ins *)

Class Builtins : Type := {
  float : Type;
  (** [json.loads] on text; [None] when it raises *)
  json_loads : pystr -> option (pyval float);
  (** the class of what [json.loads] raises on a text it does not accept:
      [JSONDecodeError] for a text that is not JSON, [RecursionError] for
      one nested deeper than the interpreter allows, [ValueError] for an
      integer with more digits than the interpreter converts *)
  json_error : pystr -> exn_class;
  (** [int(s)] and [float(s)] on text; [None] is [ValueError] *)
  int_of_str : pystr -> option Z;
  float_of_str : pystr -> option float;
  (** [int(f)]; [None] is [ValueError] (NaN) or [OverflowError] (infinity) *)
  int_of_float : float -> option Z;
  float_is_nan : float -> bool;
  (** [float(z)]; [None] is [OverflowError] *)
  float_of_int : Z -> option float;
  (** [bool(f)] *)
  float_truthy : float -> bool;
  (** the value of a decimal literal of the source, such as [0.9] *)
  float_literal : Q -> float;
  (** [round(b - a, 2)] *)
  elapsed : float -> float -> float;
  (** [str(v)], as an f-string formats it *)
  str_of : pyval float -> pystr;
  (** [str(e)] of an interpreter-raised error *)
  fault_text : fault float -> pystr;
  json_loads_empty_object : json_loads (lit "{}") = Some (PDict []);
  str_of_str : forall s, str_of (PStr s) = s
}.

Section Program.

Context `{B : Builtins}.

Abbreviation val := (pyval float).
Abbreviation dict := (pydict float).

(** ** Operations of the interpreter on values *)

Definition fault_of {A : Type} (cls : exn_class) (f : fault float) : outcome A :=
  Raise (PyError cls (fault_text f)).

Definition is_empty {A : Type} (l : list A) : bool :=
  match l with
  | [] => true
  | _ :: _ => false
  end.

(** [bool(v)], as [if v:] and [not v] test it. *)
Definition truthy (v : val) : bool :=
  match v with
  | PNone => false
  | PBool b => b
  | PInt z => negb (z =? 0)
  | PFloat f => float_truthy f
  | PStr s => negb (is_empty s)
  | PList l => negb (is_empty l)
  | PDict d => negb (is_empty d)
  | PObject => true
  end.

(** [v == s] for a string literal [s]. *)
Definition eq_str (v : val) (s : pystr) : bool :=
  match v with
  | PStr t => pystr_eqb t s
  | _ => false
  end.

(** [int(v)] *)
Definition py_int (v : val) : outcome Z :=
  match v with
  | PInt z => Ok z
  | PBool b => Ok (if b then 1 else 0)
  | PFloat f =>
      match int_of_float f with
      | Some z => Ok z
      | None =>
          fault_of (if float_is_nan f then ValueError_ else OverflowError_)
                   (IntArgument v)
      end
  | PStr s =>
      match int_of_str s with
      | Some z => Ok z
      | None => fault_of ValueError_ (IntArgument v)
      end
  | _ => fault_of TypeError_ (IntArgument v)
  end.

(** [float(v)] *)
Definition py_float (v : val) : outcome float :=
  match v with
  | PFloat f => Ok f
  | PInt z =>
      match float_of_int z with
      | Some f => Ok f
      | None => fault_of OverflowError_ (FloatArgument v)
      end
  | PBool b =>
      match float_of_int (if b then 1 else 0) with
      | Some f => Ok f
      | None => fault_of OverflowError_ (FloatArgument v)
      end
  | PStr s =>
      match float_of_str s with
      | Some f => Ok f
      | None => fault_of ValueError_ (FloatArgument v)
      end
  | _ => fault_of TypeError_ (FloatArgument v)
  end.

(** [len(l)] on a list or a string. *)
Definition len {A : Type} (l : list A) : Z := Z.of_nat (length l).

(** [len(v)] *)
Definition py_len (v : val) : outcome Z :=
  match v with
  | PStr s => Ok (len s)
  | PList l => Ok (len l)
  | PDict d => Ok (len d)
  | _ => fault_of TypeError_ (NoLen v)
  end.

(** [v.get(k, dflt)]: only a dict has the method. *)
Definition py_get (v : val) (k : pystr) (dflt : val) : outcome val :=
  match v with
  | PDict d => Ok (dict_get k dflt d)
  | _ => fault_of AttributeError_ (NoAttribute v (lit "get"))
  end.

(** [v.strip()]: only a string has the method. *)
Definition py_strip (v : val) : outcome pystr :=
  match v with
  | PStr s => Ok (strip s)
  | _ => fault_of AttributeError_ (NoAttribute v (lit "strip"))
  end.

(** [v.append(x)]: only a list has the method; the result is the list
    after the update. *)
Definition py_append (v : val) (x : val) : outcome (list val) :=
  match v with
  | PList l => Ok (l ++ [x])
  | _ => fault_of AttributeError_ (NoAttribute v (lit "append"))
  end.

(** [s in v] for a string [s]: substring of a string, element of a list,
    key of a dict. *)
Definition str_in (s : pystr) (v : val) : outcome bool :=
  match v with
  | PStr t => Ok (contains s t)
  | PList l => Ok (existsb (fun x => eq_str x s) l)
  | PDict d => Ok (match dict_find s d with Some _ => true | None => false end)
  | _ => fault_of TypeError_ (NotContainer v)
  end.

(** [v[k]] for a string key [k]. *)
Definition subscript (v : val) (k : pystr) : outcome val :=
  match v with
  | PDict d =>
      match dict_find k d with
      | Some x => Ok x
      | None => fault_of KeyError_ (MissingKey k)
      end
  | _ => fault_of TypeError_ (BadSubscript v (PStr k))
  end.

(** [v[0]] *)
Definition subscript0 (v : val) : outcome val :=
  match v with
  | PList (x :: _) => Ok x
  | PStr (c :: _) => Ok (PStr [c])
  | PList [] | PStr [] => fault_of IndexError_ IndexOutOfRange
  | PDict _ => fault_of KeyError_ (BadSubscript v (PInt 0))
  | _ => fault_of TypeError_ (BadSubscript v (PInt 0))
  end.

(** [json.dumps(v)] raises on a value it cannot serialise. *)
Definition check_serializable (v : val) : outcome unit :=
  if serializable v then Ok tt else fault_of TypeError_ (NotSerializable v).

(** [print(text)] *)
Definition py_print (text : pystr) : outcome unit :=
  if printable text then Ok tt
  else fault_of UnicodeEncodeError_ (Unencodable text).

(** [json.loads(s)] on text. *)
Definition py_json_loads (s : pystr) : outcome val :=
  match json_loads s with
  | Some v => Ok v
  | None => fault_of (json_error s) (JsonSyntax s)
  end.

(** ** The world outside the handler *)

(** What [bedrock_runtime.invoke_model(...)] followed by
    [response.get('body').read()] gives. *)
Inductive bedrock_reply : Type :=
| Reply (raw : pystr)
| Fails (e : exn).

Inductive store_op : Type :=
| GetItem (key : val)
| PutItem (item : dict).

Record world : Type := {
  environ : gmap pystr pystr;            (* os.environ *)
  clock : nat -> float;                  (* the successive readings of time.time() *)
  ticks : nat;                           (* readings taken so far *)
  bedrock : val -> val -> bedrock_reply; (* the endpoint, on modelId and body *)
  bedrock_calls : list (val * val);      (* invocations made, latest first *)
  table : gmap pystr dict;               (* the DynamoDB table, by session_id *)
  get_fault : val -> option exn;         (* a read of this key fails *)
  put_fault : dict -> option exn;        (* a write of this item fails *)
  store_ops : list store_op              (* store requests issued, latest first *)
}.

Definition tick (w : world) : world :=
  {| environ := environ w; clock := clock w; ticks := S (ticks w);
     bedrock := bedrock w; bedrock_calls := bedrock_calls w;
     table := table w; get_fault := get_fault w; put_fault := put_fault w;
     store_ops := store_ops w |}.

Definition record_call (model_id body : val) (w : world) : world :=
  {| environ := environ w; clock := clock w; ticks := ticks w;
     bedrock := bedrock w; bedrock_calls := (model_id, body) :: bedrock_calls w;
     table := table w; get_fault := get_fault w; put_fault := put_fault w;
     store_ops := store_ops w |}.

Definition record_op (op : store_op) (w : world) : world :=
  {| environ := environ w; clock := clock w; ticks := ticks w;
     bedrock := bedrock w; bedrock_calls := bedrock_calls w;
     table := table w; get_fault := get_fault w; put_fault := put_fault w;
     store_ops := op :: store_ops w |}.

Definition write_item (key : pystr) (item : dict) (w : world) : world :=
  {| environ := environ w; clock := clock w; ticks := ticks w;
     bedrock := bedrock w; bedrock_calls := bedrock_calls w;
     table := <[key := item]> (table w);
     get_fault := get_fault w; put_fault := put_fault w;
     store_ops := store_ops w |}.

(** ** Computations: state passing with exceptions *)

Definition M (A : Type) : Type := world -> world * outcome A.

Definition ret {A : Type} (a : A) : M A := fun w => (w, Ok a).

Definition raise {A : Type} (e : exn) : M A := fun w => (w, Raise e).

Definition lift {A : Type} (o : outcome A) : M A := fun w => (w, o).

Definition bind {A C : Type} (m : M A) (k : A -> M C) : M C :=
  fun w =>
    match m w with
    | (w', Ok a) => k a w'
    | (w', Raise e) => (w', Raise e)
    end.

(** [try: m  except ... as e: h e] *)
Definition catch {A : Type} (m : M A) (h : exn -> M A) : M A :=
  fun w =>
    match m w with
    | (w', Ok a) => (w', Ok a)
    | (w', Raise e) => h e w'
    end.

Definition obind {A C : Type} (o : outcome A) (k : A -> outcome C) : outcome C :=
  match o with
  | Ok a => k a
  | Raise e => Raise e
  end.

Notation "'let*' x ':=' c 'in' k" := (bind c (fun x => k))
  (at level 10, x pattern, c at level 100, k at level 200).

Notation "'let?' x ':=' c 'in' k" := (obind c (fun x => k))
  (at level 10, x pattern, c at level 100, k at level 200).

(** [os.environ.get(name)] *)
Definition getenv (name : pystr) : M (option pystr) :=
  fun w => (w, Ok (environ w !! name)).

(** [time.time()] *)
Definition time_time : M float :=
  fun w => (tick w, Ok (clock w (ticks w))).

(** [bedrock_runtime.invoke_model(body=json.dumps(body), modelId=model_id, ...)]
    and the read of the response stream. *)
Definition invoke_model (body model_id : val) : M pystr :=
  let* _ := lift (check_serializable body) in
  fun w =>
    let w' := record_call model_id body w in
    match bedrock w model_id body with
    | Reply raw => (w', Ok raw)
    | Fails e => (w', Raise e)
    end.

(** The table's key attribute [session_id] is a string: the service
    rejects a key of another type.  A failure of [boto3.resource] or of
    [dynamodb.Table] counts as a failure of the request that follows it
    in the same [try]. *)
Definition key_schema_error (operation : pystr) : exn :=
  let message := lit "The provided key element does not match the schema" in
  ClientError (lit "ValidationException") message
    (lit "An error occurred (ValidationException) when calling the "
       ++ operation ++ lit " operation: " ++ message).

(** [table.get_item(Key={'session_id': session_id})]; [Some item] when
    the response has an ['Item']. *)
Definition get_item (session_id : val) : M (option dict) :=
  fun w =>
    let w' := record_op (GetItem session_id) w in
    match get_fault w session_id with
    | Some e => (w', Raise e)
    | None =>
        match session_id with
        | PStr s => (w', Ok (table w !! s))
        | _ => (w', Raise (key_schema_error (lit "GetItem")))
        end
    end.

(** [table.put_item(Item=item)] *)
Definition put_item (item : dict) : M unit :=
  fun w =>
    let w' := record_op (PutItem item) w in
    match put_fault w item with
    | Some e => (w', Raise e)
    | None =>
        match dict_find (lit "session_id") item with
        | Some (PStr s) => (write_item s item w', Ok tt)
        | _ => (w', Raise (key_schema_error (lit "PutItem")))
        end
    end.

(** ** The program *)

Definition newline : pystr := [10%N].

(** One turn of a conversation, [{"role": role, "content": content}]. *)
Definition turn (role : pystr) (content : val) : val :=
  PDict [(lit "role", PStr role); (lit "content", content)].

(** The loop of [format_messages_for_titan], on the text built so far. *)
Fixpoint format_loop (formatted : pystr) (messages : list val) : outcome pystr :=
  match messages with
  | [] => Ok formatted
  | msg :: rest =>
      let? role := subscript msg (lit "role") in
      if eq_str role (lit "user") then
        let? content := subscript msg (lit "content") in
        format_loop (formatted ++ lit "User: " ++ str_of content ++ newline) rest
      else
        let? role' := subscript msg (lit "role") in
        if eq_str role' (lit "assistant") then
          let? content := subscript msg (lit "content") in
          format_loop (formatted ++ lit "Assistant: " ++ str_of content ++ newline) rest
        else format_loop formatted rest
  end.

Definition format_messages_for_titan (messages : list val) : outcome pystr :=
  let? formatted := format_loop [] messages in
  Ok (formatted ++ lit "Assistant: ").

(** The request body [call_bedrock] builds for the model family of
    [model_id] (the first [if] of its [try] block). *)
Definition build_body (messages : list val) (model_id : val)
    (max_tokens : Z) (temperature : float) : outcome val :=
  let? is_anthropic := str_in (lit "anthropic") model_id in
  if is_anthropic then
    Ok (PDict [(lit "anthropic_version", PStr (lit "bedrock-2023-05-31"));
               (lit "max_tokens", PInt max_tokens);
               (lit "messages", PList messages);
               (lit "temperature", PFloat temperature)])
  else
    let? is_titan := str_in (lit "amazon.titan") model_id in
    if is_titan then
      let? prompt := format_messages_for_titan messages in
      Ok (PDict [(lit "inputText", PStr prompt);
                 (lit "textGenerationConfig",
                  PDict [(lit "maxTokenCount", PInt max_tokens);
                         (lit "temperature", PFloat temperature);
                         (lit "topP", PFloat (float_literal (9 # 10)))])])
    else
      Raise (PyError ValueError_
               (lit "지원하지 않는 모델입니다: " ++ str_of model_id)).

(** The model-specific parse of the decoded response (the last [if] of
    the [try] block); a function that falls off its end returns [None]. *)
Definition parse_response (model_id response_body : val) : outcome val :=
  let? is_anthropic := str_in (lit "anthropic") model_id in
  if is_anthropic then
    let? content := subscript response_body (lit "content") in
    let? block := subscript0 content in
    subscript block (lit "text")
  else
    let? is_titan := str_in (lit "amazon.titan") model_id in
    if is_titan then
      let? results := subscript response_body (lit "results") in
      let? first := subscript0 results in
      subscript first (lit "outputText")
    else Ok PNone.

(** The log line of line 200 is a constant and is left out; those of
    lines 190, 209 and 212 can fail, the last two inside their [except]
    clause, from where the failure leaves the function. *)
Definition call_bedrock (messages : list val) (model_id : val)
    (max_tokens : Z) (temperature : float) : M val :=
  catch
    (let* body := lift (build_body messages model_id max_tokens temperature) in
     let* _ :=
       lift (py_print (lit "Calling Bedrock model: " ++ str_of model_id)) in
     let* raw := invoke_model body model_id in
     let* response_body := lift (py_json_loads raw) in
     lift (parse_response model_id response_body))
    (fun e =>
       match e with
       | ClientError _ _ _ =>
           let* _ :=
             lift (py_print (lit "Bedrock ClientError: " ++ str_exn e)) in
           raise e
       | _ =>
           let* _ :=
             lift (py_print (lit "Bedrock call error: " ++ str_exn e)) in
           raise (PyError Exception_
                    (lit "모델 호출 중 오류가 발생했습니다: " ++ str_exn e))
       end).

(** [not os.environ.get('DYNAMODB_TABLE')]: the variable is unset or empty. *)
Definition table_unconfigured : M bool :=
  let* name := getenv (lit "DYNAMODB_TABLE") in
  ret (match name with
       | Some n => is_empty n
       | None => true
       end).

Definition get_conversation_history (session_id : val) : M val :=
  let* unconfigured := table_unconfigured in
  if unconfigured then ret (PList [])
  else
    catch
      (let* response := get_item session_id in
       match response with
       | Some item =>
           let messages := dict_get (lit "messages") (PList []) item in
           let* _ := lift (py_len messages) in  (* the argument of the print *)
           ret messages
       | None => ret (PList [])
       end)
      (fun _ => ret (PList [])).

(** [messages[-20:]] *)
Definition last20 (messages : list val) : list val :=
  drop (length messages - 20) messages.

(** The [Item] written by [save_conversation_history]. *)
Definition history_item (session_id : val) (messages : list val)
    (updated_at ttl : Z) : dict :=
  [(lit "session_id", session_id);
   (lit "messages", PList messages);
   (lit "updated_at", PInt updated_at);
   (lit "ttl", PInt ttl)].

(** The caller's list is extended in place by the [append]; no caller
    reads it afterwards. *)
Definition save_conversation_history (session_id : val) (messages : list val)
    (bot_response : val) : M unit :=
  let* unconfigured := table_unconfigured in
  if unconfigured then ret tt
  else
    catch
      (let messages := messages ++ [turn (lit "assistant") bot_response] in
       let messages :=
         if 20 <? len messages then last20 messages else messages in
       let* now := time_time in
       let* seconds := lift (py_int (PFloat now)) in
       let ttl := seconds + 24 * 60 * 60 in
       let* now' := time_time in
       let* updated_at := lift (py_int (PFloat now')) in
       put_item (history_item session_id messages updated_at ttl))
      (fun _ => ret tt).

(** *** The handler

    A response is the dict the handler returns; [body] is the value handed
    to [json.dumps(..., ensure_ascii=False)], before serialisation. *)

Record response : Type := {
  statusCode : Z;
  headers : list (pystr * pystr);
  body : val
}.

(** What a call of the handler gives its caller: a response, or an
    exception that no clause caught. *)
Inductive result : Type :=
| Returned (r : response)
| Unhandled (e : exn).

Definition cors_headers : list (pystr * pystr) :=
  [(lit "Content-Type", lit "application/json; charset=utf-8");
   (lit "Access-Control-Allow-Origin", lit "*");
   (lit "Access-Control-Allow-Methods", lit "POST, OPTIONS");
   (lit "Access-Control-Allow-Headers",
    lit "Content-Type, Authorization, X-Requested-With")].

Definition default_model_id : pystr :=
  lit "anthropic.claude-sonnet-4-20250514-v1:0".

Definition preflight_response (hdrs : list (pystr * pystr)) : response :=
  {| statusCode := 200; headers := hdrs;
     body := PDict [(lit "message", PStr (lit "CORS preflight successful"))] |}.

Definition method_not_allowed_response (hdrs : list (pystr * pystr)) : response :=
  {| statusCode := 405; headers := hdrs;
     body := PDict [(lit "error", PStr (lit "Method not allowed. Use POST method."));
                    (lit "allowed_methods",
                     PList [PStr (lit "POST"); PStr (lit "OPTIONS")])] |}.

Definition malformed_body_response (hdrs : list (pystr * pystr)) : response :=
  {| statusCode := 400; headers := hdrs;
     body := PDict [(lit "error", PStr (lit "잘못된 JSON 형식입니다."));
                    (lit "status", PStr (lit "error"))] |}.

Definition missing_message_response (hdrs : list (pystr * pystr)) : response :=
  {| statusCode := 400; headers := hdrs;
     body := PDict [(lit "error", PStr (lit "메시지가 필요합니다."));
                    (lit "required_fields", PList [PStr (lit "message")]);
                    (lit "optional_fields",
                     PList [PStr (lit "session_id"); PStr (lit "model_id");
                            PStr (lit "max_tokens"); PStr (lit "temperature")])] |}.

Definition message_too_long_response (hdrs : list (pystr * pystr))
    (message : pystr) : response :=
  {| statusCode := 400; headers := hdrs;
     body := PDict [(lit "error",
                     PStr (lit "메시지가 너무 깁니다. 10,000자 이내로 입력해주세요."));
                    (lit "current_length", PInt (len message));
                    (lit "max_length", PInt 10000)] |}.

Definition success_response (hdrs : list (pystr * pystr))
    (response_text session_id model_id : val) (start_time end_time : float)
    : response :=
  {| statusCode := 200; headers := hdrs;
     body := PDict [(lit "response", response_text);
                    (lit "session_id", session_id);
                    (lit "model_used", model_id);
                    (lit "processing_time", PFloat (elapsed start_time end_time));
                    (lit "region", PStr (lit "ap-northeast-2"));
                    (lit "status", PStr (lit "success"))] |}.

(** Lines 92-124: history, inference, save, success response. *)
Definition answer (hdrs : list (pystr * pystr)) (message : pystr)
    (session_id model_id : val) (max_tokens : Z) (temperature : float)
    : M response :=
  let* conversation_history :=
    if truthy session_id then get_conversation_history session_id
    else ret (PList []) in
  let* conversation_history :=
    lift (py_append conversation_history (turn (lit "user") (PStr message))) in
  let* start_time := time_time in
  let* response_text :=
    call_bedrock conversation_history model_id max_tokens temperature in
  let* end_time := time_time in
  let* _ :=
    if truthy session_id
    then save_conversation_history session_id conversation_history response_text
    else ret tt in
  ret (success_response hdrs response_text session_id model_id start_time end_time).

(** Lines 61-90: the parameters are read, then the message is validated. *)
Definition handle_request (hdrs : list (pystr * pystr)) (request : val)
    : M response :=
  let* raw_message := lift (py_get request (lit "message") (PStr [])) in
  let* message := lift (py_strip raw_message) in
  let* session_id := lift (py_get request (lit "session_id") PNone) in
  let* model_id := lift (py_get request (lit "model_id") (PStr default_model_id)) in
  let* env_max_tokens := getenv (lit "MAX_TOKENS") in
  let* raw_max_tokens :=
    lift (py_get request (lit "max_tokens")
            (PStr (default (lit "1000") env_max_tokens))) in
  let* max_tokens := lift (py_int raw_max_tokens) in
  let* env_temperature := getenv (lit "TEMPERATURE") in
  let* raw_temperature :=
    lift (py_get request (lit "temperature")
            (PStr (default (lit "0.7") env_temperature))) in
  let* temperature := lift (py_float raw_temperature) in
  if is_empty message then ret (missing_message_response hdrs)
  else if 10000 <? len message
  then ret (message_too_long_response hdrs message)
  else answer hdrs message session_id model_id max_tokens temperature.

(** [except json.JSONDecodeError] catches the exceptions of that class. *)
Definition is_json_decode (cls : exn_class) : bool :=
  match cls with
  | JSONDecodeError_ => true
  | _ => false
  end.

Definition is_decode_error (e : exn) : bool :=
  match e with
  | PyError cls _ => is_json_decode cls
  | ClientError _ _ _ => false
  end.

(** Lines 29-59: method dispatch and the parse of the body.  Only
    [json.JSONDecodeError] is caught by the inner [try]: what else
    [json.loads] raises goes to the outer [except]. *)
Definition handler_body (hdrs : list (pystr * pystr)) (event : val)
    : M response :=
  let* method := lift (py_get event (lit "httpMethod") PNone) in
  if eq_str method (lit "OPTIONS") then ret (preflight_response hdrs)
  else
    let* method := lift (py_get event (lit "httpMethod") PNone) in
    if negb (eq_str method (lit "POST"))
    then ret (method_not_allowed_response hdrs)
    else
      let* text := lift (py_get event (lit "body") (PStr (lit "{}"))) in
      match text with
      | PStr s =>
          match py_json_loads s with
          | Ok request => handle_request hdrs request
          | Raise e =>
              if is_decode_error e then ret (malformed_body_response hdrs)
              else raise e
          end
      | _ => lift (fault_of TypeError_ (JsonArgument text))
      end.

Definition aws_error_response (hdrs : list (pystr * pystr))
    (error_message error_code : pystr) : response :=
  {| statusCode := 500; headers := hdrs;
     body := PDict [(lit "error", PStr error_message);
                    (lit "error_code", PStr error_code);
                    (lit "status", PStr (lit "aws_error"))] |}.

Definition internal_error_response (hdrs : list (pystr * pystr))
    (text : pystr) : response :=
  {| statusCode := 500; headers := hdrs;
     body := PDict [(lit "error",
                     PStr (lit "서버 내부 오류가 발생했습니다: " ++ text));
                    (lit "status", PStr (lit "internal_error"))] |}.

(** Lines 126-158: the two [except] clauses of the handler.  Both read
    the local [headers]; [hdrs] is [None] while it is not yet assigned,
    and the read then raises inside the clause. *)
Definition handle_exception (hdrs : option (list (pystr * pystr))) (e : exn)
    : result :=
  match e with
  | ClientError error_code message text =>
      let error_message :=
        if pystr_eqb error_code (lit "AccessDeniedException") then
          lit "모델 액세스 권한이 없습니다. AWS 콘솔에서 Model access를 활성화하세요."
        else if pystr_eqb error_code (lit "ThrottlingException") then
          lit "요청이 너무 많습니다. 잠시 후 다시 시도해주세요."
        else if pystr_eqb error_code (lit "ValidationException") then
          lit "요청 형식이 잘못되었습니다: " ++ message
        else lit "AWS 서비스 오류: " ++ text in
      match hdrs with
      | Some h => Returned (aws_error_response h error_message error_code)
      | None =>
          Unhandled (PyError UnboundLocalError_
                       (fault_text (UnboundLocal (lit "headers"))))
      end
  | PyError _ text =>
      match hdrs with
      | Some h => Returned (internal_error_response h text)
      | None =>
          Unhandled (PyError UnboundLocalError_
                       (fault_text (UnboundLocal (lit "headers"))))
      end
  end.

(** How the [try] block of the handler ends once [headers] is assigned:
    with the response it returns, or in an [except] clause. *)
Definition respond (hdrs : list (pystr * pystr))
    (end_of_try : world * outcome response) : world * result :=
  match end_of_try with
  | (w, Ok r) => (w, Returned r)
  | (w, Raise e) => (w, handle_exception (Some hdrs) e)
  end.

(** The handler.  Line 19 serialises the event for the log before
    [headers] is assigned; the unused [context] argument is left out. *)
Definition lambda_handler (event : val) (w : world) : world * result :=
  match check_serializable event with
  | Raise e => (w, handle_exception None e)
  | Ok _ =>
      let hdrs := cors_headers in
      respond hdrs (handler_body hdrs event w)
  end.

(** Session-less mode, as the specification describes it: lines 92-124
    with no history loaded and none saved; the session id is only echoed
    in the response. *)
Definition answer_sessionless (hdrs : list (pystr * pystr)) (message : pystr)
    (session_id model_id : val) (max_tokens : Z) (temperature : float)
    : M response :=
  let* start_time := time_time in
  let* response_text :=
    call_bedrock [turn (lit "user") (PStr message)] model_id max_tokens
      temperature in
  let* end_time := time_time in
  ret (success_response hdrs response_text session_id model_id start_time end_time).

(** *** Vocabulary for the statements

    What the handler reads from an event and from a parsed request, named
    so that the hypotheses of the theorems can speak of it. *)

(** The event can be logged and its [httpMethod] is POST. *)
Definition is_post (event : val) : bool :=
  serializable event &&
  match event with
  | PDict d => eq_str (dict_get (lit "httpMethod") PNone d) (lit "POST")
  | _ => false
  end.

(** The event has a ['body'] key. *)
Definition has_body (event : val) : bool :=
  match event with
  | PDict d => match dict_find (lit "body") d with Some _ => true | None => false end
  | _ => false
  end.

(** The text handed to [json.loads]: the body when it is a string, the
    default when the key is missing. *)
Definition body_text (event : val) : option pystr :=
  match event with
  | PDict d =>
      match dict_get (lit "body") (PStr (lit "{}")) d with
      | PStr s => Some s
      | _ => None
      end
  | _ => None
  end.

(** The arguments of [int(...)] and [float(...)] on lines 65 and 66. *)
Definition raw_max_tokens (w : world) (request : dict) : val :=
  dict_get (lit "max_tokens")
    (PStr (default (lit "1000") (environ w !! lit "MAX_TOKENS"))) request.

Definition raw_temperature (w : world) (request : dict) : val :=
  dict_get (lit "temperature")
    (PStr (default (lit "0.7") (environ w !! lit "TEMPERATURE"))) request.

(** The status of the response, when the handler returns one. *)
Definition status_of (r : result) : option Z :=
  match r with
  | Returned resp => Some (statusCode resp)
  | Unhandled _ => None
  end.

(** A POST event whose body is an instance of [object]. *)
Definition post_with_object : val :=
  PDict [(lit "httpMethod", PStr (lit "POST")); (lit "body", PObject)].

(** The request bodies of the two families, as [call_bedrock] builds
    them (lines 167-172 and 178-185). *)
Definition anthropic_body (messages : list val) (max_tokens : Z)
    (temperature : float) : val :=
  PDict [(lit "anthropic_version", PStr (lit "bedrock-2023-05-31"));
         (lit "max_tokens", PInt max_tokens);
         (lit "messages", PList messages);
         (lit "temperature", PFloat temperature)].

Definition titan_body (prompt : pystr) (max_tokens : Z) (temperature : float)
    : val :=
  PDict [(lit "inputText", PStr prompt);
         (lit "textGenerationConfig",
          PDict [(lit "maxTokenCount", PInt max_tokens);
                 (lit "temperature", PFloat temperature);
                 (lit "topP", PFloat (float_literal (9 # 10)))])].

(** A turn given by the texts of its role and of its content, and the
    line [format_messages_for_titan] adds for it (lines 286-289): none
    for a role other than user and assistant. *)
Definition text_turn (t : pystr * pystr) : val := turn (fst t) (PStr (snd t)).

Definition titan_line (t : pystr * pystr) : pystr :=
  if pystr_eqb (fst t) (lit "user") then lit "User: " ++ snd t ++ newline
  else if pystr_eqb (fst t) (lit "assistant")
  then lit "Assistant: " ++ snd t ++ newline
  else [].

Definition titan_prompt (turns : list (pystr * pystr)) : pystr :=
  concat (List.map titan_line turns) ++ lit "Assistant: ".

(** The history stage of the handler (lines 93-95). *)
Definition load_history (session_id : val) : M val :=
  if truthy session_id then get_conversation_history session_id
  else ret (PList []).

(** The text of the [aws_error] response for a [ClientError] (lines
    130-137). *)
Definition aws_error_message (error_code message text : pystr) : pystr :=
  if pystr_eqb error_code (lit "AccessDeniedException") then
    lit "모델 액세스 권한이 없습니다. AWS 콘솔에서 Model access를 활성화하세요."
  else if pystr_eqb error_code (lit "ThrottlingException") then
    lit "요청이 너무 많습니다. 잠시 후 다시 시도해주세요."
  else if pystr_eqb error_code (lit "ValidationException") then
    lit "요청 형식이 잘못되었습니다: " ++ message
  else lit "AWS 서비스 오류: " ++ text.

(** What leaves the [except] clauses of [call_bedrock] (lines 208-213)
    for an exception [e] of its [try] block: [e] itself or the wrapping
    [Exception] when the log line can be written, the error of [print]
    when it cannot. *)
Definition except_clause (e : exn) : exn :=
  match e with
  | ClientError _ _ text =>
      let line := lit "Bedrock ClientError: " ++ text in
      if printable line then e
      else PyError UnicodeEncodeError_ (fault_text (Unencodable line))
  | PyError _ text =>
      let line := lit "Bedrock call error: " ++ text in
      if printable line
      then PyError Exception_ (lit "모델 호출 중 오류가 발생했습니다: " ++ text)
      else PyError UnicodeEncodeError_ (fault_text (Unencodable line))
  end.

(** A table is configured: [DYNAMODB_TABLE] is set and not empty (the
    test of lines 219 and 245, negated). *)
Definition configured (w : world) : bool :=
  match environ w !! lit "DYNAMODB_TABLE" with
  | Some n => negb (is_empty n)
  | None => false
  end.

End Program.

(** The two-turn conversation of the specification's Titan example, and
    the prompt expected for it. *)
Definition hi_hello `{B : Builtins} : list (pyval float) :=
  [turn (lit "user") (PStr (lit "Hi"));
   turn (lit "assistant") (PStr (lit "Hello"))].

Definition hi_hello_prompt : pystr :=
  lit "User: Hi" ++ newline ++ lit "Assistant: Hello" ++ newline
    ++ lit "Assistant: ".

(** ** A reference interpreter

    One instance of [Builtins], on which the program can be run: floats
    are exact rationals, and the text built-ins cover plain decimal
    numbers and JSON without exponents and without [\u] escapes.  The
    theorems below hold for every instance; this one evaluates them on
    concrete requests. *)

Module Reference.

Definition jval : Type := pyval Q.

Definition is_digit (c : N) : bool := ((48 <=? c) && (c <=? 57))%N.

(** The digits at the head of [s], as a number, with how many there are
    and the rest of the text. *)
Fixpoint digits (acc : Z) (count : nat) (s : pystr) : Z * nat * pystr :=
  match s with
  | c :: s' =>
      if is_digit c then digits (10 * acc + Z.of_N (c - 48)) (S count) s'
      else (acc, count, s)
  | [] => (acc, count, s)
  end.

Definition signed (s : pystr) : bool * pystr :=
  match s with
  | 45%N :: s' => (true, s')
  | _ => (false, s)
  end.

(** A JSON number at the head of [s]: an integer, or a float when it has
    a fraction. *)
Definition number (s : pystr) : option (jval * pystr) :=
  let '(negative, s1) := signed s in
  let '(whole, n, s2) := digits 0 0 s1 in
  let sign := if negative then (-1) else 1 in
  match n, s2 with
  | O, _ => None
  | _, 46%N :: s3 =>
      let '(frac, m, s4) := digits 0 0 s3 in
      match m with
      | O => None
      | _ => Some (PFloat (inject_Z sign *
                           (inject_Z whole + (frac # Pos.pow 10 (Pos.of_nat m))))%Q, s4)
      end
  | _, _ => Some (PInt (sign * whole), s2)
  end.

Definition is_json_space (c : N) : bool :=
  ((c =? 32) || (c =? 9) || (c =? 10) || (c =? 13))%N.

Fixpoint skip_space (s : pystr) : pystr :=
  match s with
  | c :: s' => if is_json_space c then skip_space s' else s
  | [] => []
  end.

(** The characters of a JSON string after its opening quote. *)
Fixpoint string_chars (acc : pystr) (s : pystr) : option (pystr * pystr) :=
  match s with
  | 34%N :: s' => Some (rev acc, s')
  | 92%N :: c :: s' =>
      if (c =? 110)%N then string_chars (10%N :: acc) s'
      else if (c =? 116)%N then string_chars (9%N :: acc) s'
      else if (c =? 114)%N then string_chars (13%N :: acc) s'
      else if ((c =? 34) || (c =? 92) || (c =? 47))%N then string_chars (c :: acc) s'
      else None
  | c :: s' => if (c <? 32)%N then None else string_chars (c :: acc) s'
  | [] => None
  end.

(** A later occurrence of a key replaces the value of an earlier one. *)
Fixpoint dict_set (k : pystr) (v : jval) (d : pydict Q) : pydict Q :=
  match d with
  | [] => [(k, v)]
  | (k', v') :: d' =>
      if pystr_eqb k k' then (k, v) :: d' else (k', v') :: dict_set k v d'
  end.

Fixpoint value (fuel : nat) (s : pystr) : option (jval * pystr) :=
  match fuel with
  | O => None
  | S fuel' =>
      match skip_space s with
      | 110%N :: 117%N :: 108%N :: 108%N :: r => Some (PNone, r)
      | 116%N :: 114%N :: 117%N :: 101%N :: r => Some (PBool true, r)
      | 102%N :: 97%N :: 108%N :: 115%N :: 101%N :: r => Some (PBool false, r)
      | 34%N :: r =>
          match string_chars [] r with
          | Some (t, r') => Some (PStr t, r')
          | None => None
          end
      | 91%N :: r =>
          match skip_space r with
          | 93%N :: r' => Some (PList [], r')
          | _ => items fuel' [] r
          end
      | 123%N :: r =>
          match skip_space r with
          | 125%N :: r' => Some (PDict [], r')
          | _ => members fuel' [] r
          end
      | r => number r
      end
  end
with items (fuel : nat) (acc : list jval) (s : pystr) : option (jval * pystr) :=
  match fuel with
  | O => None
  | S fuel' =>
      match value fuel' s with
      | Some (v, r) =>
          match skip_space r with
          | 44%N :: r' => items fuel' (v :: acc) r'
          | 93%N :: r' => Some (PList (rev (v :: acc)), r')
          | _ => None
          end
      | None => None
      end
  end
with members (fuel : nat) (acc : pydict Q) (s : pystr) : option (jval * pystr) :=
  match fuel with
  | O => None
  | S fuel' =>
      match skip_space s with
      | 34%N :: r =>
          match string_chars [] r with
          | Some (k, r1) =>
              match skip_space r1 with
              | 58%N :: r2 =>
                  match value fuel' r2 with
                  | Some (v, r3) =>
                      match skip_space r3 with
                      | 44%N :: r4 => members fuel' (dict_set k v acc) r4
                      | 125%N :: r4 => Some (PDict (dict_set k v acc), r4)
                      | _ => None
                      end
                  | None => None
                  end
              | _ => None
              end
          | None => None
          end
      | _ => None
      end
  end.

Definition loads (s : pystr) : option jval :=
  match value (2 * length s + 2) s with
  | Some (v, r) => if is_empty (skip_space r) then Some v else None
  | None => None
  end.

(** [int(s)]: surrounding blanks, a sign, decimal digits. *)
Definition parse_int (s : pystr) : option Z :=
  let t := strip s in
  let '(negative, t1) :=
    match t with
    | 43%N :: t' => (false, t')
    | _ => signed t
    end in
  match digits 0 0 t1 with
  | (_, O, _) => None
  | (z, _, []) => Some (if negative then - z else z)
  | _ => None
  end.

(** [float(s)]: surrounding blanks, then a JSON number. *)
Definition parse_float (s : pystr) : option Q :=
  match number (strip s) with
  | Some (PFloat q, []) => Some q
  | Some (PInt z, []) => Some (inject_Z z)
  | _ => None
  end.

(** [int(q)] truncates toward zero. *)
Definition truncate (q : Q) : Z := Z.quot (Qnum q) (Zpos (Qden q)).

(** [round(b - a, 2)], ties to even. *)
Definition round_elapsed (a b : Q) : Q :=
  let x := ((b - a) * inject_Z 100)%Q in
  let f := Qfloor x in
  let up :=
    match Qcompare (x - inject_Z f)%Q (1 # 2) with
    | Lt => false
    | Gt => true
    | Eq => Z.odd f
    end in
  (if up then f + 1 else f) # 100.

Fixpoint decimal (fuel : nat) (n : Z) (acc : pystr) : pystr :=
  match fuel with
  | O => acc
  | S fuel' =>
      let acc' := (Z.to_N (n mod 10) + 48)%N :: acc in
      if n <? 10 then acc' else decimal fuel' (n / 10) acc'
  end.

Definition show_int (z : Z) : pystr :=
  let body := decimal (S (Z.to_nat (Z.log2 (Z.abs z)))) (Z.abs z) [] in
  if z <? 0 then 45%N :: body else body.

Definition type_name (v : jval) : pystr :=
  match v with
  | PNone => lit "NoneType"
  | PBool _ => lit "bool"
  | PInt _ => lit "int"
  | PFloat _ => lit "float"
  | PStr _ => lit "str"
  | PList _ => lit "list"
  | PDict _ => lit "dict"
  | PObject => lit "object"
  end.

(** [str(v)] for [None], booleans, integers and strings; the other
    values print as their type name between angle brackets. *)
Definition show (v : jval) : pystr :=
  match v with
  | PNone => lit "None"
  | PBool true => lit "True"
  | PBool false => lit "False"
  | PInt z => show_int z
  | PStr s => s
  | _ => lit "<" ++ type_name v ++ lit ">"
  end.

Definition describe (f : fault Q) : pystr :=
  match f with
  | NoAttribute v attr =>
      lit "'" ++ type_name v ++ lit "' object has no attribute '" ++ attr ++ lit "'"
  | NotContainer v => lit "argument of type '" ++ type_name v ++ lit "' is not iterable"
  | NoLen v => lit "object of type '" ++ type_name v ++ lit "' has no len()"
  | BadSubscript v _ => lit "'" ++ type_name v ++ lit "' object is not subscriptable"
  | MissingKey k => lit "'" ++ k ++ lit "'"
  | IndexOutOfRange => lit "list index out of range"
  | IntArgument (PStr s) =>
      lit "invalid literal for int() with base 10: '" ++ s ++ lit "'"
  | IntArgument v =>
      lit "int() argument must be a string, a bytes-like object or a real number, not '"
        ++ type_name v ++ lit "'"
  | FloatArgument (PStr s) =>
      lit "could not convert string to float: '" ++ s ++ lit "'"
  | FloatArgument v =>
      lit "float() argument must be a string or a real number, not '"
        ++ type_name v ++ lit "'"
  | JsonArgument v =>
      lit "the JSON object must be str, bytes or bytearray, not " ++ type_name v
  | JsonSyntax _ => lit "Expecting value"
  | Unencodable _ =>
      lit "'utf-8' codec can't encode character: surrogates not allowed"
  | NotSerializable v =>
      lit "Object of type " ++ type_name v ++ lit " is not JSON serializable"
  | UnboundLocal name =>
      lit "cannot access local variable '" ++ name
        ++ lit "' where it is not associated with a value"
  end.

#[export] Instance builtins : Builtins := {|
  float := Q;
  json_loads := loads;
  json_error := fun _ => JSONDecodeError_;
  int_of_str := parse_int;
  float_of_str := parse_float;
  int_of_float := fun q => Some (truncate q);
  float_is_nan := fun _ => false;
  float_of_int := fun z =>
    if Z.abs z <? 2 ^ 1024 then Some (inject_Z z) else None;
  float_truthy := fun q => negb (Qeq_bool q 0);
  float_literal := fun q => q;
  elapsed := round_elapsed;
  str_of := show;
  fault_text := describe;
  json_loads_empty_object := eq_refl;
  str_of_str := fun _ => eq_refl
|}.

End Reference.

(** ** Concrete requests and worlds

    Used to run the handler under the reference interpreter. *)

Module Examples.

Import Reference.

(** JSON text, written with ['] where the text has a double quote. *)
Definition json (s : string) : pystr :=
  List.map (fun c => if (c =? 39)%N then 34%N else c) (lit s).

(** A POST event with the given body text. *)
Definition post (text : pystr) : jval :=
  PDict [(lit "httpMethod", PStr (lit "POST")); (lit "body", PStr text)].

(** The body [{"message": message}], for a message without quotes or
    backslashes. *)
Definition message_body (message : pystr) : pystr :=
  json "{'message': '" ++ message ++ json "'}".

(** A message of 10,001 characters. *)
Definition long_message : pystr := repeat 97%N (Z.to_nat 10001).

(** A POST event without a ['body'] key, and one whose body is [None]. *)
Definition post_without_body : jval :=
  PDict [(lit "httpMethod", PStr (lit "POST"))].

Definition post_null_body : jval :=
  PDict [(lit "httpMethod", PStr (lit "POST")); (lit "body", PNone)].

(** The endpoint answers every invocation in the shape of both families. *)
Definition reply_ok : pystr :=
  json "{'content': [{'text': 'ok'}], 'results': [{'outputText': 'ok'}]}".

(** A world with the given environment and table; the clock advances by
    one second and a half per reading, and nothing fails. *)
Definition world_of (env : gmap pystr pystr) (items : gmap pystr (pydict Q))
    : world :=
  {| environ := env;
     clock := fun n => (inject_Z 1700000000 + inject_Z (Z.of_nat n) * (3 # 2))%Q;
     ticks := 0;
     bedrock := fun _ _ => Reply reply_ok;
     bedrock_calls := [];
     table := items;
     get_fault := fun _ => None;
     put_fault := fun _ => None;
     store_ops := [] |}.

(** No table is configured. *)
Definition plain_world : world := world_of ∅ ∅.

(** The table [chat] is configured and empty. *)
Definition chat_env : gmap pystr pystr :=
  {[ lit "DYNAMODB_TABLE" := lit "chat" ]}.

Definition chat_world : world := world_of chat_env ∅.

(** The same world with the store out of reach: every request fails. *)
Definition unreachable : exn :=
  PyError ServiceError_ (lit "Could not connect to the endpoint URL").

Definition offline_world : world :=
  {| environ := chat_env;
     clock := clock chat_world;
     ticks := 0;
     bedrock := bedrock chat_world;
     bedrock_calls := [];
     table := ∅;
     get_fault := fun _ => Some unreachable;
     put_fault := fun _ => Some unreachable;
     store_ops := [] |}.

(** The table already holds an item for session [s1], written long ago
    with an expiry far in the future. *)
Definition old_item : pydict Q :=
  history_item (PStr (lit "s1")) [] 5 9999999999.

Definition returning_world : world :=
  world_of chat_env {[ lit "s1" := old_item ]}.

(** A preflight request with a body that is not JSON, a GET request, an
    event without a method, and an event that is a JSON array. *)
Definition options_event : jval :=
  PDict [(lit "httpMethod", PStr (lit "OPTIONS")); (lit "body", PStr (lit "{oops"))].

Definition get_event : jval :=
  PDict [(lit "httpMethod", PStr (lit "GET"))].

Definition bare_event : jval := PDict [].

Definition array_event : jval := PList [PInt 1; PInt 2].

(** A world whose endpoint rejects every invocation with the given
    [ClientError], and one whose endpoint answers with the given text. *)
Definition rejecting_world (env : gmap pystr pystr)
    (items : gmap pystr (pydict Q)) (code message : pystr) : world :=
  {| environ := env;
     clock := clock plain_world;
     ticks := 0;
     bedrock := fun _ _ =>
       Fails (ClientError code message
                (lit "An error occurred (" ++ code
                   ++ lit ") when calling the InvokeModel operation: "
                   ++ message));
     bedrock_calls := [];
     table := items;
     get_fault := fun _ => None;
     put_fault := fun _ => None;
     store_ops := [] |}.

Definition replying_world (env : gmap pystr pystr)
    (items : gmap pystr (pydict Q)) (raw : pystr) : world :=
  {| environ := env;
     clock := clock plain_world;
     ticks := 0;
     bedrock := fun _ _ => Reply raw;
     bedrock_calls := [];
     table := items;
     get_fault := fun _ => None;
     put_fault := fun _ => None;
     store_ops := [] |}.

(** The endpoint throttles; the table [chat] is configured. *)
Definition throttling : exn :=
  ClientError (lit "ThrottlingException") (lit "Too many requests")
    (lit "An error occurred (ThrottlingException) when calling the InvokeModel operation: Too many requests").

Definition throttled_world : world :=
  rejecting_world chat_env ∅ (lit "ThrottlingException")
    (lit "Too many requests").

Definition user_hello : jval := turn (lit "user") (PStr (lit "hello")).

(** A request of session [s1], and one with a blank message. *)
Definition session_request : pystr :=
  json "{'message': 'hello', 'session_id': 's1'}".

Definition blank_request : pystr := json "{'message': '   '}".

Definition assistant_ok : jval := turn (lit "assistant") (PStr (lit "ok")).

(** The table holds one exchange of session [s1]. *)
Definition talking_world : world :=
  world_of chat_env
    {[ lit "s1" := history_item (PStr (lit "s1")) [user_hello; assistant_ok]
                     5 9999999999 ]}.

(** [n] turns, user and assistant in alternation, numbered from [k]. *)
Fixpoint turns (k : Z) (n : nat) : list jval :=
  match n with
  | O => []
  | S n' =>
      turn (if Z.even k then lit "user" else lit "assistant") (PInt k)
        :: turns (k + 1) n'
  end.

End Examples.

(** * Properties *)

(** ** Strings *)

Lemma pystr_eqb_eq (s t : pystr) : pystr_eqb s t = true <-> s = t.
Proof.
  revert t. induction s as [|a s IH]; intros [|b t]; simpl; split;
    try congruence; try reflexivity.
  - intros H. apply andb_prop in H as [Hab Hst].
    apply N.eqb_eq in Hab. apply IH in Hst. congruence.
  - intros H. injection H as -> ->. rewrite N.eqb_refl. simpl. now apply IH.
Qed.

Lemma pystr_eqb_refl (s : pystr) : pystr_eqb s s = true.
Proof. now apply pystr_eqb_eq. Qed.

Lemma lstrip_length (s : pystr) : (length (lstrip s) <= length s)%nat.
Proof.
  induction s as [|c s IH]; simpl; [lia|].
  destruct (is_space c); simpl; lia.
Qed.

Lemma lstrip_blank (s : pystr) : forallb is_space s = true <-> lstrip s = [].
Proof.
  induction s as [|c s IH]; simpl; [tauto|].
  destruct (is_space c); simpl; [exact IH|]. split; discriminate.
Qed.

Lemma lstrip_idempotent (s : pystr) : lstrip (lstrip s) = lstrip s.
Proof.
  induction s as [|c s IH]; simpl; [reflexivity|].
  destruct (is_space c) eqn:E; [exact IH|]. simpl. now rewrite E.
Qed.

Lemma strip_length (s : pystr) : (length (strip s) <= length s)%nat.
Proof.
  unfold strip, rstrip. rewrite length_rev.
  pose proof (lstrip_length (rev (lstrip s))) as H1.
  rewrite length_rev in H1. pose proof (lstrip_length s). lia.
Qed.

Lemma forallb_reverse {A : Type} (f : A -> bool) (l : list A) :
  forallb f (rev l) = forallb f l.
Proof.
  induction l as [|x l IH]; simpl; [reflexivity|].
  rewrite forallb_app, IH. simpl. rewrite andb_true_r. apply andb_comm.
Qed.

(** [lstrip] removes a prefix, so what it returns is a suffix. *)
Lemma lstrip_suffix (s : pystr) : exists p, s = p ++ lstrip s /\ forallb is_space p = true.
Proof.
  induction s as [|c s [p [Hp Hb]]]; simpl.
  - exists []. split; reflexivity.
  - destruct (is_space c) eqn:E.
    + exists (c :: p). simpl. rewrite E, Hb. split; [congruence | reflexivity].
    + exists []. split; reflexivity.
Qed.

(** A string strips to the empty string exactly when it is empty or made
    of white space only. *)
Lemma strip_blank (s : pystr) : forallb is_space s = true <-> strip s = [].
Proof.
  unfold strip, rstrip. split.
  - intros H. apply lstrip_blank in H. rewrite H. reflexivity.
  - intros H.
    assert (Hr : lstrip (rev (lstrip s)) = []).
    { destruct (lstrip (rev (lstrip s))) as [|x l]; [reflexivity|].
      simpl in H. destruct (rev l); discriminate. }
    apply lstrip_blank in Hr. rewrite forallb_reverse in Hr.
    destruct (lstrip_suffix s) as [p [Hp Hb]].
    rewrite Hp, forallb_app, Hb, Hr. reflexivity.
Qed.

Lemma rev_repeat_same {A : Type} (a : A) (n : nat) :
  rev (repeat a n) = repeat a n.
Proof.
  induction n as [|n IH]; [reflexivity|].
  simpl. rewrite IH. symmetry. apply repeat_cons.
Qed.

(** A run of one character that is not white space strips to itself. *)
Lemma strip_repeat (c : N) (n : nat) :
  is_space c = false -> strip (repeat c n) = repeat c n.
Proof.
  intros Hc. destruct n as [|n]; [reflexivity|].
  unfold strip, rstrip.
  assert (Hl : forall k, lstrip (repeat c (S k)) = repeat c (S k)).
  { intros k. simpl. now rewrite Hc. }
  rewrite Hl, rev_repeat_same, Hl. apply rev_repeat_same.
Qed.

(** The reference parser on a string of letters [a], and on the body
    [{"message": "aa...a"}]. *)
Lemma string_chars_letters (n : nat) (acc rest : pystr) :
  Reference.string_chars acc (repeat 97%N n ++ 34%N :: rest)
  = Some (rev acc ++ repeat 97%N n, rest).
Proof.
  revert acc. induction n as [|n IH]; intros acc.
  - simpl. now rewrite app_nil_r.
  - change (repeat 97%N (S n) ++ 34%N :: rest)
      with (97%N :: (repeat 97%N n ++ 34%N :: rest)).
    change (Reference.string_chars acc (97%N :: (repeat 97%N n ++ 34%N :: rest)))
      with (Reference.string_chars (97%N :: acc) (repeat 97%N n ++ 34%N :: rest)).
    rewrite IH. simpl. now rewrite <- List.app_assoc.
Qed.

Lemma loads_letters (n : nat) :
  Reference.loads (Examples.message_body (repeat 97%N n))
  = Some (PDict [(lit "message", PStr (repeat 97%N n))]).
Proof.
  unfold Reference.loads, Examples.message_body.
  change (Examples.json "'}") with [34%N; 125%N].
  change (Examples.json "{'message': '") with
    ([123; 34; 109; 101; 115; 115; 97; 103; 101; 34; 58; 32; 34]%N).
  remember (repeat 97%N n ++ [34%N; 125%N]) as rest eqn:Hrest.
  assert (Hfuel : exists f,
             (2 * length ([123; 34; 109; 101; 115; 115; 97; 103; 101; 34;
                           58; 32; 34]%N ++ rest) + 2)%nat
             = S (S (S f))).
  { simpl. eexists. rewrite Nat.add_succ_r. reflexivity. }
  destruct Hfuel as [f ->].
  cbn. subst rest. rewrite (string_chars_letters n [] [125%N]).
  cbn. reflexivity.
Qed.

(** ** The model adapter and the inference call *)

Lemma str_in_text `{B : Builtins} (s t : pystr) :
  str_in s (PStr t) = Ok (contains s t).
Proof. reflexivity. Qed.

Lemma format_hi_hello `{B : Builtins} :
  format_messages_for_titan hi_hello = Ok hi_hello_prompt.
Proof.
  cbv -[str_of float]. rewrite !str_of_str. reflexivity.
Qed.

Lemma printable_app (s t : pystr) :
  printable (s ++ t) = printable s && printable t.
Proof. unfold printable. apply forallb_app. Qed.

Lemma py_print_ok `{B : Builtins} (text : pystr) :
  printable text = true -> py_print text = Ok tt.
Proof. unfold py_print. now intros ->. Qed.

(** The log line of line 190 is written when the model id can be. *)
Lemma model_line_printed `{B : Builtins} (model_id : pyval float) :
  printable (str_of model_id) = true ->
  py_print (lit "Calling Bedrock model: " ++ str_of model_id) = Ok tt.
Proof.
  intros Hid. apply py_print_ok. rewrite printable_app, Hid. reflexivity.
Qed.

(** [call_bedrock], stage by stage: what its [try] block raises leaves
    through [except_clause]; the invocation is on record once the body is
    built, the log line written and the body serialised. *)
Lemma call_bedrock_stages `{B : Builtins} (messages : list (pyval float))
    (model_id : pyval float) (max_tokens : Z) (temperature : float)
    (w : world) :
  call_bedrock messages model_id max_tokens temperature w
  = match build_body messages model_id max_tokens temperature with
    | Raise e => (w, Raise (except_clause e))
    | Ok body =>
        match py_print (lit "Calling Bedrock model: " ++ str_of model_id) with
        | Raise e => (w, Raise (except_clause e))
        | Ok _ =>
            match check_serializable body with
            | Raise e => (w, Raise (except_clause e))
            | Ok _ =>
                (record_call model_id body w,
                 match bedrock w model_id body with
                 | Fails e => Raise (except_clause e)
                 | Reply raw =>
                     match obind (py_json_loads raw) (parse_response model_id)
                     with
                     | Ok reply => Ok reply
                     | Raise e => Raise (except_clause e)
                     end
                 end)
            end
        end
    end.
Proof.
  assert (Hexcept : forall (e : exn) (w' : world),
             match e with
             | ClientError _ _ _ =>
                 bind (lift (py_print (lit "Bedrock ClientError: " ++ str_exn e)))
                   (fun _ => raise (A := pyval float) e)
             | PyError _ _ =>
                 bind (lift (py_print (lit "Bedrock call error: " ++ str_exn e)))
                   (fun _ =>
                      raise (A := pyval float)
                        (PyError Exception_
                           (lit "모델 호출 중 오류가 발생했습니다: " ++ str_exn e)))
             end w' = (w', Raise (except_clause e))).
  { intros [code message text|cls text] w';
      unfold bind, lift, raise, py_print, fault_of, except_clause, str_exn;
      cbv zeta;
      match goal with
      | |- context [printable ?line] => destruct (printable line)
      end; reflexivity. }
  unfold call_bedrock, catch. unfold bind at 1. unfold lift at 1.
  destruct (build_body messages model_id max_tokens temperature) as [body|e];
    [|apply Hexcept].
  unfold bind at 1. unfold lift at 1.
  destruct (py_print (lit "Calling Bedrock model: " ++ str_of model_id))
    as [[]|e]; [|apply Hexcept].
  unfold bind at 1. unfold invoke_model. unfold bind at 1. unfold lift at 1.
  destruct (check_serializable body) as [[]|e]; [|apply Hexcept].
  destruct (bedrock w model_id body) as [raw|e]; [|apply Hexcept].
  unfold bind, lift, obind.
  destruct (py_json_loads raw) as [v|e]; [|apply Hexcept].
  destruct (parse_response model_id v) as [reply|e];
    [reflexivity | apply Hexcept].
Qed.

(** Whatever the endpoint answers, [call_bedrock] on a body it could
    build has issued exactly one invocation, with that body, once the
    model id is in the log. *)
Lemma call_bedrock_records `{B : Builtins} (messages : list (pyval float))
    (model_id body : pyval float) (max_tokens : Z) (temperature : float)
    (w : world) :
  build_body messages model_id max_tokens temperature = Ok body ->
  printable (str_of model_id) = true ->
  serializable body = true ->
  bedrock_calls (fst (call_bedrock messages model_id max_tokens temperature w))
  = (model_id, body) :: bedrock_calls w.
Proof.
  intros Hbody Hid Hser.
  rewrite call_bedrock_stages, Hbody, (model_line_printed _ Hid).
  unfold check_serializable. rewrite Hser. reflexivity.
Qed.

(** C5: for a model id of the Titan family (it contains "amazon.titan"
    and is not taken for an Anthropic one) and the conversation
    [{user, "Hi"}, {assistant, "Hello"}], the body built for the endpoint
    carries exactly the prompt "User: Hi\nAssistant: Hello\nAssistant: ",
    and that body is the one [call_bedrock] sends, once the log line with
    the model id is written. *)
Theorem titan_prompt_hi_hello `{B : Builtins} (model_id : pystr)
    (max_tokens : Z) (temperature : float) (w : world) :
  contains (lit "amazon.titan") model_id = true ->
  contains (lit "anthropic") model_id = false ->
  let body :=
    PDict [(lit "inputText", PStr hi_hello_prompt);
           (lit "textGenerationConfig",
            PDict [(lit "maxTokenCount", PInt max_tokens);
                   (lit "temperature", PFloat temperature);
                   (lit "topP", PFloat (float_literal (9 # 10)))])] in
  format_messages_for_titan hi_hello = Ok hi_hello_prompt /\
  build_body hi_hello (PStr model_id) max_tokens temperature = Ok body /\
  (printable model_id = true ->
   bedrock_calls (fst (call_bedrock hi_hello (PStr model_id) max_tokens
                         temperature w))
   = (PStr model_id, body) :: bedrock_calls w).
Proof.
  intros Htitan Hanthropic body.
  assert (Hbuild : build_body hi_hello (PStr model_id) max_tokens temperature
                   = Ok body).
  { unfold build_body. rewrite !str_in_text, Hanthropic, Htitan.
    unfold obind at 1 2. rewrite format_hi_hello. reflexivity. }
  split; [apply format_hi_hello|]. split; [exact Hbuild|].
  intros Hid.
  apply call_bedrock_records;
    [exact Hbuild | now rewrite str_of_str | reflexivity].
Qed.

Lemma titan_prompt_hi_hello_witness :
  let model_id := lit "amazon.titan-text-express-v1" in
  hi_hello_prompt
  = [85; 115; 101; 114; 58; 32; 72; 105; 10;
     65; 115; 115; 105; 115; 116; 97; 110; 116; 58; 32;
     72; 101; 108; 108; 111; 10;
     65; 115; 115; 105; 115; 116; 97; 110; 116; 58; 32]%N /\
  format_messages_for_titan (B := Reference.builtins) hi_hello
  = Ok hi_hello_prompt /\
  dict_find (lit "inputText")
    (match build_body (B := Reference.builtins) hi_hello (PStr model_id)
             1000 (7 # 10) with
     | Ok (PDict d) => d
     | _ => []
     end) = Some (PStr hi_hello_prompt).
Proof.
  intros model_id.
  destruct (titan_prompt_hi_hello (B := Reference.builtins) model_id 1000
              (7 # 10) Examples.plain_world) as [Hformat [Hbuild _]];
    [reflexivity | reflexivity |].
  split; [reflexivity|]. split; [exact Hformat|].
  rewrite Hbuild. reflexivity.
Defined.

(** C2, as the code has it: for a model id that contains neither
    "anthropic" nor "amazon.titan", building the body raises a
    [ValueError] naming the model, and [call_bedrock] leaves the world as
    it was: no invocation is made.  When the id can be written to the log
    (it holds no lone surrogate), [call_bedrock] re-raises the error as a
    plain [Exception] whose text is the original text behind a fixed
    prefix, and the handler's [except] clause answers it with status 500,
    status text [internal_error] and that text behind the prefix of the
    handler. *)
Theorem unsupported_model_is_wrapped `{B : Builtins}
    (messages : list (pyval float)) (model_id : pystr) (max_tokens : Z)
    (temperature : float) (w : world) (hdrs : list (pystr * pystr)) :
  contains (lit "anthropic") model_id = false ->
  contains (lit "amazon.titan") model_id = false ->
  let unsupported := lit "지원하지 않는 모델입니다: " ++ model_id in
  let wrapped := lit "모델 호출 중 오류가 발생했습니다: " ++ unsupported in
  build_body messages (PStr model_id) max_tokens temperature
  = Raise (PyError ValueError_ unsupported) /\
  fst (call_bedrock messages (PStr model_id) max_tokens temperature w) = w /\
  (printable model_id = true ->
   call_bedrock messages (PStr model_id) max_tokens temperature w
   = (w, Raise (PyError Exception_ wrapped)) /\
   respond hdrs (w, Raise (PyError Exception_ wrapped))
   = (w, Returned
           {| statusCode := 500;
              headers := hdrs;
              body := PDict [(lit "error",
                              PStr (lit "서버 내부 오류가 발생했습니다: "
                                      ++ wrapped));
                             (lit "status", PStr (lit "internal_error"))] |})).
Proof.
  intros Hanthropic Htitan unsupported wrapped.
  assert (Hbuild : build_body messages (PStr model_id) max_tokens temperature
                   = Raise (PyError ValueError_ unsupported)).
  { unfold build_body. rewrite !str_in_text, Hanthropic, Htitan.
    unfold obind. rewrite str_of_str. reflexivity. }
  split; [exact Hbuild|].
  rewrite call_bedrock_stages, Hbuild. split; [reflexivity|].
  intros Hid. split; [|reflexivity].
  unfold except_clause. cbv zeta. fold unsupported.
  assert (Hline : printable (lit "Bedrock call error: " ++ unsupported) = true).
  { unfold unsupported. rewrite !printable_app, Hid. reflexivity. }
  rewrite Hline. reflexivity.
Qed.

Lemma unsupported_model_is_wrapped_witness :
  call_bedrock (B := Reference.builtins)
    [Examples.user_hello] (PStr (lit "gpt-4")) 1000 (7 # 10)
    Examples.plain_world
  = (Examples.plain_world,
     Raise (PyError Exception_
              (lit "모델 호출 중 오류가 발생했습니다: 지원하지 않는 모델입니다: gpt-4")))
  /\
  respond (B := Reference.builtins) cors_headers
    (Examples.plain_world,
     Raise (PyError Exception_
              (lit "모델 호출 중 오류가 발생했습니다: 지원하지 않는 모델입니다: gpt-4")))
  = (Examples.plain_world,
     Returned
       {| statusCode := 500;
          headers := cors_headers;
          body := PDict [(lit "error",
                          PStr (lit "서버 내부 오류가 발생했습니다: "
                                  ++ lit "모델 호출 중 오류가 발생했습니다: 지원하지 않는 모델입니다: gpt-4"));
                         (lit "status", PStr (lit "internal_error"))] |}).
Proof.
  destruct (unsupported_model_is_wrapped (B := Reference.builtins)
              [Examples.user_hello] (lit "gpt-4") 1000
              (7 # 10) Examples.plain_world cors_headers)
    as [_ [_ Hwrapped]]; [reflexivity | reflexivity |].
  destruct (Hwrapped eq_refl) as [Hcall Hrespond].
  assert (Htext : lit "모델 호출 중 오류가 발생했습니다: "
                    ++ lit "지원하지 않는 모델입니다: " ++ lit "gpt-4"
                  = lit "모델 호출 중 오류가 발생했습니다: 지원하지 않는 모델입니다: gpt-4")
    by reflexivity.
  cbv zeta in Hcall, Hrespond. rewrite Htext in Hcall, Hrespond.
  split; [exact Hcall | exact Hrespond].
Defined.

(** The error that leaves [call_bedrock] is not the one the adapter
    raised: class and text both differ. *)
Lemma unsupported_model_error_rewrapped :
  let raised := PyError ValueError_ (lit "지원하지 않는 모델입니다: gpt-4") in
  build_body (B := Reference.builtins)
    [Examples.user_hello] (PStr (lit "gpt-4")) 1000 (7 # 10)
  = Raise raised /\
  snd (call_bedrock (B := Reference.builtins)
         [Examples.user_hello] (PStr (lit "gpt-4")) 1000
         (7 # 10) Examples.plain_world)
  <> Raise raised.
Proof.
  split; [reflexivity|]. vm_compute. discriminate.
Qed.

(** ** The history store gateway *)

Lemma table_unconfigured_world `{B : Builtins} (w : world) :
  exists b, table_unconfigured w = (w, Ok b).
Proof. unfold table_unconfigured, bind, getenv, ret. eauto. Qed.

(** [get_conversation_history] never raises and never changes the table. *)
Lemma get_conversation_history_total `{B : Builtins} (session_id : pyval float)
    (w : world) :
  exists w' v,
    get_conversation_history session_id w = (w', Ok v) /\ table w' = table w.
Proof.
  destruct (table_unconfigured_world w) as [b Hb].
  unfold get_conversation_history, bind. rewrite Hb.
  destruct b; [unfold ret; eauto|].
  unfold catch, bind, get_item.
  destruct (get_fault w session_id) as [e|]; [unfold ret; eauto|].
  destruct session_id; try (unfold ret; eauto).
  destruct (table w !! s) as [item|]; [|unfold ret; eauto].
  unfold lift.
  destruct (py_len (dict_get (lit "messages") (PList []) item));
    unfold ret; eauto.
Qed.

(** A [try] whose [except Exception] clause only logs never raises. *)
Lemma catch_swallows `{B : Builtins} (m : M unit) (w : world) :
  exists w', catch m (fun _ => ret tt) w = (w', Ok tt).
Proof.
  unfold catch. destruct (m w) as [w' [[]|e]]; unfold ret; eauto.
Qed.

(** [save_conversation_history] never raises. *)
Lemma save_conversation_history_total `{B : Builtins} (session_id : pyval float)
    (messages : list (pyval float)) (bot_response : pyval float) (w : world) :
  exists w', save_conversation_history session_id messages bot_response w
             = (w', Ok tt).
Proof.
  destruct (table_unconfigured_world w) as [b Hb].
  unfold save_conversation_history. unfold bind at 1. rewrite Hb.
  destruct b; [unfold ret; eauto|].
  apply catch_swallows.
Qed.

(** C3: when the table is not configured, when the key has no item and
    when the read fails, [get_conversation_history] returns the empty list
    and raises nothing, for every session id and every state of the store;
    and when the table is not configured, [save_conversation_history]
    leaves the world as it was (no write) and raises nothing, for every
    input. *)
Theorem history_store_degrades `{B : Builtins} (session_id : pyval float)
    (w : world) :
  (table_unconfigured w = (w, Ok true) ->
   get_conversation_history session_id w = (w, Ok (PList [])) /\
   forall messages bot_response,
     save_conversation_history session_id messages bot_response w = (w, Ok tt))
  /\
  (table_unconfigured w = (w, Ok false) ->
   (forall s, session_id = PStr s -> get_fault w session_id = None ->
              table w !! s = None ->
              get_conversation_history session_id w
              = (record_op (GetItem session_id) w, Ok (PList [])))
   /\
   (forall e, get_fault w session_id = Some e ->
              get_conversation_history session_id w
              = (record_op (GetItem session_id) w, Ok (PList []))))
  /\
  (exists w' v, get_conversation_history session_id w = (w', Ok v)
                /\ table w' = table w).
Proof.
  split; [|split].
  - intros Hoff. split.
    + unfold get_conversation_history, bind. rewrite Hoff. reflexivity.
    + intros messages bot_response.
      unfold save_conversation_history, bind. rewrite Hoff. reflexivity.
  - intros Hon. split.
    + intros s -> Hfault Hmissing.
      unfold get_conversation_history, bind. rewrite Hon.
      unfold catch, bind, get_item. rewrite Hfault, Hmissing. reflexivity.
    + intros e Hfault.
      unfold get_conversation_history, bind. rewrite Hon.
      unfold catch, bind, get_item. rewrite Hfault. reflexivity.
  - apply get_conversation_history_total.
Qed.

(** What a successful save leaves in the world: two more clock readings,
    one store request, and the item under its key. *)
Lemma save_conversation_history_writes `{B : Builtins} (s : pystr)
    (messages : list (pyval float)) (bot_response : pyval float) (w : world)
    (seconds updated_at : Z) :
  table_unconfigured w = (w, Ok false) ->
  int_of_float (clock w (ticks w)) = Some seconds ->
  int_of_float (clock w (S (ticks w))) = Some updated_at ->
  let all := messages ++ [turn (lit "assistant") bot_response] in
  let kept := if 20 <? len all then last20 all else all in
  let item := history_item (PStr s) kept updated_at (seconds + 24 * 60 * 60) in
  put_fault w item = None ->
  save_conversation_history (PStr s) messages bot_response w
  = (write_item s item (record_op (PutItem item) (tick (tick w))), Ok tt).
Proof.
  intros Hon Hfirst Hsecond all kept item Hput.
  unfold save_conversation_history, bind. rewrite Hon.
  unfold catch, bind, time_time, lift, py_int.
  change (clock (tick w)) with (clock w).
  change (ticks (tick w)) with (S (ticks w)).
  rewrite Hfirst, Hsecond.
  fold all. fold kept. fold item.
  unfold put_item.
  change (put_fault (tick (tick w)) item) with (put_fault w item).
  rewrite Hput.
  change (dict_find (lit "session_id") item) with (Some (PStr s : pyval float)).
  reflexivity.
Qed.

Lemma history_store_degrades_witness :
  let sid : pyval (float (Builtins := Reference.builtins)) := PStr (lit "s1") in
  (get_conversation_history sid Examples.plain_world
   = (Examples.plain_world, Ok (PList []))
   /\ save_conversation_history sid (Examples.turns 0 3) (PStr (lit "ok"))
        Examples.plain_world
      = (Examples.plain_world, Ok tt))
  /\ get_conversation_history sid Examples.chat_world
     = (record_op (GetItem sid) Examples.chat_world, Ok (PList []))
  /\ get_conversation_history sid Examples.offline_world
     = (record_op (GetItem sid) Examples.offline_world, Ok (PList [])).
Proof.
  intros sid.
  destruct (history_store_degrades sid Examples.plain_world) as [Hoff _].
  destruct (Hoff eq_refl) as [Hload Hsave].
  destruct (history_store_degrades sid Examples.chat_world) as [_ [Hon _]].
  destruct (Hon eq_refl) as [Hmissing _].
  destruct (history_store_degrades sid Examples.offline_world) as [_ [Hon' _]].
  destruct (Hon' eq_refl) as [_ Hfails].
  split; [split; [exact Hload | apply Hsave]|].
  split; [exact (Hmissing _ eq_refl eq_refl eq_refl)|].
  exact (Hfails _ eq_refl).
Defined.

(** C4: given 23 turns (22 in hand, the assistant's reply appended as
    the 23rd), a save that goes through stores exactly the last 20: the
    first three are dropped, the others are kept in order and unchanged. *)
Theorem save_keeps_last_twenty `{B : Builtins} (s : pystr)
    (messages : list (pyval float)) (bot_response : pyval float) (w : world)
    (seconds updated_at : Z) :
  table_unconfigured w = (w, Ok false) ->
  length messages = 22%nat ->
  int_of_float (clock w (ticks w)) = Some seconds ->
  int_of_float (clock w (S (ticks w))) = Some updated_at ->
  let all := messages ++ [turn (lit "assistant") bot_response] in
  let item :=
    history_item (PStr s) (drop 3 all) updated_at (seconds + 24 * 60 * 60) in
  put_fault w item = None ->
  exists w',
    save_conversation_history (PStr s) messages bot_response w = (w', Ok tt) /\
    table w' !! s = Some item /\
    dict_find (lit "messages") item = Some (PList (drop 3 all)) /\
    length (drop 3 all) = 20%nat /\
    all = take 3 all ++ drop 3 all.
Proof.
  intros Hon Hlen Hfirst Hsecond all item Hput.
  assert (Hall : length all = 23%nat).
  { unfold all. rewrite length_app, Hlen. reflexivity. }
  assert (Hkept : (if 20 <? len all then last20 all else all) = drop 3 all).
  { unfold len, last20. rewrite Hall. reflexivity. }
  pose proof (save_conversation_history_writes s messages bot_response w
                seconds updated_at Hon Hfirst Hsecond) as Hsave.
  cbv zeta in Hsave. fold all in Hsave. rewrite Hkept in Hsave.
  fold item in Hsave. specialize (Hsave Hput).
  eexists. split; [exact Hsave|].
  split; [apply lookup_insert_eq|].
  split; [reflexivity|].
  split; [rewrite length_drop, Hall; reflexivity|].
  symmetry. apply take_drop.
Qed.

Lemma save_keeps_last_twenty_witness :
  exists w',
    save_conversation_history (B := Reference.builtins) (PStr (lit "s1"))
      (Examples.turns 0 22) (PStr (lit "ok")) Examples.chat_world
    = (w', Ok tt) /\
    (table w' !! lit "s1") ≫= dict_find (lit "messages")
    = Some (PList (Examples.turns 3 19 ++ [Examples.assistant_ok])).
Proof.
  destruct (save_keeps_last_twenty (B := Reference.builtins) (lit "s1")
              (Examples.turns 0 22) (PStr (lit "ok")) Examples.chat_world
              1700000000 1700000001 eq_refl eq_refl eq_refl eq_refl eq_refl)
    as [w' [Hsave [Hitem [Hmessages _]]]].
  exists w'. split; [exact Hsave|].
  exact (eq_trans (f_equal (fun o => o ≫= dict_find (lit "messages")) Hitem)
           Hmessages).
Defined.

(** C6: on a save that goes through, the item written carries as
    [updated_at] the clock reading taken for it during this call, and as
    [ttl] the clock reading taken for it during this call plus 86400
    seconds, whatever the table held before: the clock is read once for
    [ttl], then once more for [updated_at]. *)
Theorem save_stamps_current_time `{B : Builtins} (s : pystr)
    (messages : list (pyval float)) (bot_response : pyval float) (w : world)
    (seconds updated_at : Z) :
  table_unconfigured w = (w, Ok false) ->
  int_of_float (clock w (ticks w)) = Some seconds ->
  int_of_float (clock w (S (ticks w))) = Some updated_at ->
  let all := messages ++ [turn (lit "assistant") bot_response] in
  let kept := if 20 <? len all then last20 all else all in
  put_fault w (history_item (PStr s) kept updated_at (seconds + 24 * 60 * 60))
  = None ->
  exists w' item,
    save_conversation_history (PStr s) messages bot_response w = (w', Ok tt) /\
    table w' !! s = Some item /\
    dict_find (lit "updated_at") item = Some (PInt updated_at) /\
    dict_find (lit "ttl") item = Some (PInt (seconds + 86400)).
Proof.
  intros Hon Hfirst Hsecond all kept Hput.
  pose proof (save_conversation_history_writes s messages bot_response w
                seconds updated_at Hon Hfirst Hsecond Hput) as Hsave.
  eexists. eexists. split; [exact Hsave|].
  split; [apply lookup_insert_eq|].
  split; reflexivity.
Qed.

Lemma save_stamps_current_time_witness :
  (Examples.returning_world.(table) !! lit "s1") ≫= dict_find (lit "ttl")
  = Some (PInt 9999999999) /\
  exists w',
    save_conversation_history (B := Reference.builtins) (PStr (lit "s1"))
      [Examples.user_hello] (PStr (lit "ok")) Examples.returning_world
    = (w', Ok tt) /\
    (table w' !! lit "s1") ≫= dict_find (lit "updated_at")
    = Some (PInt 1700000001) /\
    (table w' !! lit "s1") ≫= dict_find (lit "ttl")
    = Some (PInt 1700086400).
Proof.
  split; [reflexivity|].
  destruct (save_stamps_current_time (B := Reference.builtins) (lit "s1")
              [Examples.user_hello] (PStr (lit "ok"))
              Examples.returning_world 1700000000 1700000001
              eq_refl eq_refl eq_refl eq_refl)
    as [w' [item [Hsave [Hitem [Hupdated Httl]]]]].
  exists w'. split; [exact Hsave|].
  split.
  - exact (eq_trans (f_equal (fun o => o ≫= dict_find (lit "updated_at")) Hitem)
             Hupdated).
  - exact (eq_trans (f_equal (fun o => o ≫= dict_find (lit "ttl")) Hitem) Httl).
Defined.

(** ** The handler *)

Lemma eq_str_true `{B : Builtins} (v : pyval float) (s : pystr) :
  eq_str v s = true -> v = PStr s.
Proof.
  destruct v; simpl; try discriminate.
  intros H. apply pystr_eqb_eq in H. congruence.
Qed.

(** A POST event: the method tests of lines 30 and 38 pass, and the
    handler goes on with the text of the body. *)
Lemma handler_body_post `{B : Builtins} (event : pyval float) (text : pystr)
    (w : world) :
  is_post event = true ->
  body_text event = Some text ->
  handler_body cors_headers event w
  = match json_loads text with
    | Some request => handle_request cors_headers request w
    | None =>
        if is_json_decode (json_error text)
        then (w, Ok (malformed_body_response cors_headers))
        else (w, fault_of (json_error text) (JsonSyntax text))
    end.
Proof.
  unfold is_post, body_text. intros Hpost Htext.
  apply andb_prop in Hpost as [_ Hpost].
  destruct event as [| | | | | |d|]; try discriminate.
  apply eq_str_true in Hpost.
  unfold handler_body, bind, lift, py_get. rewrite Hpost.
  change (eq_str (PStr (lit "POST") : pyval float) (lit "OPTIONS")) with false.
  change (eq_str (PStr (lit "POST") : pyval float) (lit "POST")) with true.
  cbv iota. unfold negb.
  destruct (dict_get (lit "body") (PStr (lit "{}")) d); try discriminate.
  injection Htext as ->. unfold py_json_loads.
  destruct (json_loads text); [reflexivity|].
  unfold fault_of, is_decode_error.
  destruct (is_json_decode (json_error text)); reflexivity.
Qed.

Lemma handler_post `{B : Builtins} (event : pyval float) (text : pystr)
    (w : world) :
  is_post event = true ->
  body_text event = Some text ->
  lambda_handler event w
  = respond cors_headers
      match json_loads text with
      | Some request => handle_request cors_headers request w
      | None =>
          if is_json_decode (json_error text)
          then (w, Ok (malformed_body_response cors_headers))
          else (w, fault_of (json_error text) (JsonSyntax text))
      end.
Proof.
  intros Hpost Htext.
  unfold lambda_handler, check_serializable.
  pose proof Hpost as Hser. unfold is_post in Hser.
  apply andb_prop in Hser as [Hser _]. rewrite Hser.
  cbv zeta. now rewrite (handler_body_post event text w Hpost Htext).
Qed.

(** Lines 61-90 on a request whose fields have the types the handler
    expects: the two rejections, or the rest of the handler. *)
Lemma handle_request_fields `{B : Builtins} (hdrs : list (pystr * pystr))
    (request : pydict float) (m : pystr) (max_tokens : Z) (temperature : float)
    (w : world) :
  dict_get (lit "message") (PStr []) request = PStr m ->
  py_int (raw_max_tokens w request) = Ok max_tokens ->
  py_float (raw_temperature w request) = Ok temperature ->
  handle_request hdrs (PDict request) w
  = if is_empty (strip m) then (w, Ok (missing_message_response hdrs))
    else if 10000 <? len (strip m)
    then (w, Ok (message_too_long_response hdrs (strip m)))
    else answer hdrs (strip m)
           (dict_get (lit "session_id") PNone request)
           (dict_get (lit "model_id") (PStr default_model_id) request)
           max_tokens temperature w.
Proof.
  unfold raw_max_tokens, raw_temperature. intros Hm Hint Hfloat.
  unfold handle_request, bind, lift, py_get, getenv.
  rewrite Hm. unfold py_strip. rewrite Hint, Hfloat.
  destruct (is_empty (strip m)); [reflexivity|].
  destruct (10000 <? len (strip m)); reflexivity.
Qed.

(** Case analysis on the next stage of a computation in hypothesis [H]. *)
Ltac next_stage H :=
  match type of H with
  | context [match ?m with _ => _ end] =>
      let E := fresh "Estage" in destruct m eqn:E; try discriminate H
  end.

(** When [answer] returns, it returns the success response. *)
Lemma answer_returns_success `{B : Builtins} (hdrs : list (pystr * pystr))
    (message : pystr) (session_id model_id : pyval float) (max_tokens : Z)
    (temperature : float) (w w' : world) (r : response) :
  answer hdrs message session_id model_id max_tokens temperature w = (w', Ok r) ->
  exists text t0 t1,
    r = success_response hdrs text session_id model_id t0 t1.
Proof.
  unfold answer, bind. intros H.
  repeat next_stage H.
  unfold ret in H. injection H as _ <-. eauto.
Qed.

(** Whatever [answer] does, the handler turns it into a 200 or a 500. *)
Lemma respond_answer_status `{B : Builtins} (hdrs : list (pystr * pystr))
    (message : pystr) (session_id model_id : pyval float) (max_tokens : Z)
    (temperature : float) (w : world) :
  let result :=
    snd (respond hdrs
           (answer hdrs message session_id model_id max_tokens temperature w)) in
  status_of result = Some 200 \/ status_of result = Some 500.
Proof.
  cbv zeta.
  destruct (answer hdrs message session_id model_id max_tokens temperature w)
    as [w' [r|e]] eqn:E.
  - left. apply answer_returns_success in E as (text & t0 & t1 & ->).
    reflexivity.
  - right. destruct e; reflexivity.
Qed.

Lemma is_empty_nil {A : Type} (l : list A) : is_empty l = true <-> l = [].
Proof. destruct l; simpl; split; congruence. Qed.

(** A POST request whose fields have the expected types and whose message
    passes the validation goes on to [answer]. *)
Lemma handler_accepts `{B : Builtins} (event : pyval float) (text : pystr)
    (request : pydict float) (m : pystr) (max_tokens : Z)
    (temperature : float) (w : world) :
  is_post event = true ->
  body_text event = Some text ->
  json_loads text = Some (PDict request) ->
  dict_get (lit "message") (PStr []) request = PStr m ->
  forallb is_space m = false ->
  len (strip m) <= 10000 ->
  py_int (raw_max_tokens w request) = Ok max_tokens ->
  py_float (raw_temperature w request) = Ok temperature ->
  lambda_handler event w
  = respond cors_headers
      (answer cors_headers (strip m)
         (dict_get (lit "session_id") PNone request)
         (dict_get (lit "model_id") (PStr default_model_id) request)
         max_tokens temperature w).
Proof.
  intros Hpost Htext Hjson Hm Hblank Hshort Hint Hfloat.
  rewrite (handler_post event text w Hpost Htext), Hjson.
  rewrite (handle_request_fields cors_headers request m max_tokens temperature
             w Hm Hint Hfloat).
  assert (Hempty : is_empty (strip m) = false).
  { destruct (is_empty (strip m)) eqn:Hempty; [|reflexivity].
    apply is_empty_nil in Hempty. apply strip_blank in Hempty. congruence. }
  assert (Hfits : (10000 <? len (strip m)) = false) by (apply Z.ltb_ge; lia).
  now rewrite Hempty, Hfits.
Qed.

(** C1, as the code has it: on a POST request that reaches the
    validation (the body parses to an object whose message is a string,
    and [max_tokens] and [temperature] convert), a message that is empty
    or made of white space only is answered with status 400 and the
    missing-message body; a message longer than 10,000 characters once
    trimmed is answered with status 400 and the message-too-long body,
    which reports the trimmed length as [current_length] (10001 for a
    trimmed length of 10,001) and 10000 as [max_length]; every other
    message (non-empty once trimmed, at most 10,000 characters) is
    accepted: the handler goes on to answer it, and ends with a 200 or a
    500. *)
Theorem message_validation `{B : Builtins} (event : pyval float) (text : pystr)
    (request : pydict float) (m : pystr) (max_tokens : Z)
    (temperature : float) (w : world) :
  is_post event = true ->
  body_text event = Some text ->
  json_loads text = Some (PDict request) ->
  dict_get (lit "message") (PStr []) request = PStr m ->
  py_int (raw_max_tokens w request) = Ok max_tokens ->
  py_float (raw_temperature w request) = Ok temperature ->
  let message := strip m in
  let too_long (current_length : Z) :=
    {| statusCode := 400;
       headers := cors_headers;
       body := PDict [(lit "error",
                       PStr (lit "메시지가 너무 깁니다. 10,000자 이내로 입력해주세요."));
                      (lit "current_length", PInt current_length);
                      (lit "max_length", PInt 10000)] |} in
  (forallb is_space m = true ->
   lambda_handler event w
   = (w, Returned
           {| statusCode := 400;
              headers := cors_headers;
              body := PDict [(lit "error", PStr (lit "메시지가 필요합니다."));
                             (lit "required_fields",
                              PList [PStr (lit "message")]);
                             (lit "optional_fields",
                              PList [PStr (lit "session_id");
                                     PStr (lit "model_id");
                                     PStr (lit "max_tokens");
                                     PStr (lit "temperature")])] |}))
  /\
  (10000 < len message ->
   lambda_handler event w = (w, Returned (too_long (len message))))
  /\
  (len message = 10001 ->
   lambda_handler event w = (w, Returned (too_long 10001)))
  /\
  (forallb is_space m = false -> len message <= 10000 ->
   lambda_handler event w
   = respond cors_headers
       (answer cors_headers message
          (dict_get (lit "session_id") PNone request)
          (dict_get (lit "model_id") (PStr default_model_id) request)
          max_tokens temperature w)
   /\ (status_of (snd (lambda_handler event w)) = Some 200
       \/ status_of (snd (lambda_handler event w)) = Some 500)).
Proof.
  intros Hpost Htext Hjson Hm Hint Hfloat message too_long.
  assert (Hrun : lambda_handler event w
                 = respond cors_headers
                     (if is_empty message
                      then (w, Ok (missing_message_response cors_headers))
                      else if 10000 <? len message
                      then (w, Ok (message_too_long_response cors_headers message))
                      else answer cors_headers message
                             (dict_get (lit "session_id") PNone request)
                             (dict_get (lit "model_id") (PStr default_model_id)
                                request)
                             max_tokens temperature w)).
  { rewrite (handler_post event text w Hpost Htext), Hjson.
    now rewrite (handle_request_fields cors_headers request m max_tokens
                   temperature w Hm Hint Hfloat). }
  assert (Hlong : 10000 < len message ->
                  lambda_handler event w
                  = (w, Returned (too_long (len message)))).
  { intros Hlong. rewrite Hrun.
    destruct (is_empty message) eqn:Hempty.
    - apply is_empty_nil in Hempty. rewrite Hempty in Hlong.
      unfold len in Hlong. simpl in Hlong. lia.
    - apply Z.ltb_lt in Hlong. rewrite Hlong. reflexivity. }
  split; [|split; [|split]].
  - intros Hblank. apply strip_blank in Hblank. fold message in Hblank.
    rewrite Hrun, Hblank. reflexivity.
  - exact Hlong.
  - intros Hlen. rewrite <- Hlen. apply Hlong. lia.
  - intros Hblank Hshort.
    assert (Hempty : is_empty message = false).
    { destruct (is_empty message) eqn:Hempty; [|reflexivity].
      apply is_empty_nil in Hempty. apply strip_blank in Hempty. congruence. }
    assert (Hfits : (10000 <? len message) = false) by (apply Z.ltb_ge; lia).
    rewrite Hrun, Hempty, Hfits. split; [reflexivity|].
    apply respond_answer_status.
Qed.

Lemma message_validation_witness :
  let run text :=
    lambda_handler (B := Reference.builtins) (Examples.post text)
      Examples.plain_world in
  status_of (snd (run (Examples.message_body (lit "  hello  ")))) = Some 200 /\
  run (Examples.message_body (lit "   "))
  = (Examples.plain_world,
     Returned
       {| statusCode := 400;
          headers := cors_headers;
          body := PDict [(lit "error", PStr (lit "메시지가 필요합니다."));
                         (lit "required_fields", PList [PStr (lit "message")]);
                         (lit "optional_fields",
                          PList [PStr (lit "session_id"); PStr (lit "model_id");
                                 PStr (lit "max_tokens");
                                 PStr (lit "temperature")])] |}) /\
  run (Examples.message_body Examples.long_message)
  = (Examples.plain_world,
     Returned
       {| statusCode := 400;
          headers := cors_headers;
          body := PDict [(lit "error",
                          PStr (lit "메시지가 너무 깁니다. 10,000자 이내로 입력해주세요."));
                         (lit "current_length", PInt 10001);
                         (lit "max_length", PInt 10000)] |}).
Proof.
  intros run.
  assert (Hconv : forall m,
             Reference.loads (Examples.message_body m)
             = Some (PDict [(lit "message", PStr m)]) ->
             (forallb is_space m = true ->
              run (Examples.message_body m)
              = (Examples.plain_world,
                 Returned
                   {| statusCode := 400;
                      headers := cors_headers;
                      body := PDict [(lit "error",
                                      PStr (lit "메시지가 필요합니다."));
                                     (lit "required_fields",
                                      PList [PStr (lit "message")]);
                                     (lit "optional_fields",
                                      PList [PStr (lit "session_id");
                                             PStr (lit "model_id");
                                             PStr (lit "max_tokens");
                                             PStr (lit "temperature")])] |}))
             /\
             (len (strip m) = 10001 ->
              run (Examples.message_body m)
              = (Examples.plain_world,
                 Returned
                   {| statusCode := 400;
                      headers := cors_headers;
                      body := PDict [(lit "error",
                                      PStr (lit "메시지가 너무 깁니다. 10,000자 이내로 입력해주세요."));
                                     (lit "current_length", PInt 10001);
                                     (lit "max_length", PInt 10000)] |}))
             /\
             (forallb is_space m = false -> len (strip m) <= 10000 ->
              status_of (snd (run (Examples.message_body m))) = Some 200
              \/ status_of (snd (run (Examples.message_body m))) = Some 500)).
  { intros m Hjson.
    destruct (message_validation (B := Reference.builtins)
                (Examples.post (Examples.message_body m))
                (Examples.message_body m) [(lit "message", PStr m)] m
                1000 (7 # 10) Examples.plain_world
                eq_refl eq_refl Hjson eq_refl eq_refl eq_refl)
      as [Hblank [_ [Hlong Hvalid]]].
    split; [exact Hblank|]. split; [exact Hlong|].
    intros H1 H2. exact (proj2 (Hvalid H1 H2)). }
  split; [|split].
  - destruct (Hconv (lit "  hello  ") eq_refl) as [_ [_ Hvalid]].
    assert (Hshort : len (strip (lit "  hello  ")) <= 10000)
      by (vm_compute; discriminate).
    destruct (Hvalid eq_refl Hshort) as [H|H]; [exact H|].
    vm_compute in H. discriminate H.
  - destruct (Hconv (lit "   ") eq_refl) as [Hblank _].
    exact (Hblank eq_refl).
  - assert (Hjson : Reference.loads (Examples.message_body Examples.long_message)
                    = Some (PDict [(lit "message", PStr Examples.long_message)]))
      by exact (loads_letters (Z.to_nat 10001)).
    destruct (Hconv Examples.long_message Hjson) as [_ [Hlong _]].
    assert (Hstrip : strip Examples.long_message = Examples.long_message)
      by (apply strip_repeat; reflexivity).
    rewrite Hstrip in Hlong. apply Hlong.
    unfold len, Examples.long_message. rewrite repeat_length. reflexivity.
Defined.

(** Not every POST request with a blank message gets the 400: when
    [max_tokens] does not convert, line 65 raises before the message is
    looked at, and the answer is a 500. *)
Lemma blank_message_not_always_rejected :
  status_of
    (snd (lambda_handler (B := Reference.builtins)
            (Examples.post
               (Examples.json "{'message': '', 'max_tokens': 'abc'}"))
            Examples.plain_world))
  = Some 500.
Proof. reflexivity. Qed.

(** An event that can be logged always gets a response: every exception
    of the [try] block is turned into a 500 by an [except] clause. *)
Lemma handler_returns_when_loggable `{B : Builtins} (event : pyval float)
    (w : world) :
  serializable event = true ->
  exists w' r, lambda_handler event w = (w', Returned r).
Proof.
  intros Hser. unfold lambda_handler, check_serializable. rewrite Hser.
  cbv zeta. unfold respond.
  destruct (handler_body cors_headers event w) as [w' [r|e]]; [eauto|].
  destruct e; simpl; eauto.
Qed.

(** An event that cannot be logged makes line 19 raise while [headers]
    is still unassigned: the [except] clause raises in its turn. *)
Lemma handler_unhandled_when_not_loggable `{B : Builtins} (event : pyval float)
    (w : world) :
  serializable event = false ->
  lambda_handler event w
  = (w, Unhandled (PyError UnboundLocalError_
                     (fault_text (UnboundLocal (lit "headers"))))).
Proof.
  intros Hser. unfold lambda_handler, check_serializable. rewrite Hser.
  reflexivity.
Qed.

(** C7, where the code departs from it: on a POST event whose body is an
    instance of [object], the serialisation of the event for the log
    raises before [headers] is assigned, the outermost [except] clause
    reads [headers] and raises [UnboundLocalError], and the handler ends
    with that exception instead of a 500 response. *)
Theorem handler_raises_before_headers `{B : Builtins} (w : world) :
  lambda_handler post_with_object w
  = (w, Unhandled (PyError UnboundLocalError_
                     (fault_text (UnboundLocal (lit "headers"))))).
Proof. apply handler_unhandled_when_not_loggable. reflexivity. Qed.

Lemma py_get_raises `{B : Builtins} (v : pyval float) (k : pystr)
    (dflt : pyval float) (e : exn) :
  py_get v k dflt = Raise e -> exists cls text, e = PyError cls text.
Proof.
  unfold py_get, fault_of. intros H.
  destruct v; try discriminate; injection H as <-; eauto.
Qed.

Lemma py_strip_raises `{B : Builtins} (v : pyval float) (e : exn) :
  py_strip v = Raise e -> exists cls text, e = PyError cls text.
Proof.
  unfold py_strip, fault_of. intros H.
  destruct v; try discriminate; injection H as <-; eauto.
Qed.

Lemma py_append_raises `{B : Builtins} (v x : pyval float) (e : exn) :
  py_append v x = Raise e -> exists cls text, e = PyError cls text.
Proof.
  unfold py_append, fault_of. intros H.
  destruct v; try discriminate; injection H as <-; eauto.
Qed.

Lemma py_int_raises `{B : Builtins} (v : pyval float) (e : exn) :
  py_int v = Raise e -> exists cls text, e = PyError cls text.
Proof.
  unfold py_int, fault_of. intros H.
  destruct v; try (injection H as <-; eauto); try discriminate.
  - destruct (int_of_float f); [discriminate|]. injection H as <-. eauto.
  - destruct (int_of_str s); [discriminate|]. injection H as <-. eauto.
Qed.

Lemma py_float_raises `{B : Builtins} (v : pyval float) (e : exn) :
  py_float v = Raise e -> exists cls text, e = PyError cls text.
Proof.
  unfold py_float, fault_of. intros H.
  destruct v; try (injection H as <-; eauto); try discriminate.
  - destruct (float_of_int _); [discriminate|]. injection H as <-. eauto.
  - destruct (float_of_int z); [discriminate|]. injection H as <-. eauto.
  - destruct (float_of_str s); [discriminate|]. injection H as <-. eauto.
Qed.

(** C10: on a POST request whose body parses to an object, when
    [int(max_tokens)] raises or [float(temperature)] raises, the handler
    answers with status 500 and a body of status [internal_error] whose
    error text is the text of the exception behind the prefix of the
    handler, whatever the message is: the conversions of lines 65 and 66
    run before the message is validated, so that even a blank message,
    which the validation would answer with 400, gets the 500.  For a
    message that is a string the exception is the one [int] raised, or
    the one [float] raised when [int] returned; for a message that is not
    a string it is the one [strip] raised, on line 62. *)
Theorem bad_number_is_internal_error `{B : Builtins} (event : pyval float)
    (text : pystr) (request : pydict float) (w : world) :
  is_post event = true ->
  body_text event = Some text ->
  json_loads text = Some (PDict request) ->
  let internal_error (e : exn) :=
    {| statusCode := 500;
       headers := cors_headers;
       body := PDict [(lit "error",
                       PStr (lit "서버 내부 오류가 발생했습니다: " ++ str_exn e));
                      (lit "status", PStr (lit "internal_error"))] |} in
  (forall m e,
     dict_get (lit "message") (PStr []) request = PStr m ->
     py_int (raw_max_tokens w request) = Raise e ->
     lambda_handler event w = (w, Returned (internal_error e)))
  /\
  (forall m max_tokens e,
     dict_get (lit "message") (PStr []) request = PStr m ->
     py_int (raw_max_tokens w request) = Ok max_tokens ->
     py_float (raw_temperature w request) = Raise e ->
     lambda_handler event w = (w, Returned (internal_error e)))
  /\
  ((exists e, py_int (raw_max_tokens w request) = Raise e) \/
   (exists e, py_float (raw_temperature w request) = Raise e) ->
   exists e,
     (py_strip (dict_get (lit "message") (PStr []) request) = Raise e \/
      py_int (raw_max_tokens w request) = Raise e \/
      py_float (raw_temperature w request) = Raise e) /\
     lambda_handler event w = (w, Returned (internal_error e))).
Proof.
  intros Hpost Htext Hjson internal_error.
  assert (Hrun : lambda_handler event w
                 = respond cors_headers
                     match py_strip (dict_get (lit "message") (PStr []) request)
                     with
                     | Ok message =>
                         match py_int (raw_max_tokens w request) with
                         | Ok max_tokens =>
                             match py_float (raw_temperature w request) with
                             | Ok temperature =>
                                 if is_empty message
                                 then (w, Ok (missing_message_response
                                                cors_headers))
                                 else if 10000 <? len message
                                 then (w, Ok (message_too_long_response
                                                cors_headers message))
                                 else answer cors_headers message
                                        (dict_get (lit "session_id") PNone
                                           request)
                                        (dict_get (lit "model_id")
                                           (PStr default_model_id) request)
                                        max_tokens temperature w
                             | Raise e => (w, Raise e)
                             end
                         | Raise e => (w, Raise e)
                         end
                     | Raise e => (w, Raise e)
                     end).
  { rewrite (handler_post event text w Hpost Htext), Hjson.
    unfold handle_request, bind, lift, py_get, getenv.
    fold (raw_max_tokens w request). fold (raw_temperature w request).
    destruct (py_strip (dict_get (lit "message") (PStr []) request));
      [|reflexivity].
    destruct (py_int (raw_max_tokens w request)); [|reflexivity].
    destruct (py_float (raw_temperature w request)); [|reflexivity].
    match goal with
    | |- context [is_empty ?message] => destruct (is_empty message)
    end; [reflexivity|].
    match goal with
    | |- context [10000 <? ?n] => destruct (10000 <? n)
    end; reflexivity. }
  assert (Hint : forall message e,
             py_strip (dict_get (lit "message") (PStr []) request) = Ok message ->
             py_int (raw_max_tokens w request) = Raise e ->
             lambda_handler event w = (w, Returned (internal_error e))).
  { intros message e Hstrip He. rewrite Hrun, Hstrip, He.
    apply py_int_raises in He as (cls & detail & ->). reflexivity. }
  assert (Hfloat : forall message max_tokens e,
             py_strip (dict_get (lit "message") (PStr []) request) = Ok message ->
             py_int (raw_max_tokens w request) = Ok max_tokens ->
             py_float (raw_temperature w request) = Raise e ->
             lambda_handler event w = (w, Returned (internal_error e))).
  { intros message max_tokens e Hstrip Hok He. rewrite Hrun, Hstrip, Hok, He.
    apply py_float_raises in He as (cls & detail & ->). reflexivity. }
  split; [|split].
  - intros m e Hm. rewrite Hm in Hint. exact (Hint (strip m) e eq_refl).
  - intros m max_tokens e Hm. rewrite Hm in Hfloat.
    exact (Hfloat (strip m) max_tokens e eq_refl).
  - intros Hbad.
    destruct (py_strip (dict_get (lit "message") (PStr []) request))
      as [message|e0] eqn:Hstrip.
    + destruct (py_int (raw_max_tokens w request)) as [max_tokens|e1] eqn:Hi.
      * destruct Hbad as [[e He]|[e He]]; [discriminate|].
        exists e. split; [auto|].
        exact (Hfloat message max_tokens e eq_refl eq_refl He).
      * exists e1. split; [auto|]. exact (Hint message e1 eq_refl eq_refl).
    + exists e0. split; [auto|].
      rewrite Hrun. apply py_strip_raises in Hstrip as Hclass.
      destruct Hclass as (cls & detail & ->). reflexivity.
Qed.

Lemma bad_number_is_internal_error_witness :
  lambda_handler (B := Reference.builtins)
    (Examples.post (Examples.json "{'message': '   ', 'max_tokens': 'abc'}"))
    Examples.plain_world
  = (Examples.plain_world,
     Returned
       {| statusCode := 500;
          headers := cors_headers;
          body := PDict [(lit "error",
                          PStr (lit "서버 내부 오류가 발생했습니다: "
                                  ++ lit "invalid literal for int() with base 10: 'abc'"));
                         (lit "status", PStr (lit "internal_error"))] |}).
Proof.
  destruct (bad_number_is_internal_error (B := Reference.builtins)
              (Examples.post
                 (Examples.json "{'message': '   ', 'max_tokens': 'abc'}"))
              (Examples.json "{'message': '   ', 'max_tokens': 'abc'}")
              [(lit "message", PStr (lit "   "));
               (lit "max_tokens", PStr (lit "abc"))]
              Examples.plain_world eq_refl eq_refl eq_refl) as [Hint _].
  assert (Hraises : py_int (B := Reference.builtins)
                      (raw_max_tokens Examples.plain_world
                         [(lit "message", PStr (lit "   "));
                          (lit "max_tokens", PStr (lit "abc"))])
                    = Raise (PyError ValueError_
                               (lit "invalid literal for int() with base 10: 'abc'")))
    by reflexivity.
  rewrite (Hint (lit "   ") _ eq_refl Hraises). reflexivity.
Defined.

(** C8, as the code has it: a POST request whose body is text that
    [json.loads] rejects with a [JSONDecodeError] is answered with status
    400 and the malformed-body body; a POST request without a body key is
    read as the empty object, by the default of [event.get('body', '{}')],
    and so reaches the validation of the fields, which answers with status
    400 and the missing-message body (when the configured defaults of
    [max_tokens] and [temperature] convert). *)
Theorem unparsable_body_rejected `{B : Builtins} (event : pyval float)
    (w : world) :
  is_post event = true ->
  (forall text,
     body_text event = Some text ->
     json_loads text = None ->
     json_error text = JSONDecodeError_ ->
     lambda_handler event w
     = (w, Returned
             {| statusCode := 400;
                headers := cors_headers;
                body := PDict [(lit "error", PStr (lit "잘못된 JSON 형식입니다."));
                               (lit "status", PStr (lit "error"))] |}))
  /\
  (forall max_tokens temperature,
     has_body event = false ->
     py_int (raw_max_tokens w []) = Ok max_tokens ->
     py_float (raw_temperature w []) = Ok temperature ->
     lambda_handler event w
     = (w, Returned
             {| statusCode := 400;
                headers := cors_headers;
                body := PDict [(lit "error", PStr (lit "메시지가 필요합니다."));
                               (lit "required_fields",
                                PList [PStr (lit "message")]);
                               (lit "optional_fields",
                                PList [PStr (lit "session_id");
                                       PStr (lit "model_id");
                                       PStr (lit "max_tokens");
                                       PStr (lit "temperature")])] |})).
Proof.
  intros Hpost. split.
  - intros text Htext Hjson Hclass.
    rewrite (handler_post event text w Hpost Htext), Hjson, Hclass.
    reflexivity.
  - intros max_tokens temperature Hbody Hint Hfloat.
    assert (Htext : body_text event = Some (lit "{}")).
    { pose proof Hpost as Hdict. unfold is_post in Hdict.
      apply andb_prop in Hdict as [_ Hdict].
      unfold has_body in Hbody. unfold body_text, dict_get.
      destruct event as [| | | | | |d|]; try discriminate.
      destruct (dict_find (lit "body") d); [discriminate | reflexivity]. }
    rewrite (handler_post event (lit "{}") w Hpost Htext).
    rewrite json_loads_empty_object.
    rewrite (handle_request_fields cors_headers [] [] max_tokens temperature w
               eq_refl Hint Hfloat).
    reflexivity.
Qed.

Lemma unparsable_body_rejected_witness :
  lambda_handler (B := Reference.builtins)
    (Examples.post (lit "{message: hello")) Examples.plain_world
  = (Examples.plain_world,
     Returned
       {| statusCode := 400;
          headers := cors_headers;
          body := PDict [(lit "error", PStr (lit "잘못된 JSON 형식입니다."));
                         (lit "status", PStr (lit "error"))] |})
  /\
  status_of
    (snd (lambda_handler (B := Reference.builtins)
            Examples.post_without_body Examples.plain_world))
  = Some 400.
Proof.
  split.
  - destruct (unparsable_body_rejected (B := Reference.builtins)
                (Examples.post (lit "{message: hello")) Examples.plain_world
                eq_refl) as [Hmalformed _].
    exact (Hmalformed _ eq_refl eq_refl eq_refl).
  - destruct (unparsable_body_rejected (B := Reference.builtins)
                Examples.post_without_body Examples.plain_world eq_refl)
      as [_ Habsent].
    rewrite (Habsent 1000 (7 # 10) eq_refl eq_refl eq_refl). reflexivity.
Defined.

(** Three POST requests whose body is not a JSON object and which do not
    get the 400 malformed-body response: without a body key the answer is
    a 400 whose error is the missing message, not the malformed body;
    with a [None] body, and with the JSON array [[1, 2]] as body, the
    answer is a 500. *)
Lemma body_not_object_not_malformed :
  let run event :=
    snd (lambda_handler (B := Reference.builtins) event Examples.plain_world) in
  let error_of (r : result) :=
    match r with
    | Returned {| body := PDict d |} => dict_find (lit "error") d
    | _ => None
    end in
  status_of (run Examples.post_without_body) = Some 400
  /\ error_of (run Examples.post_without_body)
     = Some (PStr (lit "메시지가 필요합니다."))
  /\ error_of (run Examples.post_without_body)
     <> Some (PStr (lit "잘못된 JSON 형식입니다."))
  /\ status_of (run Examples.post_null_body) = Some 500
  /\ status_of (run (Examples.post (lit "[1, 2]"))) = Some 500.
Proof.
  cbv beta zeta.
  assert (Habsent : snd (lambda_handler (B := Reference.builtins)
                           Examples.post_without_body Examples.plain_world)
                    = Returned (missing_message_response cors_headers))
    by reflexivity.
  rewrite !Habsent.
  split; [reflexivity|]. split; [reflexivity|].
  split; [|split; reflexivity].
  vm_compute. discriminate.
Qed.

(** ** Sessions *)

(** The inference call reads and writes nothing of the store. *)
Lemma call_bedrock_keeps_store `{B : Builtins} (messages : list (pyval float))
    (model_id : pyval float) (max_tokens : Z) (temperature : float) (w : world) :
  let w' := fst (call_bedrock messages model_id max_tokens temperature w) in
  store_ops w' = store_ops w /\ table w' = table w /\ environ w' = environ w.
Proof.
  cbv zeta. rewrite call_bedrock_stages.
  destruct (build_body messages model_id max_tokens temperature) as [body|e];
    [|repeat split; reflexivity].
  destruct (py_print (lit "Calling Bedrock model: " ++ str_of model_id))
    as [[]|e]; [|repeat split; reflexivity].
  destruct (check_serializable body) as [[]|e]; repeat split; reflexivity.
Qed.

(** Without a truthy session id, the handler runs in session-less mode. *)
Lemma answer_falsy_session `{B : Builtins} (hdrs : list (pystr * pystr))
    (message : pystr) (session_id model_id : pyval float) (max_tokens : Z)
    (temperature : float) (w : world) :
  truthy session_id = false ->
  answer hdrs message session_id model_id max_tokens temperature w
  = answer_sessionless hdrs message session_id model_id max_tokens temperature w.
Proof.
  intros Hfalsy. unfold answer, answer_sessionless, bind.
  rewrite Hfalsy. unfold ret at 1. unfold lift at 1. unfold py_append.
  destruct (time_time w) as [w1 [start_time|e]]; [|reflexivity].
  change ([] ++ [turn (lit "user") (PStr message)])
    with [turn (lit "user") (PStr message) : pyval float].
  destruct (call_bedrock [turn (lit "user") (PStr message)] model_id max_tokens
              temperature w1) as [w2 [text|e]]; [|reflexivity].
  destruct (time_time w2) as [w3 [end_time|e]]; reflexivity.
Qed.

(** Session-less mode leaves the store alone. *)
Lemma answer_sessionless_keeps_store `{B : Builtins}
    (hdrs : list (pystr * pystr)) (message : pystr)
    (session_id model_id : pyval float) (max_tokens : Z) (temperature : float)
    (w : world) :
  let w' := fst (answer_sessionless hdrs message session_id model_id max_tokens
                   temperature w) in
  store_ops w' = store_ops w /\ table w' = table w.
Proof.
  cbv zeta. unfold answer_sessionless, bind, time_time, ret.
  pose proof (call_bedrock_keeps_store [turn (lit "user") (PStr message)]
                model_id max_tokens temperature (tick w)) as Hcall.
  cbv zeta in Hcall.
  destruct (call_bedrock [turn (lit "user") (PStr message)] model_id max_tokens
              temperature (tick w)) as [w2 [text|e]];
    simpl in *; destruct Hcall as [Hops [Htable _]]; auto.
Qed.

(** With a table configured, a load issues one read of the key, whatever
    the store answers. *)
Lemma get_conversation_history_reads `{B : Builtins} (session_id : pyval float)
    (w : world) :
  table_unconfigured w = (w, Ok false) ->
  exists v,
    get_conversation_history session_id w
    = (record_op (GetItem session_id) w, Ok v).
Proof.
  intros Hon. unfold get_conversation_history. unfold bind at 1. rewrite Hon.
  unfold catch, bind, get_item.
  destruct (get_fault w session_id) as [e|]; [unfold ret; eauto|].
  destruct session_id; try (unfold ret; eauto).
  destruct (table w !! s) as [item|]; [|unfold ret; eauto].
  unfold lift.
  destruct (py_len (dict_get (lit "messages") (PList []) item));
    unfold ret; eauto.
Qed.

(** A save only adds to the list of store requests. *)
Lemma save_keeps_requests `{B : Builtins} (op : store_op)
    (session_id : pyval float) (messages : list (pyval float))
    (bot_response : pyval float) (w : world) :
  In op (store_ops w) ->
  In op (store_ops (fst (save_conversation_history session_id messages
                           bot_response w))).
Proof.
  intros Hin. destruct (table_unconfigured_world w) as [b Hb].
  unfold save_conversation_history. unfold bind at 1. rewrite Hb.
  destruct b; [exact Hin|].
  unfold catch, bind, time_time, lift, put_item, ret.
  destruct (py_int (PFloat (clock w (ticks w)))) as [seconds|e];
    [|exact Hin].
  destruct (py_int (PFloat (clock (tick w) (ticks (tick w)))))
    as [updated_at|e]; [|exact Hin].
  match goal with
  | |- context [put_fault ?w' ?item] =>
      destruct (put_fault w' item) as [e|]; [right; exact Hin|];
      destruct (dict_find (lit "session_id") item) as [[]|];
      right; exact Hin
  end.
Qed.

(** With a truthy session id and a table configured, the handler reads
    the store. *)
Lemma answer_truthy_session_reads `{B : Builtins} (hdrs : list (pystr * pystr))
    (message : pystr) (session_id model_id : pyval float) (max_tokens : Z)
    (temperature : float) (w : world) :
  truthy session_id = true ->
  table_unconfigured w = (w, Ok false) ->
  In (GetItem session_id)
    (store_ops (fst (answer hdrs message session_id model_id max_tokens
                       temperature w))).
Proof.
  intros Htruthy Hon. unfold answer. unfold bind at 1. rewrite Htruthy.
  destruct (get_conversation_history_reads session_id w Hon) as [v ->].
  unfold bind at 1. unfold lift at 1.
  destruct (py_append v (turn (lit "user") (PStr message))) as [history|e];
    [|left; reflexivity].
  unfold bind at 1. unfold time_time at 1.
  unfold bind at 1.
  pose proof (call_bedrock_keeps_store history model_id max_tokens temperature
                (tick (record_op (GetItem session_id) w))) as Hcall.
  cbv zeta in Hcall. destruct Hcall as [Hops _].
  destruct (call_bedrock history model_id max_tokens temperature
              (tick (record_op (GetItem session_id) w))) as [w2 [text|e]];
    simpl in Hops; [|simpl; rewrite Hops; left; reflexivity].
  unfold bind at 1. unfold time_time at 1. unfold bind.
  pose proof (save_keeps_requests (GetItem session_id) session_id history text
                (tick w2)) as Hsave.
  destruct (save_conversation_history session_id history text (tick w2))
    as [w3 [[]|e]]; simpl in *; apply Hsave; rewrite Hops; left; reflexivity.
Qed.

(** C9: on a valid POST request whose [session_id] is the empty string,
    the handler runs in session-less mode: it does what it does without a
    session (no history is loaded, none is saved, the store is left as it
    was), and the success response, of status 200, carries the empty
    string as [session_id] in its body, beside the reply, the model, the
    processing time, the region and the status [success].  The same
    holds for every falsy session id, the missing one ([None]) included;
    with a truthy session id and a table configured, the store is read. *)
Theorem empty_session_id_is_sessionless `{B : Builtins} (event : pyval float)
    (text : pystr) (request : pydict float) (m : pystr) (max_tokens : Z)
    (temperature : float) (w : world) :
  is_post event = true ->
  body_text event = Some text ->
  json_loads text = Some (PDict request) ->
  dict_get (lit "message") (PStr []) request = PStr m ->
  forallb is_space m = false ->
  len (strip m) <= 10000 ->
  py_int (raw_max_tokens w request) = Ok max_tokens ->
  py_float (raw_temperature w request) = Ok temperature ->
  dict_find (lit "session_id") request = Some (PStr []) ->
  let model_id := dict_get (lit "model_id") (PStr default_model_id) request in
  lambda_handler event w
  = respond cors_headers
      (answer_sessionless cors_headers (strip m) (PStr []) model_id max_tokens
         temperature w)
  /\
  (store_ops (fst (lambda_handler event w)) = store_ops w /\
   table (fst (lambda_handler event w)) = table w)
  /\
  (forall r, snd (lambda_handler event w) = Returned r -> statusCode r = 200 ->
             exists response_text t0 t1,
               r = {| statusCode := 200;
                      headers := cors_headers;
                      body := PDict [(lit "response", response_text);
                                     (lit "session_id", PStr []);
                                     (lit "model_used", model_id);
                                     (lit "processing_time",
                                      PFloat (elapsed t0 t1));
                                     (lit "region",
                                      PStr (lit "ap-northeast-2"));
                                     (lit "status",
                                      PStr (lit "success"))] |})
  /\
  (forall hdrs message session_id,
     truthy session_id = false ->
     answer hdrs message session_id model_id max_tokens temperature w
     = answer_sessionless hdrs message session_id model_id max_tokens
         temperature w)
  /\
  (forall hdrs message session_id,
     truthy session_id = true ->
     table_unconfigured w = (w, Ok false) ->
     In (GetItem session_id)
       (store_ops (fst (answer hdrs message session_id model_id max_tokens
                          temperature w)))).
Proof.
  intros Hpost Htext Hjson Hm Hblank Hshort Hint Hfloat Hsid model_id.
  pose proof (handler_accepts event text request m max_tokens temperature w
                Hpost Htext Hjson Hm Hblank Hshort Hint Hfloat) as Hrun.
  assert (Hget : dict_get (lit "session_id") PNone request
                 = (PStr [] : pyval float)).
  { unfold dict_get. now rewrite Hsid. }
  rewrite Hget in Hrun. fold model_id in Hrun.
  rewrite (answer_falsy_session cors_headers (strip m) (PStr []) model_id
             max_tokens temperature w eq_refl) in Hrun.
  split; [exact Hrun|].
  pose proof (answer_sessionless_keeps_store cors_headers (strip m) (PStr [])
                model_id max_tokens temperature w) as Hstore.
  cbv zeta in Hstore.
  split; [|split; [|split]].
  - rewrite Hrun. unfold respond.
    destruct (answer_sessionless cors_headers (strip m) (PStr []) model_id
                max_tokens temperature w) as [w' [r|e]]; exact Hstore.
  - intros r Hr Hstatus. rewrite Hrun in Hr. unfold respond in Hr.
    destruct (answer_sessionless cors_headers (strip m) (PStr []) model_id
                max_tokens temperature w) as [w' [r'|e]] eqn:Hanswer.
    + simpl in Hr. injection Hr as ->.
      rewrite <- (answer_falsy_session cors_headers (strip m) (PStr [])
                    model_id max_tokens temperature w eq_refl) in Hanswer.
      apply answer_returns_success in Hanswer
        as (response_text & t0 & t1 & ->).
      exists response_text, t0, t1. reflexivity.
    + simpl in Hr. destruct e; simpl in Hr; injection Hr as <-;
        discriminate Hstatus.
  - intros hdrs message session_id Hfalsy.
    now apply answer_falsy_session.
  - intros hdrs message session_id Htruthy Hon.
    now apply answer_truthy_session_reads.
Qed.

Lemma empty_session_id_is_sessionless_witness :
  let text := Examples.json "{'message': 'hello', 'session_id': ''}" in
  let run :=
    lambda_handler (B := Reference.builtins) (Examples.post text)
      Examples.chat_world in
  store_ops (fst run) = [] /\
  (exists response_text t0 t1,
     snd run
     = Returned
         {| statusCode := 200;
            headers := cors_headers;
            body := PDict [(lit "response", response_text);
                           (lit "session_id", PStr []);
                           (lit "model_used", PStr default_model_id);
                           (lit "processing_time",
                            PFloat (elapsed (Builtins := Reference.builtins)
                                      t0 t1));
                           (lit "region", PStr (lit "ap-northeast-2"));
                           (lit "status", PStr (lit "success"))] |}) /\
  In (GetItem (PStr (lit "s1")))
    (store_ops (fst (answer (B := Reference.builtins) cors_headers
                       (lit "hello") (PStr (lit "s1")) (PStr default_model_id)
                       1000 (7 # 10) Examples.chat_world))).
Proof.
  intros text run.
  assert (Hshort : len (strip (lit "hello")) <= 10000)
    by (vm_compute; discriminate).
  destruct (empty_session_id_is_sessionless (B := Reference.builtins)
              (Examples.post text) text
              [(lit "message", PStr (lit "hello")); (lit "session_id", PStr [])]
              (lit "hello") 1000 (7 # 10) Examples.chat_world
              eq_refl eq_refl eq_refl eq_refl eq_refl Hshort eq_refl eq_refl
              eq_refl)
    as [_ [[Hops _] [Hecho [_ Htruthy]]]].
  split; [exact Hops|]. split.
  - assert (Hrun : snd run
                   = Returned
                       (success_response (B := Reference.builtins)
                          cors_headers (PStr (lit "ok")) (PStr [])
                          (PStr default_model_id) (inject_Z 1700000000)
                          (inject_Z 1700000000 + (3 # 2))%Q))
      by reflexivity.
    destruct (Hecho _ Hrun eq_refl) as (response_text & t0 & t1 & Hr).
    exists response_text, t0, t1. rewrite Hrun, Hr. reflexivity.
  - exact (Htruthy cors_headers (lit "hello") (PStr (lit "s1")) eq_refl eq_refl).
Defined.

(** * Further properties of the handler *)

(** ** Methods and events *)

(** A preflight request is acknowledged with the fixed 200 response,
    whatever else the event holds, and nothing of the world is touched. *)
Theorem preflight_acknowledged `{B : Builtins} (d : pydict float) (w : world) :
  serializable (PDict d) = true ->
  dict_find (lit "httpMethod") d = Some (PStr (lit "OPTIONS")) ->
  lambda_handler (PDict d) w
  = (w, Returned
       {| statusCode := 200;
          headers := cors_headers;
          body := PDict [(lit "message",
                          PStr (lit "CORS preflight successful"))] |}).
Proof.
  intros Hser Hmethod.
  unfold lambda_handler, check_serializable. rewrite Hser. cbv zeta.
  unfold handler_body, bind, lift, py_get, dict_get. rewrite Hmethod.
  reflexivity.
Qed.

Lemma preflight_acknowledged_witness :
  lambda_handler (B := Reference.builtins) Examples.options_event
    Examples.chat_world
  = (Examples.chat_world,
     Returned
       {| statusCode := 200;
          headers := cors_headers;
          body := PDict [(lit "message",
                          PStr (lit "CORS preflight successful"))] |}).
Proof.
  unfold Examples.options_event.
  apply (preflight_acknowledged (B := Reference.builtins)); reflexivity.
Defined.

(** An event whose method is neither OPTIONS nor POST, or which has no
    method at all, is answered with the 405 response; its body is not
    read and the world is not touched. *)
Theorem other_methods_rejected `{B : Builtins} (d : pydict float) (w : world) :
  serializable (PDict d) = true ->
  eq_str (dict_get (lit "httpMethod") PNone d) (lit "OPTIONS") = false ->
  eq_str (dict_get (lit "httpMethod") PNone d) (lit "POST") = false ->
  lambda_handler (PDict d) w
  = (w, Returned
       {| statusCode := 405;
          headers := cors_headers;
          body := PDict [(lit "error",
                          PStr (lit "Method not allowed. Use POST method."));
                         (lit "allowed_methods",
                          PList [PStr (lit "POST"); PStr (lit "OPTIONS")])] |}).
Proof.
  intros Hser Hoptions Hpost.
  unfold lambda_handler, check_serializable. rewrite Hser. cbv zeta.
  unfold handler_body, bind, lift, py_get. rewrite Hoptions, Hpost.
  reflexivity.
Qed.

Lemma other_methods_rejected_witness :
  lambda_handler (B := Reference.builtins) Examples.get_event
    Examples.chat_world
  = (Examples.chat_world,
     Returned
       {| statusCode := 405;
          headers := cors_headers;
          body := PDict [(lit "error",
                          PStr (lit "Method not allowed. Use POST method."));
                         (lit "allowed_methods",
                          PList [PStr (lit "POST"); PStr (lit "OPTIONS")])] |})
  /\
  lambda_handler (B := Reference.builtins) Examples.bare_event
    Examples.chat_world
  = (Examples.chat_world,
     Returned
       {| statusCode := 405;
          headers := cors_headers;
          body := PDict [(lit "error",
                          PStr (lit "Method not allowed. Use POST method."));
                         (lit "allowed_methods",
                          PList [PStr (lit "POST"); PStr (lit "OPTIONS")])] |}).
Proof.
  unfold Examples.get_event, Examples.bare_event.
  split; apply (other_methods_rejected (B := Reference.builtins)); reflexivity.
Defined.

(** An event that is not a dict (a JSON array, a string, a number,
    [None]) has no [get]: the first test of the method raises
    [AttributeError], which the handler answers with 500
    [internal_error]. *)
Theorem non_object_event_is_internal_error `{B : Builtins}
    (event : pyval float) (w : world) :
  serializable event = true ->
  (forall d, event <> PDict d) ->
  lambda_handler event w
  = (w, Returned
       {| statusCode := 500;
          headers := cors_headers;
          body := PDict [(lit "error",
                          PStr (lit "서버 내부 오류가 발생했습니다: "
                                  ++ fault_text
                                       (NoAttribute event (lit "get"))));
                         (lit "status", PStr (lit "internal_error"))] |}).
Proof.
  intros Hser Hdict.
  unfold lambda_handler, check_serializable. rewrite Hser. cbv zeta.
  unfold handler_body, bind, lift, py_get.
  destruct event; try reflexivity. now destruct (Hdict d).
Qed.

Lemma non_object_event_is_internal_error_witness :
  status_of (snd (lambda_handler (B := Reference.builtins) Examples.array_event
                    Examples.chat_world)) = Some 500.
Proof.
  rewrite (non_object_event_is_internal_error (B := Reference.builtins)
             Examples.array_event Examples.chat_world eq_refl);
    [reflexivity | discriminate].
Defined.

(** ** What every response has in common *)

Lemma handle_request_response `{B : Builtins} (hdrs : list (pystr * pystr))
    (request : pyval float) (w w' : world) (r : response) :
  handle_request hdrs request w = (w', Ok r) ->
  headers r = hdrs /\ (statusCode r = 200 \/ statusCode r = 400).
Proof.
  unfold handle_request, bind. intros H.
  repeat next_stage H;
    first [ apply answer_returns_success in H as (text & t0 & t1 & ->);
            split; [reflexivity | left; reflexivity]
          | unfold ret in H; injection H as _ <-;
            split; [reflexivity | right; reflexivity] ].
Qed.

Lemma handler_body_response `{B : Builtins} (hdrs : list (pystr * pystr))
    (event : pyval float) (w w' : world) (r : response) :
  handler_body hdrs event w = (w', Ok r) ->
  headers r = hdrs /\
  (statusCode r = 200 \/ statusCode r = 400 \/ statusCode r = 405).
Proof.
  unfold handler_body, bind. intros H.
  repeat next_stage H;
    first [ apply handle_request_response in H as [Hh [Hs|Hs]];
            (split; [exact Hh | tauto])
          | unfold ret in H; injection H as _ <-;
            split; [reflexivity | simpl; tauto] ].
Qed.

(** Every response the handler returns carries the four CORS headers:
    the 200, the 400s, the 405 and the 500s alike. *)
Theorem responses_carry_cors_headers `{B : Builtins} (event : pyval float)
    (w w' : world) (r : response) :
  lambda_handler event w = (w', Returned r) ->
  headers r = cors_headers.
Proof.
  unfold lambda_handler. intros H.
  destruct (check_serializable event) as [[]|e].
  - cbv zeta in H. unfold respond in H.
    destruct (handler_body cors_headers event w) as [w1 [r1|e]] eqn:Hbody.
    + injection H as _ <-. now apply handler_body_response in Hbody.
    + destruct e; simpl in H; injection H as _ <-; reflexivity.
  - destruct e; discriminate H.
Qed.

Lemma responses_carry_cors_headers_witness :
  exists r,
    lambda_handler (B := Reference.builtins) Examples.get_event
      Examples.chat_world = (Examples.chat_world, Returned r) /\
    headers r = cors_headers.
Proof.
  exists (method_not_allowed_response cors_headers).
  assert (H : lambda_handler (B := Reference.builtins) Examples.get_event
                Examples.chat_world
              = (Examples.chat_world,
                 Returned (method_not_allowed_response cors_headers)))
    by reflexivity.
  split; [exact H|].
  exact (responses_carry_cors_headers _ _ _ _ H).
Defined.

(** The handler answers with one of four status codes: 200, 400, 405,
    500. *)
Theorem status_is_one_of_four `{B : Builtins} (event : pyval float)
    (w w' : world) (r : response) :
  lambda_handler event w = (w', Returned r) ->
  statusCode r = 200 \/ statusCode r = 400 \/ statusCode r = 405
  \/ statusCode r = 500.
Proof.
  unfold lambda_handler. intros H.
  destruct (check_serializable event) as [[]|e].
  - cbv zeta in H. unfold respond in H.
    destruct (handler_body cors_headers event w) as [w1 [r1|e]] eqn:Hbody.
    + injection H as _ <-. apply handler_body_response in Hbody. tauto.
    + destruct e; simpl in H; injection H as _ <-; simpl; tauto.
  - destruct e; discriminate H.
Qed.

Lemma status_is_one_of_four_witness :
  exists r,
    lambda_handler (B := Reference.builtins) Examples.bare_event
      Examples.chat_world = (Examples.chat_world, Returned r) /\
    (statusCode r = 200 \/ statusCode r = 400 \/ statusCode r = 405
     \/ statusCode r = 500).
Proof.
  exists (method_not_allowed_response cors_headers).
  assert (H : lambda_handler (B := Reference.builtins) Examples.bare_event
                Examples.chat_world
              = (Examples.chat_world,
                 Returned (method_not_allowed_response cors_headers)))
    by reflexivity.
  split; [exact H|].
  exact (status_is_one_of_four _ _ _ _ H).
Defined.

(** ** The Titan prompt *)

Lemma format_loop_cons `{B : Builtins} (formatted : pystr) (role : pystr)
    (content : pyval float) (rest : list (pyval float)) :
  format_loop formatted (turn role content :: rest)
  = if pystr_eqb role (lit "user")
    then format_loop (formatted ++ lit "User: " ++ str_of content ++ newline) rest
    else if pystr_eqb role (lit "assistant")
    then format_loop (formatted ++ lit "Assistant: " ++ str_of content ++ newline)
           rest
    else format_loop formatted rest.
Proof.
  change (format_loop formatted (turn role content :: rest))
    with (if eq_str (PStr role : pyval float) (lit "user")
          then format_loop
                 (formatted ++ lit "User: " ++ str_of content ++ newline) rest
          else if eq_str (PStr role : pyval float) (lit "assistant")
          then format_loop
                 (formatted ++ lit "Assistant: " ++ str_of content ++ newline)
                 rest
          else format_loop formatted rest).
  reflexivity.
Qed.

Lemma format_loop_text_turns `{B : Builtins} (turns : list (pystr * pystr))
    (formatted : pystr) :
  format_loop formatted (List.map text_turn turns)
  = Ok (formatted ++ concat (List.map titan_line turns)).
Proof.
  revert formatted. induction turns as [|[role content] turns IH];
    intros formatted.
  - simpl. now rewrite app_nil_r.
  - change (List.map text_turn ((role, content) :: turns))
      with (turn role (PStr content) :: List.map text_turn turns).
    rewrite format_loop_cons, str_of_str.
    change (concat (List.map titan_line ((role, content) :: turns)))
      with (titan_line (role, content) ++ concat (List.map titan_line turns)).
    unfold titan_line. cbn [fst snd].
    destruct (pystr_eqb role (lit "user")).
    + rewrite IH. now rewrite <- List.app_assoc.
    + destruct (pystr_eqb role (lit "assistant")).
      * rewrite IH. now rewrite <- List.app_assoc.
      * apply IH.
Qed.

(** On a conversation whose turns have texts as role and content, the
    Titan prompt is one line per user or assistant turn, in order, with
    the capitalised role in front, then the cue ["Assistant: "]; a turn
    with any other role (a system turn, say) adds nothing, and the empty
    conversation gives the cue alone. *)
Theorem titan_prompt_of_turns `{B : Builtins} (turns : list (pystr * pystr)) :
  format_messages_for_titan (List.map text_turn turns) = Ok (titan_prompt turns).
Proof.
  unfold format_messages_for_titan, titan_prompt.
  rewrite format_loop_text_turns. reflexivity.
Qed.

(** ** Errors and replies of the inference call *)

Lemma is_prefix_app (p s : pystr) : is_prefix p (p ++ s) = true.
Proof.
  induction p as [|a p IH]; [reflexivity|].
  simpl. now rewrite N.eqb_refl.
Qed.

Lemma subscript_raises `{B : Builtins} (v : pyval float) (k : pystr) (e : exn) :
  subscript v k = Raise e -> exists cls text, e = PyError cls text.
Proof.
  unfold subscript, fault_of. intros H.
  destruct v; try (injection H as <-; eauto).
  destruct (dict_find k d); [discriminate|]. injection H as <-. eauto.
Qed.

Lemma format_loop_raises `{B : Builtins} (messages : list (pyval float))
    (formatted : pystr) (e : exn) :
  format_loop formatted messages = Raise e ->
  exists cls text, e = PyError cls text.
Proof.
  revert formatted. induction messages as [|msg rest IH]; intros formatted H.
  - discriminate.
  - simpl in H. unfold obind in H.
    destruct (subscript msg (lit "role")) as [role|e1] eqn:Hrole;
      [|injection H as <-; exact (subscript_raises _ _ _ Hrole)].
    destruct (eq_str role (lit "user")).
    + destruct (subscript msg (lit "content")) as [content|e1] eqn:Hcontent;
        [exact (IH _ H)|].
      injection H as <-. exact (subscript_raises _ _ _ Hcontent).
    + destruct (eq_str role (lit "assistant")); [|exact (IH _ H)].
      destruct (subscript msg (lit "content")) as [content|e1] eqn:Hcontent;
        [exact (IH _ H)|].
      injection H as <-. exact (subscript_raises _ _ _ Hcontent).
Qed.

Lemma str_in_raises `{B : Builtins} (k : pystr) (v : pyval float) (e : exn) :
  str_in k v = Raise e -> exists cls text, e = PyError cls text.
Proof.
  unfold str_in, fault_of. intros H.
  destruct v; try discriminate; injection H as <-; eauto.
Qed.

Lemma subscript0_raises `{B : Builtins} (v : pyval float) (e : exn) :
  subscript0 v = Raise e -> exists cls text, e = PyError cls text.
Proof.
  unfold subscript0, fault_of. intros H.
  destruct v as [| | | |[|c s]|[|x l]| |]; try discriminate;
    injection H as <-; eauto.
Qed.

(** The adapter raises exceptions of the interpreter only. *)
Lemma build_body_raises `{B : Builtins} (messages : list (pyval float))
    (model_id : pyval float) (max_tokens : Z) (temperature : float) (e : exn) :
  build_body messages model_id max_tokens temperature = Raise e ->
  exists cls text, e = PyError cls text.
Proof.
  unfold build_body, obind, format_messages_for_titan, obind. intros H.
  destruct (str_in (lit "anthropic") model_id) as [[]|e1] eqn:Hanthropic;
    [discriminate| |].
  - destruct (str_in (lit "amazon.titan") model_id) as [[]|e2] eqn:Htitan.
    + destruct (format_loop [] messages) as [prompt|e3] eqn:Hformat;
        [discriminate|].
      injection H as <-. exact (format_loop_raises _ _ _ Hformat).
    + injection H as <-. eauto.
    + injection H as <-. exact (str_in_raises _ _ _ Htitan).
  - injection H as <-. exact (str_in_raises _ _ _ Hanthropic).
Qed.

Lemma parse_response_raises `{B : Builtins} (model_id response_body : pyval float)
    (e : exn) :
  parse_response model_id response_body = Raise e ->
  exists cls text, e = PyError cls text.
Proof.
  unfold parse_response, obind. intros H.
  destruct (str_in (lit "anthropic") model_id) as [[]|e1] eqn:Hanthropic.
  - destruct (subscript response_body (lit "content")) as [content|e2]
      eqn:Hcontent;
      [|injection H as <-; exact (subscript_raises _ _ _ Hcontent)].
    destruct (subscript0 content) as [block|e3] eqn:Hblock;
      [|injection H as <-; exact (subscript0_raises _ _ Hblock)].
    exact (subscript_raises _ _ _ H).
  - destruct (str_in (lit "amazon.titan") model_id) as [[]|e2] eqn:Htitan.
    + destruct (subscript response_body (lit "results")) as [results|e3]
        eqn:Hresults;
        [|injection H as <-; exact (subscript_raises _ _ _ Hresults)].
      destruct (subscript0 results) as [first|e4] eqn:Hfirst;
        [|injection H as <-; exact (subscript0_raises _ _ Hfirst)].
      exact (subscript_raises _ _ _ H).
    + discriminate.
    + injection H as <-. exact (str_in_raises _ _ _ Htitan).
  - injection H as <-. exact (str_in_raises _ _ _ Hanthropic).
Qed.

Lemma py_print_raises `{B : Builtins} (text : pystr) (e : exn) :
  py_print text = Raise e ->
  e = PyError UnicodeEncodeError_ (fault_text (Unencodable text))
  /\ printable text = false.
Proof.
  unfold py_print, fault_of. destruct (printable text); [discriminate|].
  intros H. injection H as <-. auto.
Qed.

Lemma py_json_loads_raises `{B : Builtins} (s : pystr) (e : exn) :
  py_json_loads s = Raise e -> exists cls text, e = PyError cls text.
Proof.
  unfold py_json_loads, fault_of. destruct (json_loads s); [discriminate|].
  intros H. injection H as <-. eauto.
Qed.

(** The exception that leaves [call_bedrock] went through one of its
    [except] clauses, and came from the endpoint when it was a
    [ClientError]. *)
Lemma call_bedrock_raise_source `{B : Builtins} (messages : list (pyval float))
    (model_id : pyval float) (max_tokens : Z) (temperature : float)
    (w w' : world) (e : exn) :
  call_bedrock messages model_id max_tokens temperature w = (w', Raise e) ->
  exists e0,
    e = except_clause e0 /\
    ((exists cls text, e0 = PyError cls text) \/
     (exists body, bedrock w model_id body = Fails e0)).
Proof.
  rewrite call_bedrock_stages. intros H.
  destruct (build_body messages model_id max_tokens temperature)
    as [body|e0] eqn:Hbody.
  2: { injection H as _ <-. exists e0. split; [reflexivity|]. left.
       exact (build_body_raises _ _ _ _ _ Hbody). }
  destruct (py_print (lit "Calling Bedrock model: " ++ str_of model_id))
    as [[]|e0] eqn:Hprint.
  2: { injection H as _ <-. exists e0. split; [reflexivity|]. left.
       apply py_print_raises in Hprint as [-> _]. eauto. }
  destruct (check_serializable body) as [[]|e0] eqn:Hser.
  2: { injection H as _ <-. exists e0. split; [reflexivity|]. left.
       unfold check_serializable, fault_of in Hser.
       destruct (serializable body); [discriminate|].
       injection Hser as <-. eauto. }
  destruct (bedrock w model_id body) as [raw|e0] eqn:Hendpoint.
  2: { injection H as _ <-. exists e0. split; [reflexivity|]. right. eauto. }
  unfold obind in H.
  destruct (py_json_loads raw) as [v|e0] eqn:Hjson.
  2: { injection H as _ <-. exists e0. split; [reflexivity|]. left.
       exact (py_json_loads_raises _ _ Hjson). }
  destruct (parse_response model_id v) as [reply|e0] eqn:Hparse;
    [discriminate|].
  injection H as _ <-. exists e0. split; [reflexivity|]. left.
  exact (parse_response_raises _ _ _ Hparse).
Qed.

(** A [ClientError] that leaves [call_bedrock] is one the endpoint
    raised. *)
Lemma call_bedrock_client_error_origin `{B : Builtins}
    (messages : list (pyval float)) (model_id : pyval float) (max_tokens : Z)
    (temperature : float) (w w' : world) (code message text : pystr) :
  call_bedrock messages model_id max_tokens temperature w
  = (w', Raise (ClientError code message text)) ->
  exists body, bedrock w model_id body = Fails (ClientError code message text).
Proof.
  intros H. apply call_bedrock_raise_source in H as (e0 & He & Hsource).
  assert (He0 : e0 = ClientError code message text).
  { destruct e0 as [c d t|cls t]; unfold except_clause in He; cbv zeta in He.
    - destruct (printable (lit "Bedrock ClientError: " ++ t));
        [now symmetry | discriminate].
    - destruct (printable (lit "Bedrock call error: " ++ t)); discriminate. }
  subst e0. destruct Hsource as [(cls & t & Hclass)|Hendpoint];
    [discriminate | exact Hendpoint].
Qed.

(** Whatever goes wrong in [call_bedrock], what leaves it is one of
    three: the endpoint's [ClientError], as it was raised; a plain
    [Exception] whose text starts with the fixed Korean prefix (a bad
    model id, a malformed turn, a reply that is not JSON or lacks the
    expected fields all come out in this form); or the
    [UnicodeEncodeError] of the log line of an [except] clause, when the
    text of the exception it writes holds a lone surrogate. *)
Theorem call_bedrock_raises `{B : Builtins} (messages : list (pyval float))
    (model_id : pyval float) (max_tokens : Z) (temperature : float)
    (w w' : world) (e : exn) :
  call_bedrock messages model_id max_tokens temperature w = (w', Raise e) ->
  (exists code message text,
     e = ClientError code message text /\
     exists body, bedrock w model_id body = Fails e) \/
  (exists text,
     e = PyError Exception_ text /\
     is_prefix (lit "모델 호출 중 오류가 발생했습니다: ") text = true) \/
  (exists line,
     e = PyError UnicodeEncodeError_ (fault_text (Unencodable line)) /\
     printable line = false /\
     (is_prefix (lit "Bedrock ClientError: ") line = true \/
      is_prefix (lit "Bedrock call error: ") line = true)).
Proof.
  intros H. apply call_bedrock_raise_source in H as (e0 & -> & Hsource).
  destruct e0 as [code message text|cls text]; unfold except_clause; cbv zeta.
  - destruct (printable (lit "Bedrock ClientError: " ++ text)) eqn:Hline.
    + left. exists code, message, text. split; [reflexivity|].
      destruct Hsource as [(cls & t & Hclass)|Hendpoint];
        [discriminate | exact Hendpoint].
    + right. right. eexists. split; [reflexivity|]. split; [exact Hline|].
      left. apply is_prefix_app.
  - destruct (printable (lit "Bedrock call error: " ++ text)) eqn:Hline.
    + right. left. eexists. split; [reflexivity|]. apply is_prefix_app.
    + right. right. eexists. split; [reflexivity|]. split; [exact Hline|].
      right. apply is_prefix_app.
Qed.

Lemma call_bedrock_raises_witness :
  (exists code message text,
     Examples.throttling = ClientError code message text /\
     exists body,
       bedrock Examples.throttled_world (PStr default_model_id) body
       = Fails Examples.throttling) \/
  (exists text,
     Examples.throttling = PyError Exception_ text /\
     is_prefix (lit "모델 호출 중 오류가 발생했습니다: ") text = true) \/
  (exists line,
     Examples.throttling
     = PyError UnicodeEncodeError_
         (fault_text (Builtins := Reference.builtins) (Unencodable line)) /\
     printable line = false /\
     (is_prefix (lit "Bedrock ClientError: ") line = true \/
      is_prefix (lit "Bedrock call error: ") line = true)).
Proof.
  apply (call_bedrock_raises (B := Reference.builtins) [Examples.user_hello]
           (PStr default_model_id) 1000 (7 # 10) Examples.throttled_world
           (record_call (PStr default_model_id)
              (anthropic_body (B := Reference.builtins) [Examples.user_hello]
                 1000 (7 # 10))
              Examples.throttled_world)
           Examples.throttling).
  reflexivity.
Defined.

(** When the endpoint answers and the answer has the shape of the
    model's family, [call_bedrock] returns the text of the first content
    block (Anthropic) or the output text of the first result (Titan),
    after exactly one invocation; the model id is one the log line can
    carry. *)
Theorem reply_text_extracted `{B : Builtins} (messages : list (pyval float))
    (model_id : pystr) (max_tokens : Z) (temperature : float) (w : world)
    (body : pyval float) (raw : pystr) (d block : pydict float)
    (rest : list (pyval float)) (reply : pyval float) :
  build_body messages (PStr model_id) max_tokens temperature = Ok body ->
  printable model_id = true ->
  serializable body = true ->
  bedrock w (PStr model_id) body = Reply raw ->
  json_loads raw = Some (PDict d) ->
  (contains (lit "anthropic") model_id = true /\
   dict_find (lit "content") d = Some (PList (PDict block :: rest)) /\
   dict_find (lit "text") block = Some reply)
  \/
  (contains (lit "anthropic") model_id = false /\
   contains (lit "amazon.titan") model_id = true /\
   dict_find (lit "results") d = Some (PList (PDict block :: rest)) /\
   dict_find (lit "outputText") block = Some reply) ->
  call_bedrock messages (PStr model_id) max_tokens temperature w
  = (record_call (PStr model_id) body w, Ok reply).
Proof.
  intros Hbody Hid Hser Hreply Hjson Hshape.
  rewrite call_bedrock_stages, Hbody.
  rewrite model_line_printed by now rewrite str_of_str.
  unfold check_serializable. rewrite Hser, Hreply.
  unfold py_json_loads. rewrite Hjson.
  unfold obind, parse_response. rewrite !str_in_text.
  destruct Hshape as [(Ha & Hc & Ht)|(Ha & Hti & Hr & Ht)].
  - rewrite Ha. unfold obind, subscript. rewrite Hc.
    unfold subscript0. rewrite Ht. reflexivity.
  - rewrite Ha, Hti. unfold obind, subscript. rewrite Hr.
    unfold subscript0. rewrite Ht. reflexivity.
Qed.

Lemma reply_text_extracted_witness :
  call_bedrock (B := Reference.builtins) [Examples.user_hello]
    (PStr default_model_id) 1000 (7 # 10) Examples.plain_world
  = (record_call (PStr default_model_id)
       (anthropic_body (B := Reference.builtins) [Examples.user_hello] 1000
          (7 # 10))
       Examples.plain_world,
     Ok (PStr (lit "ok")))
  /\
  snd (call_bedrock (B := Reference.builtins) [Examples.user_hello]
         (PStr (lit "amazon.titan-text-express-v1")) 1000 (7 # 10)
         Examples.plain_world)
  = Ok (PStr (lit "ok")).
Proof.
  split.
  - apply (reply_text_extracted (B := Reference.builtins) [Examples.user_hello]
             default_model_id 1000 (7 # 10) Examples.plain_world
             (anthropic_body (B := Reference.builtins) [Examples.user_hello] 1000
          (7 # 10))
             Examples.reply_ok
             [(lit "content", PList [PDict [(lit "text", PStr (lit "ok"))]]);
              (lit "results",
               PList [PDict [(lit "outputText", PStr (lit "ok"))]])]
             [(lit "text", PStr (lit "ok"))] [] (PStr (lit "ok")));
      try reflexivity.
    left. repeat split; reflexivity.
  - rewrite (reply_text_extracted (B := Reference.builtins)
               [Examples.user_hello] (lit "amazon.titan-text-express-v1")
               1000 (7 # 10) Examples.plain_world
               (titan_body (B := Reference.builtins)
                  (lit "User: hello" ++ newline ++ lit "Assistant: ")
                  1000 (7 # 10))
               Examples.reply_ok
               [(lit "content", PList [PDict [(lit "text", PStr (lit "ok"))]]);
                (lit "results",
                 PList [PDict [(lit "outputText", PStr (lit "ok"))]])]
               [(lit "outputText", PStr (lit "ok"))] [] (PStr (lit "ok")));
      try reflexivity.
    right. repeat split; reflexivity.
Defined.

Lemma build_body_anthropic `{B : Builtins} (messages : list (pyval float))
    (model_id : pystr) (max_tokens : Z) (temperature : float) :
  contains (lit "anthropic") model_id = true ->
  build_body messages (PStr model_id) max_tokens temperature
  = Ok (anthropic_body messages max_tokens temperature).
Proof.
  intros Ha. unfold build_body. rewrite str_in_text, Ha. reflexivity.
Qed.

Lemma call_bedrock_client_error `{B : Builtins} (messages : list (pyval float))
    (model_id body : pyval float) (max_tokens : Z) (temperature : float)
    (w : world) (code message text : pystr) :
  build_body messages model_id max_tokens temperature = Ok body ->
  printable (str_of model_id) = true ->
  serializable body = true ->
  bedrock w model_id body = Fails (ClientError code message text) ->
  printable text = true ->
  call_bedrock messages model_id max_tokens temperature w
  = (record_call model_id body w, Raise (ClientError code message text)).
Proof.
  intros Hbody Hid Hser Hfails Htext.
  rewrite call_bedrock_stages, Hbody, (model_line_printed _ Hid).
  unfold check_serializable. rewrite Hser, Hfails.
  unfold except_clause. cbv zeta. rewrite printable_app, Htext. reflexivity.
Qed.

Lemma load_history_keeps_table `{B : Builtins} (session_id : pyval float)
    (w w1 : world) (o : outcome (pyval float)) :
  load_history session_id w = (w1, o) -> table w1 = table w.
Proof.
  unfold load_history. destruct (truthy session_id).
  - destruct (get_conversation_history_total session_id w)
      as (w' & v & Hget & Htable).
    rewrite Hget. intros H. injection H as <- _. exact Htable.
  - unfold ret. intros H. now injection H as <- _.
Qed.

(** When the endpoint rejects the invocation with a [ClientError] (and
    the log lines with the model id and with the text of the error can be
    written), the handler answers with status 500 and a body of status
    [aws_error] that carries the error code and the text that goes with
    it, whatever history was loaded before; nothing is saved: the world
    is left right after the invocation and the table is as it was. *)
Theorem backend_error_response `{B : Builtins} (hdrs : list (pystr * pystr))
    (message : pystr) (session_id model_id : pyval float) (max_tokens : Z)
    (temperature : float) (w w1 : world) (history : list (pyval float))
    (body : pyval float) (code detail text : pystr) :
  load_history session_id w = (w1, Ok (PList history)) ->
  build_body (history ++ [turn (lit "user") (PStr message)]) model_id
    max_tokens temperature = Ok body ->
  printable (str_of model_id) = true ->
  serializable body = true ->
  bedrock w1 model_id body = Fails (ClientError code detail text) ->
  printable text = true ->
  respond hdrs (answer hdrs message session_id model_id max_tokens temperature w)
  = (record_call model_id body (tick w1),
     Returned
       {| statusCode := 500;
          headers := hdrs;
          body := PDict [(lit "error",
                          PStr (aws_error_message code detail text));
                         (lit "error_code", PStr code);
                         (lit "status", PStr (lit "aws_error"))] |})
  /\ table (record_call model_id body (tick w1)) = table w.
Proof.
  intros Hload Hbody Hid Hser Hfails Htext. split.
  - unfold answer. unfold bind at 1.
    change ((if truthy session_id then get_conversation_history session_id
             else ret (PList [])) w) with (load_history session_id w).
    rewrite Hload. unfold bind at 1. unfold lift at 1. unfold py_append.
    unfold bind at 1. unfold time_time at 1. unfold bind at 1.
    rewrite (call_bedrock_client_error _ _ body _ _ (tick w1) code detail text
               Hbody Hid Hser Hfails Htext).
    reflexivity.
  - change (table w1 = table w).
    exact (load_history_keeps_table _ _ _ _ Hload).
Qed.

Lemma backend_error_response_witness :
  respond cors_headers
    (answer (B := Reference.builtins) cors_headers (lit "hello")
       (PStr (lit "s1")) (PStr default_model_id) 1000 (7 # 10)
       Examples.throttled_world)
  = (record_call (PStr default_model_id)
       (anthropic_body (B := Reference.builtins) [Examples.user_hello] 1000
          (7 # 10))
       (tick (record_op (GetItem (PStr (lit "s1"))) Examples.throttled_world)),
     Returned
       {| statusCode := 500;
          headers := cors_headers;
          body := PDict [(lit "error",
                          PStr (lit "요청이 너무 많습니다. 잠시 후 다시 시도해주세요."));
                         (lit "error_code", PStr (lit "ThrottlingException"));
                         (lit "status", PStr (lit "aws_error"))] |}).
Proof.
  destruct (backend_error_response (B := Reference.builtins) cors_headers
              (lit "hello") (PStr (lit "s1")) (PStr default_model_id) 1000
              (7 # 10) Examples.throttled_world
              (record_op (GetItem (PStr (lit "s1"))) Examples.throttled_world)
              []
              (anthropic_body (B := Reference.builtins) [Examples.user_hello]
                 1000 (7 # 10))
              (lit "ThrottlingException") (lit "Too many requests")
              (lit "An error occurred (ThrottlingException) when calling the InvokeModel operation: Too many requests")
              eq_refl eq_refl eq_refl eq_refl eq_refl eq_refl) as [Hrun _].
  assert (Hmessage :
            aws_error_message (lit "ThrottlingException")
              (lit "Too many requests")
              (lit "An error occurred (ThrottlingException) when calling the InvokeModel operation: Too many requests")
            = lit "요청이 너무 많습니다. 잠시 후 다시 시도해주세요.")
    by reflexivity.
  rewrite Hmessage in Hrun. exact Hrun.
Defined.

(** A valid request without a session, for an Anthropic model whose id
    the log line can carry, makes exactly one invocation: of the model it
    names, with the trimmed message as the only turn and the converted
    [max_tokens] and [temperature]. *)
Theorem request_reaches_endpoint `{B : Builtins} (event : pyval float)
    (text : pystr) (request : pydict float) (m model_id : pystr)
    (max_tokens : Z) (temperature : float) (w : world) :
  is_post event = true ->
  body_text event = Some text ->
  json_loads text = Some (PDict request) ->
  dict_get (lit "message") (PStr []) request = PStr m ->
  forallb is_space m = false ->
  len (strip m) <= 10000 ->
  py_int (raw_max_tokens w request) = Ok max_tokens ->
  py_float (raw_temperature w request) = Ok temperature ->
  truthy (dict_get (lit "session_id") PNone request) = false ->
  dict_get (lit "model_id") (PStr default_model_id) request = PStr model_id ->
  contains (lit "anthropic") model_id = true ->
  printable model_id = true ->
  bedrock_calls (fst (lambda_handler event w))
  = (PStr model_id,
     PDict [(lit "anthropic_version", PStr (lit "bedrock-2023-05-31"));
            (lit "max_tokens", PInt max_tokens);
            (lit "messages", PList [turn (lit "user") (PStr (strip m))]);
            (lit "temperature", PFloat temperature)])
    :: bedrock_calls w.
Proof.
  intros Hpost Htext Hjson Hm Hblank Hshort Hint Hfloat Hsid Hmodel Ha Hid.
  pose proof (handler_accepts event text request m max_tokens temperature w
                Hpost Htext Hjson Hm Hblank Hshort Hint Hfloat) as Hrun.
  rewrite Hrun, Hmodel.
  rewrite (answer_falsy_session _ _ _ _ _ _ _ Hsid).
  assert (Hprinted : printable (str_of (PStr model_id)) = true)
    by now rewrite str_of_str.
  pose proof (call_bedrock_records [turn (lit "user") (PStr (strip m))]
                (PStr model_id)
                (anthropic_body [turn (lit "user") (PStr (strip m))] max_tokens
                   temperature)
                max_tokens temperature (tick w)
                (build_body_anthropic _ _ _ _ Ha) Hprinted eq_refl) as Hcall.
  unfold answer_sessionless, bind, time_time, ret, respond.
  destruct (call_bedrock [turn (lit "user") (PStr (strip m))] (PStr model_id)
              max_tokens temperature (tick w)) as [w2 [reply|e]];
    exact Hcall.
Qed.

Lemma request_reaches_endpoint_witness :
  bedrock_calls
    (fst (lambda_handler (B := Reference.builtins)
            (Examples.post (Examples.message_body (lit "  hello  ")))
            Examples.chat_world))
  = [(PStr default_model_id,
      PDict [(lit "anthropic_version", PStr (lit "bedrock-2023-05-31"));
             (lit "max_tokens", PInt 1000);
             (lit "messages", PList [Examples.user_hello]);
             (lit "temperature", PFloat (7 # 10))])].
Proof.
  assert (Hshort : len (strip (lit "  hello  ")) <= 10000)
    by (vm_compute; discriminate).
  exact (request_reaches_endpoint (B := Reference.builtins)
           (Examples.post (Examples.message_body (lit "  hello  ")))
           (Examples.message_body (lit "  hello  "))
           [(lit "message", PStr (lit "  hello  "))] (lit "  hello  ")
           default_model_id 1000 (7 # 10) Examples.chat_world
           eq_refl eq_refl eq_refl eq_refl eq_refl Hshort eq_refl eq_refl
           eq_refl eq_refl eq_refl eq_refl).
Defined.

(** ** The stored conversation *)

(** The guard [len(messages) > 20] changes nothing: the slice
    [messages[-20:]] of a shorter list is the list itself. *)
Lemma kept_is_last20 `{B : Builtins} (all : list (pyval float)) :
  (if 20 <? len all then last20 all else all) = last20 all.
Proof.
  destruct (20 <? len all) eqn:Hlong; [reflexivity|].
  apply Z.ltb_ge in Hlong. unfold len in Hlong. unfold last20.
  replace (length all - 20)%nat with 0%nat by lia. reflexivity.
Qed.

Lemma last20_length `{B : Builtins} (all : list (pyval float)) :
  length (last20 all) = Nat.min 20 (length all).
Proof. unfold last20. rewrite length_drop. lia. Qed.

Lemma last20_snoc `{B : Builtins} (l : list (pyval float)) (x : pyval float) :
  last (last20 (l ++ [x])) = Some x.
Proof.
  unfold last20. rewrite drop_app_le by (rewrite length_app; simpl; lia).
  apply last_snoc.
Qed.

Lemma table_unconfigured_environ `{B : Builtins} (w w' : world) (b : bool) :
  environ w' = environ w ->
  table_unconfigured w = (w, Ok b) ->
  table_unconfigured w' = (w', Ok b).
Proof.
  unfold table_unconfigured, bind, getenv, ret. intros -> H.
  injection H as ->. reflexivity.
Qed.

(** The save with its guard resolved: what goes through writes the last
    twenty turns of the conversation with the reply. *)
Lemma save_writes_last20 `{B : Builtins} (s : pystr)
    (messages : list (pyval float)) (bot_response : pyval float) (w : world)
    (seconds updated_at : Z) :
  table_unconfigured w = (w, Ok false) ->
  int_of_float (clock w (ticks w)) = Some seconds ->
  int_of_float (clock w (S (ticks w))) = Some updated_at ->
  let all := messages ++ [turn (lit "assistant") bot_response] in
  let item :=
    history_item (PStr s) (last20 all) updated_at (seconds + 24 * 60 * 60) in
  put_fault w item = None ->
  save_conversation_history (PStr s) messages bot_response w
  = (write_item s item (record_op (PutItem item) (tick (tick w))), Ok tt).
Proof.
  intros Hon Hfirst Hsecond all item Hput.
  pose proof (save_conversation_history_writes s messages bot_response w
                seconds updated_at Hon Hfirst Hsecond) as Hsave.
  cbv zeta in Hsave. rewrite kept_is_last20 in Hsave. exact (Hsave Hput).
Qed.

(** Whatever the length of the conversation, a save that goes through
    stores its end: the stored list is a suffix of the conversation with
    the reply appended, it ends with the assistant's turn, it has
    [min 20 (n + 1)] turns, and the items of the other sessions are left
    as they were. *)
Theorem saved_history_bounded `{B : Builtins} (s : pystr)
    (messages : list (pyval float)) (bot_response : pyval float) (w : world)
    (seconds updated_at : Z) :
  table_unconfigured w = (w, Ok false) ->
  int_of_float (clock w (ticks w)) = Some seconds ->
  int_of_float (clock w (S (ticks w))) = Some updated_at ->
  let all := messages ++ [turn (lit "assistant") bot_response] in
  put_fault w
    (history_item (PStr s) (last20 all) updated_at (seconds + 24 * 60 * 60))
  = None ->
  exists w' kept,
    save_conversation_history (PStr s) messages bot_response w = (w', Ok tt) /\
    (table w' !! s) ≫= dict_find (lit "messages") = Some (PList kept) /\
    length kept = Nat.min 20 (S (length messages)) /\
    (exists dropped, all = dropped ++ kept) /\
    last kept = Some (turn (lit "assistant") bot_response) /\
    forall k, k <> s -> table w' !! k = table w !! k.
Proof.
  intros Hon Hfirst Hsecond all Hput.
  pose proof (save_writes_last20 s messages bot_response w seconds updated_at
                Hon Hfirst Hsecond Hput) as Hsave.
  eexists. exists (last20 all). split; [exact Hsave|].
  split.
  { unfold write_item. cbn [table]. rewrite lookup_insert_eq. reflexivity. }
  split.
  { rewrite last20_length. unfold all. rewrite length_app. cbn [length].
    now rewrite Nat.add_1_r. }
  split.
  { exists (take (length all - 20) all). symmetry. apply take_drop. }
  split; [apply last20_snoc|].
  intros k Hk. unfold write_item. cbn [table].
  rewrite lookup_insert_ne by congruence. reflexivity.
Qed.

Lemma saved_history_bounded_witness :
  exists w' kept,
    save_conversation_history (B := Reference.builtins) (PStr (lit "s2"))
      (Examples.turns 0 30) (PStr (lit "ok")) Examples.returning_world
    = (w', Ok tt) /\
    (table w' !! lit "s2") ≫= dict_find (lit "messages") = Some (PList kept) /\
    length kept = 20%nat /\
    table w' !! lit "s1" = Some Examples.old_item.
Proof.
  destruct (saved_history_bounded (B := Reference.builtins) (lit "s2")
              (Examples.turns 0 30) (PStr (lit "ok")) Examples.returning_world
              1700000000 1700000001 eq_refl eq_refl eq_refl eq_refl)
    as (w' & kept & Hsave & Hkept & Hlength & _ & _ & Hothers).
  exists w', kept. split; [exact Hsave|]. split; [exact Hkept|].
  split; [exact Hlength|].
  rewrite Hothers by discriminate. reflexivity.
Defined.

(** A write that the store fails is swallowed: the save returns normally
    after its one request, whatever the session id is, and the table is
    as it was. *)
Theorem failed_write_is_swallowed `{B : Builtins} (session_id : pyval float)
    (messages : list (pyval float)) (bot_response : pyval float) (w : world)
    (seconds updated_at : Z) (e : exn) :
  table_unconfigured w = (w, Ok false) ->
  int_of_float (clock w (ticks w)) = Some seconds ->
  int_of_float (clock w (S (ticks w))) = Some updated_at ->
  let all := messages ++ [turn (lit "assistant") bot_response] in
  let item :=
    history_item session_id (last20 all) updated_at (seconds + 24 * 60 * 60) in
  put_fault w item = Some e ->
  save_conversation_history session_id messages bot_response w
  = (record_op (PutItem item) (tick (tick w)), Ok tt)
  /\ table (record_op (PutItem item) (tick (tick w))) = table w.
Proof.
  intros Hon Hfirst Hsecond all item Hput. split; [|reflexivity].
  unfold save_conversation_history, bind. rewrite Hon.
  unfold catch, bind, time_time, lift, py_int.
  change (clock (tick w)) with (clock w).
  change (ticks (tick w)) with (S (ticks w)).
  rewrite Hfirst, Hsecond, kept_is_last20.
  fold all. fold item. unfold put_item.
  change (put_fault (tick (tick w)) item) with (put_fault w item).
  rewrite Hput. reflexivity.
Qed.

Lemma failed_write_is_swallowed_witness :
  exists w',
    save_conversation_history (B := Reference.builtins) (PStr (lit "s1"))
      [Examples.user_hello] (PStr (lit "ok")) Examples.offline_world
    = (w', Ok tt) /\ table w' = ∅.
Proof.
  destruct (failed_write_is_swallowed (B := Reference.builtins)
              (PStr (lit "s1")) [Examples.user_hello] (PStr (lit "ok"))
              Examples.offline_world 1700000000 1700000001
              Examples.unreachable eq_refl eq_refl eq_refl eq_refl)
    as [Hsave Htable].
  eexists. split; [exact Hsave | exact Htable].
Defined.



(** ** What a request leaves behind *)

Lemma bind_inv `{B : Builtins} {A C : Type} (m : M A) (k : A -> M C)
    (w w' : world) (o : outcome C) :
  bind m k w = (w', o) ->
  (exists w1 a, m w = (w1, Ok a) /\ k a w1 = (w', o)) \/
  (exists e, m w = (w', Raise e) /\ o = Raise e).
Proof.
  unfold bind. destruct (m w) as [w1 [a|e]]; intros H.
  - left. eauto.
  - right. injection H as <- <-. eauto.
Qed.

(** A stage of hypothesis [H] that reads the request or the environment:
    it leaves the world as it is. *)
Ltac pure_stage H :=
  let Hm := fresh "Hm" in
  apply bind_inv in H as [(? & ? & Hm & H)|(? & Hm & ->)];
  unfold lift, getenv in Hm; inversion Hm; subst; clear Hm.

(** What the stages before [answer] raise is an exception of the
    interpreter. *)
Ltac not_client_error :=
  left; split; [reflexivity|];
  let Heq := fresh "Heq" in
  intros ? ? ? Heq; try discriminate Heq; injection Heq as ->;
  match goal with
  | Hx : _ = Raise (ClientError _ _ _) |- _ =>
      first [ apply py_get_raises in Hx | apply py_strip_raises in Hx
            | apply py_int_raises in Hx | apply py_float_raises in Hx ];
      destruct Hx as (? & ? & ?); discriminate
  end.

(** Up to the validation the handler changes nothing and raises no
    [ClientError]: it leaves the world as it found it, or goes on to
    [answer]. *)
Lemma handle_request_inv `{B : Builtins} (hdrs : list (pystr * pystr))
    (request : pyval float) (w w' : world) (o : outcome response) :
  handle_request hdrs request w = (w', o) ->
  (w' = w /\ forall code message text, o <> Raise (ClientError code message text))
  \/
  exists message session_id model_id max_tokens temperature,
    answer hdrs message session_id model_id max_tokens temperature w = (w', o).
Proof.
  unfold handle_request. intros H.
  do 10 (pure_stage H; try solve [not_client_error]).
  repeat match type of H with
         | context [if ?c then _ else _] =>
             destruct c;
             [unfold ret in H; injection H as <- <-; left;
              split; [reflexivity | discriminate]|]
         end.
  right. eauto 10.
Qed.

Lemma handler_body_inv `{B : Builtins} (hdrs : list (pystr * pystr))
    (event : pyval float) (w w' : world) (o : outcome response) :
  handler_body hdrs event w = (w', o) ->
  (w' = w /\ forall code message text, o <> Raise (ClientError code message text))
  \/
  exists message session_id model_id max_tokens temperature,
    answer hdrs message session_id model_id max_tokens temperature w = (w', o).
Proof.
  unfold handler_body. intros H.
  pure_stage H; try solve [not_client_error].
  match type of H with
  | context [if ?c then _ else _] =>
      destruct c;
      [unfold ret in H; injection H as <- <-; left;
       split; [reflexivity | discriminate]|]
  end.
  pure_stage H; try solve [not_client_error].
  match type of H with
  | context [if ?c then _ else _] =>
      destruct c;
      [unfold ret in H; injection H as <- <-; left;
       split; [reflexivity | discriminate]|]
  end.
  pure_stage H; try solve [not_client_error].
  match type of H with
  | context [match ?text with PStr _ => _ | _ => _ end] =>
      destruct text;
      try (unfold lift, fault_of in H; injection H as <- <-; left;
           split; [reflexivity | discriminate])
  end.
  match type of H with
  | context [py_json_loads ?s] =>
      destruct (py_json_loads s) as [request|e] eqn:Hjson
  end.
  - exact (handle_request_inv _ _ _ _ _ H).
  - destruct (is_decode_error e).
    + unfold ret in H. injection H as <- <-. left.
      split; [reflexivity | discriminate].
    + unfold raise in H. injection H as <- <-. left.
      split; [reflexivity|]. intros code message text Heq.
      injection Heq as ->.
      apply py_json_loads_raises in Hjson as (? & ? & ?). discriminate.
Qed.

Lemma lambda_handler_inv `{B : Builtins} (event : pyval float) (w : world) :
  fst (lambda_handler event w) = w \/
  exists message session_id model_id max_tokens temperature,
    lambda_handler event w
    = respond cors_headers
        (answer cors_headers message session_id model_id max_tokens
           temperature w).
Proof.
  unfold lambda_handler.
  destruct (check_serializable event) as [[]|e]; [|left; reflexivity].
  cbv zeta.
  destruct (handler_body cors_headers event w) as [w' o] eqn:H.
  apply handler_body_inv in H
    as [[-> _]|(message & session_id & model_id & max_tokens & temperature & H)].
  - left. destruct o; reflexivity.
  - right. rewrite <- H. eauto 10.
Qed.

(** A request the handler answers with 400 or 405 has had no effect at
    all: the clock was not read, the model was not invoked, the store was
    not asked anything. *)
Theorem rejected_requests_touch_nothing `{B : Builtins} (event : pyval float)
    (w : world) :
  status_of (snd (lambda_handler event w)) = Some 400 \/
  status_of (snd (lambda_handler event w)) = Some 405 ->
  fst (lambda_handler event w) = w.
Proof.
  intros Hstatus.
  destruct (lambda_handler_inv event w)
    as [H|(message & session_id & model_id & max_tokens & temperature & H)];
    [exact H|].
  exfalso. rewrite H in Hstatus.
  pose proof (respond_answer_status cors_headers message session_id model_id
                max_tokens temperature w) as Hanswer.
  cbv zeta in Hanswer.
  destruct Hanswer as [E|E]; rewrite E in Hstatus;
    destruct Hstatus; discriminate.
Qed.

Lemma rejected_requests_touch_nothing_witness :
  fst (lambda_handler (B := Reference.builtins)
         (Examples.post Examples.blank_request) Examples.chat_world)
  = Examples.chat_world
  /\
  fst (lambda_handler (B := Reference.builtins) Examples.get_event
         Examples.chat_world)
  = Examples.chat_world.
Proof.
  split.
  - apply (rejected_requests_touch_nothing (B := Reference.builtins)).
    left. reflexivity.
  - apply (rejected_requests_touch_nothing (B := Reference.builtins)).
    right. reflexivity.
Defined.

Lemma table_unconfigured_configured `{B : Builtins} (w : world) :
  table_unconfigured w = (w, Ok (negb (configured w))).
Proof.
  unfold table_unconfigured, configured, bind, getenv, ret.
  destruct (environ w !! lit "DYNAMODB_TABLE") as [n|]; [|reflexivity].
  now rewrite negb_involutive.
Qed.

(** The history stage reads the store once when the session id is truthy
    and a table is configured, and never raises. *)
Lemma load_history_world `{B : Builtins} (session_id : pyval float)
    (w w1 : world) (o : outcome (pyval float)) :
  load_history session_id w = (w1, o) ->
  (exists v, o = Ok v) /\
  w1 = if truthy session_id && configured w
       then record_op (GetItem session_id) w else w.
Proof.
  unfold load_history. destruct (truthy session_id); cbn [andb].
  - pose proof (table_unconfigured_configured w) as Hb.
    destruct (configured w); cbn [negb] in Hb.
    + destruct (get_conversation_history_reads session_id w Hb) as [v Hv].
      rewrite Hv. intros H. injection H as <- <-. eauto.
    + unfold get_conversation_history, bind. rewrite Hb. unfold ret.
      intros H. injection H as <- <-. eauto.
  - unfold ret. intros H. injection H as <- <-. eauto.
Qed.

(** The inference call leaves the world as it is, or with one more
    invocation on record. *)
Lemma call_bedrock_world `{B : Builtins} (messages : list (pyval float))
    (model_id : pyval float) (max_tokens : Z) (temperature : float)
    (w w' : world) (o : outcome (pyval float)) :
  call_bedrock messages model_id max_tokens temperature w = (w', o) ->
  w' = w \/ exists body, w' = record_call model_id body w.
Proof.
  rewrite call_bedrock_stages.
  destruct (build_body messages model_id max_tokens temperature) as [body|e];
    [|intros H; injection H as <- _; left; reflexivity].
  destruct (py_print (lit "Calling Bedrock model: " ++ str_of model_id))
    as [[]|e]; [|intros H; injection H as <- _; left; reflexivity].
  destruct (check_serializable body) as [[]|e];
    intros H; injection H as <- _; [right; eauto | left; reflexivity].
Qed.

(** The save stage of the handler never raises; when the store is in use
    it reads the clock and issues at most one write. *)
Lemma save_stage_world `{B : Builtins} (session_id : pyval float)
    (messages : list (pyval float)) (bot_response : pyval float)
    (w w' : world) (o : outcome unit) :
  (if truthy session_id
   then save_conversation_history session_id messages bot_response
   else ret tt) w = (w', o) ->
  o = Ok tt /\
  if truthy session_id && configured w
  then w' = tick w \/ w' = tick (tick w) \/
       exists item,
         w' = record_op (PutItem item) (tick (tick w)) \/
         exists s, w' = write_item s item (record_op (PutItem item) (tick (tick w)))
  else w' = w.
Proof.
  destruct (truthy session_id); cbn [andb];
    [|unfold ret; intros H; injection H as <- <-; auto].
  pose proof (table_unconfigured_configured w) as Hb.
  unfold save_conversation_history. unfold bind at 1. rewrite Hb.
  destruct (configured w); cbn [negb];
    [|unfold ret; intros H; injection H as <- <-; auto].
  unfold catch, bind, time_time, lift, put_item, ret.
  destruct (py_int (PFloat (clock w (ticks w)))) as [seconds|e];
    [|intros H; injection H as <- <-; auto].
  destruct (py_int (PFloat (clock (tick w) (ticks (tick w)))))
    as [updated_at|e]; [|intros H; injection H as <- <-; auto].
  match goal with
  | |- context [put_fault ?w0 ?item] =>
      destruct (put_fault w0 item) as [e|];
      [|destruct (dict_find (lit "session_id") item) as [[]|]];
      intros H; injection H as <- <-; split; try reflexivity;
      right; right; exists item; eauto
  end.
Qed.

Lemma configured_environ `{B : Builtins} (w w' : world) :
  environ w' = environ w -> configured w' = configured w.
Proof. unfold configured. now intros ->. Qed.

(** The worlds [answer] goes through: [w1] after the history stage, [w2]
    after the inference call, and where it ends. *)
Lemma answer_world `{B : Builtins} (hdrs : list (pystr * pystr))
    (message : pystr) (session_id model_id : pyval float) (max_tokens : Z)
    (temperature : float) (w w' : world) (o : outcome response) :
  answer hdrs message session_id model_id max_tokens temperature w = (w', o) ->
  exists w1 w2,
    w1 = (if truthy session_id && configured w
          then record_op (GetItem session_id) w else w) /\
    (w2 = tick w1 \/ exists body, w2 = record_call model_id body (tick w1)) /\
    ((exists e, o = Raise e /\ (w' = w1 \/ w' = w2)) \/
     (exists r, o = Ok r /\ statusCode r = 200 /\
        if truthy session_id && configured w
        then w' = tick (tick w2) \/ w' = tick (tick (tick w2)) \/
             exists item,
               w' = record_op (PutItem item) (tick (tick (tick w2))) \/
               exists s,
                 w' = write_item s item
                        (record_op (PutItem item) (tick (tick (tick w2))))
        else w' = tick w2)).
Proof.
  unfold answer. intros H.
  apply bind_inv in H as [(w1 & v & Hload & H)|(e & Hload & _)];
    [|apply load_history_world in Hload as [[v Hv] _]; discriminate].
  apply load_history_world in Hload as [_ Hw1].
  exists w1.
  apply bind_inv in H as [(w1' & history & Happend & H)|(e & Happend & ->)];
    unfold lift in Happend; injection Happend as <- Happend;
    [|exists (tick w1); split; [exact Hw1|]; split; [left; reflexivity|];
      left; eauto].
  apply bind_inv in H as [(w1' & start_time & Htime & H)|(e & Htime & _)];
    [|discriminate].
  unfold time_time in Htime. injection Htime as <- _.
  apply bind_inv in H as [(w2 & reply & Hcall & H)|(e & Hcall & ->)];
    apply call_bedrock_world in Hcall as Hw2;
    [exists w2|exists w']; (split; [exact Hw1|]); (split; [exact Hw2|]);
    [|left; eauto].
  right.
  apply bind_inv in H as [(w2' & end_time & Htime & H)|(e & Htime & _)];
    [|discriminate].
  unfold time_time in Htime. injection Htime as <- _.
  apply bind_inv in H as [(w3 & u & Hsave & H)|(e & Hsave & _)];
    apply save_stage_world in Hsave as [Hu Hw3]; [|discriminate].
  unfold ret in H. injection H as <- <-.
  eexists. split; [reflexivity|]. split; [reflexivity|].
  assert (Hsame : configured (tick w2) = configured w).
  { apply configured_environ.
    destruct Hw2 as [->|[body ->]];
      rewrite Hw1; destruct (truthy session_id && configured w); reflexivity. }
  rewrite Hsame in Hw3. exact Hw3.
Qed.

(** The model is invoked at most once per request and the store is asked
    at most one read, then at most one write, whatever the event and
    however the request ends; the clock is read at most four times, and
    the environment is not changed. *)
Theorem handler_footprint `{B : Builtins} (event : pyval float) (w : world) :
  let w' := fst (lambda_handler event w) in
  environ w' = environ w /\
  (ticks w <= ticks w' <= ticks w + 4)%nat /\
  (bedrock_calls w' = bedrock_calls w \/
   exists call, bedrock_calls w' = call :: bedrock_calls w) /\
  (store_ops w' = store_ops w \/
   exists session_id,
     store_ops w' = GetItem session_id :: store_ops w \/
     exists item,
       store_ops w' = PutItem item :: GetItem session_id :: store_ops w).
Proof.
  cbv zeta.
  destruct (lambda_handler_inv event w)
    as [->|(message & session_id & model_id & max_tokens & temperature & ->)].
  { repeat split; auto; lia. }
  destruct (answer cors_headers message session_id model_id max_tokens
              temperature w) as [w' o] eqn:Hanswer.
  assert (Hfst : fst (respond cors_headers (w', o)) = w')
    by (destruct o; reflexivity).
  rewrite Hfst. clear Hfst.
  apply answer_world in Hanswer as (w1 & w2 & Hw1 & Hw2 & Hend).
  destruct (truthy session_id && configured w);
    destruct Hw2 as [Hw2|[body Hw2]];
    destruct Hend as [(e & _ & [Hw'|Hw'])|(r & _ & _ & Hw')];
    try destruct Hw' as [Hw'|[Hw'|[item [Hw'|[s Hw']]]]];
    subst; cbn; repeat split; try lia; eauto 6.
Qed.

(** A request that does not end in a 200 has written nothing: the table
    is as it was, and the store was asked at most the read of the
    history. *)
Theorem no_write_without_success `{B : Builtins} (event : pyval float)
    (w : world) :
  status_of (snd (lambda_handler event w)) <> Some 200 ->
  let w' := fst (lambda_handler event w) in
  table w' = table w /\
  (store_ops w' = store_ops w \/
   exists session_id, store_ops w' = GetItem session_id :: store_ops w).
Proof.
  intros Hstatus. cbv zeta.
  destruct (lambda_handler_inv event w)
    as [->|(message & session_id & model_id & max_tokens & temperature & H)];
    [auto|].
  rewrite H in Hstatus |- *.
  destruct (answer cors_headers message session_id model_id max_tokens
              temperature w) as [w' [r|e]] eqn:Hanswer.
  - apply answer_returns_success in Hanswer as (text & t0 & t1 & ->).
    now destruct Hstatus.
  - assert (Hfst : fst (respond cors_headers (w', Raise e)) = w')
      by reflexivity.
    rewrite Hfst. clear Hfst Hstatus.
    apply answer_world in Hanswer as (w1 & w2 & Hw1 & Hw2 & Hend).
    destruct Hend as [(e' & _ & Hw')|(r & Hr & _)]; [|discriminate].
    destruct (truthy session_id && configured w);
      destruct Hw2 as [Hw2|[body Hw2]]; destruct Hw' as [Hw'|Hw'];
      subst; cbn; eauto.
Qed.

Lemma no_write_without_success_witness :
  let w' :=
    fst (lambda_handler (B := Reference.builtins)
           (Examples.post Examples.session_request) Examples.throttled_world) in
  table w' = table Examples.throttled_world /\
  (store_ops w' = store_ops Examples.throttled_world \/
   exists session_id,
     store_ops w' = GetItem session_id :: store_ops Examples.throttled_world).
Proof.
  apply (no_write_without_success (B := Reference.builtins)).
  assert (E : status_of
                (snd (lambda_handler (B := Reference.builtins)
                        (Examples.post Examples.session_request)
                        Examples.throttled_world)) = Some 500)
    by reflexivity.
  rewrite E. discriminate.
Defined.

(** ** A whole exchange *)

(** What the client is answered depends on the store through the loaded
    history only: the reply of the model on the history with the new
    message, timed by the two clock readings around the call. *)
Lemma answer_outcome `{B : Builtins} (hdrs : list (pystr * pystr))
    (message : pystr) (session_id model_id : pyval float) (max_tokens : Z)
    (temperature : float) (w w1 : world) (history : list (pyval float)) :
  load_history session_id w = (w1, Ok (PList history)) ->
  snd (answer hdrs message session_id model_id max_tokens temperature w)
  = match snd (call_bedrock (history ++ [turn (lit "user") (PStr message)])
                 model_id max_tokens temperature (tick w1)) with
    | Ok reply =>
        Ok (success_response hdrs reply session_id model_id
              (clock w (ticks w)) (clock w (S (ticks w))))
    | Raise e => Raise e
    end.
Proof.
  intros Hload.
  pose proof (load_history_world _ _ _ _ Hload) as [_ Hw1].
  assert (Hclock : clock w1 = clock w /\ ticks w1 = ticks w)
    by (rewrite Hw1; destruct (truthy session_id && configured w); auto).
  destruct Hclock as [Hclock Hticks].
  unfold answer. unfold bind at 1.
  change ((if truthy session_id then get_conversation_history session_id
           else ret (PList [])) w) with (load_history session_id w).
  rewrite Hload. unfold bind at 1. unfold lift at 1. unfold py_append.
  unfold bind at 1. unfold time_time at 1. unfold bind at 1.
  destruct (call_bedrock (history ++ [turn (lit "user") (PStr message)])
              model_id max_tokens temperature (tick w1))
    as [w2 [reply|e]] eqn:Hcall; [|reflexivity].
  apply call_bedrock_world in Hcall.
  unfold bind at 1. unfold time_time at 1. unfold bind at 1.
  destruct ((if truthy session_id
             then save_conversation_history session_id
                    (history ++ [turn (lit "user") (PStr message)]) reply
             else ret tt) (tick w2)) as [w3 o] eqn:Hsave.
  apply save_stage_world in Hsave as [-> _].
  unfold ret. cbn [snd]. rewrite <- Hclock, <- Hticks.
  destruct Hcall as [->|[body ->]]; reflexivity.
Qed.

(** The outcome of the inference call depends on the world through the
    endpoint only. *)
Lemma call_bedrock_outcome `{B : Builtins} (messages : list (pyval float))
    (model_id : pyval float) (max_tokens : Z) (temperature : float)
    (w w' : world) :
  bedrock w' = bedrock w ->
  snd (call_bedrock messages model_id max_tokens temperature w')
  = snd (call_bedrock messages model_id max_tokens temperature w).
Proof.
  intros Hsame. rewrite !call_bedrock_stages.
  destruct (build_body messages model_id max_tokens temperature) as [body|e];
    [|reflexivity].
  destruct (py_print (lit "Calling Bedrock model: " ++ str_of model_id))
    as [[]|e]; [|reflexivity].
  destruct (check_serializable body) as [[]|e]; [|reflexivity].
  cbn [snd]. now rewrite Hsame.
Qed.

(** A session with no usable history is answered exactly as a request
    without a session: when the history stage gives the empty list (no
    table configured, no item for the session, or a read that failed),
    the response is that of session-less mode with the session id echoed,
    whatever the save does afterwards. *)
Theorem empty_history_answers_as_sessionless `{B : Builtins}
    (hdrs : list (pystr * pystr)) (message : pystr)
    (session_id model_id : pyval float) (max_tokens : Z) (temperature : float)
    (w w1 : world) :
  load_history session_id w = (w1, Ok (PList [])) ->
  snd (answer hdrs message session_id model_id max_tokens temperature w)
  = snd (answer_sessionless hdrs message session_id model_id max_tokens
           temperature w).
Proof.
  intros Hload.
  rewrite (answer_outcome hdrs message session_id model_id max_tokens
             temperature w w1 [] Hload).
  assert (Hfalsy : load_history (PNone : pyval float) w = (w, Ok (PList [])))
    by reflexivity.
  pose proof (answer_outcome hdrs message PNone model_id max_tokens
                temperature w w [] Hfalsy) as Hplain.
  rewrite (answer_falsy_session hdrs message PNone model_id max_tokens
             temperature w eq_refl) in Hplain.
  pose proof (load_history_world _ _ _ _ Hload) as [_ Hw1].
  rewrite (call_bedrock_outcome _ model_id max_tokens temperature (tick w)
             (tick w1))
    by (rewrite Hw1; destruct (truthy session_id && configured w); reflexivity).
  unfold answer_sessionless, bind, time_time, ret in Hplain |- *.
  destruct (call_bedrock ([] ++ [turn (lit "user") (PStr message)]) model_id
              max_tokens temperature (tick w)) as [w2 [reply|e]] eqn:Hcall;
    change ([] ++ [turn (lit "user") (PStr message)])
      with [turn (lit "user") (PStr message) : pyval float] in Hcall;
    rewrite Hcall; cbn [snd]; [|reflexivity].
  apply call_bedrock_world in Hcall.
  destruct Hcall as [->|[body ->]]; reflexivity.
Qed.

Lemma empty_history_answers_as_sessionless_witness :
  snd (answer (B := Reference.builtins) cors_headers (lit "hello")
         (PStr (lit "s1")) (PStr default_model_id) 1000 (7 # 10)
         Examples.offline_world)
  = snd (answer_sessionless (B := Reference.builtins) cors_headers
           (lit "hello") (PStr (lit "s1")) (PStr default_model_id) 1000
           (7 # 10) Examples.offline_world).
Proof.
  exact (empty_history_answers_as_sessionless (B := Reference.builtins)
           cors_headers (lit "hello") (PStr (lit "s1")) (PStr default_model_id)
           1000 (7 # 10) Examples.offline_world
           (record_op (GetItem (PStr (lit "s1"))) Examples.offline_world)
           eq_refl).
Defined.

(** A whole exchange of a session: the history is loaded, the model
    answers on it with the new message, and what is stored for the next
    request is the last twenty turns of the history followed by the
    message and the reply; the client gets the reply in a 200 response. *)
Theorem exchange_extends_history `{B : Builtins} (hdrs : list (pystr * pystr))
    (message s : pystr) (model_id : pyval float) (max_tokens : Z)
    (temperature : float) (w w1 w2 : world) (history : list (pyval float))
    (reply : pyval float) (seconds updated_at : Z) :
  s <> [] ->
  table_unconfigured w = (w, Ok false) ->
  load_history (PStr s) w = (w1, Ok (PList history)) ->
  call_bedrock (history ++ [turn (lit "user") (PStr message)]) model_id
    max_tokens temperature (tick w1) = (w2, Ok reply) ->
  int_of_float (clock w (S (S (ticks w)))) = Some seconds ->
  int_of_float (clock w (S (S (S (ticks w))))) = Some updated_at ->
  let all :=
    history ++ [turn (lit "user") (PStr message); turn (lit "assistant") reply] in
  put_fault w
    (history_item (PStr s) (last20 all) updated_at (seconds + 24 * 60 * 60))
  = None ->
  exists w',
    answer hdrs message (PStr s) model_id max_tokens temperature w
    = (w', Ok {| statusCode := 200;
                 headers := hdrs;
                 body := PDict [(lit "response", reply);
                                (lit "session_id", PStr s);
                                (lit "model_used", model_id);
                                (lit "processing_time",
                                 PFloat (elapsed (clock w (ticks w))
                                           (clock w (S (ticks w)))));
                                (lit "region", PStr (lit "ap-northeast-2"));
                                (lit "status", PStr (lit "success"))] |}) /\
    (table w' !! s) ≫= dict_find (lit "messages") = Some (PList (last20 all)).
Proof.
  intros Hs Hon Hload Hcall Hfirst Hsecond all Hput.
  assert (Htruthy : truthy (PStr s : pyval float) = true)
    by (destruct s; [now destruct Hs | reflexivity]).
  pose proof (load_history_world _ _ _ _ Hload) as [_ Hw1].
  pose proof (call_bedrock_world _ _ _ _ _ _ _ Hcall) as Hw2.
  assert (Hsame : environ (tick w2) = environ w /\ clock w1 = clock w /\
                  ticks w1 = ticks w /\ clock (tick w2) = clock w /\
                  ticks (tick w2) = S (S (ticks w)) /\
                  put_fault (tick w2) = put_fault w).
  { destruct Hw2 as [->|[body ->]]; rewrite Hw1;
      destruct (truthy (PStr s) && configured w); repeat split. }
  destruct Hsame as (Henv & Hclock1 & Hticks1 & Hclock & Hticks & Hfault).
  pose proof (save_writes_last20 s
                (history ++ [turn (lit "user") (PStr message)]) reply
                (tick w2) seconds updated_at
                (table_unconfigured_environ w (tick w2) false Henv Hon))
    as Hsave.
  rewrite Hclock, Hticks, Hfault in Hsave.
  specialize (Hsave Hfirst Hsecond). cbv zeta in Hsave.
  rewrite <- List.app_assoc in Hsave.
  change ([turn (lit "user") (PStr message)] ++ [turn (lit "assistant") reply])
    with [turn (lit "user") (PStr message); turn (lit "assistant") reply]
    in Hsave.
  fold all in Hsave. specialize (Hsave Hput).
  unfold answer. unfold bind at 1.
  change ((if truthy (PStr s) then get_conversation_history (PStr s)
           else ret (PList [])) w) with (load_history (PStr s) w).
  rewrite Hload. unfold bind at 1. unfold lift at 1. unfold py_append.
  unfold bind at 1. unfold time_time at 1. unfold bind at 1.
  rewrite Hcall. unfold bind at 1. unfold time_time at 1. unfold bind at 1.
  rewrite Htruthy, Hsave. unfold ret.
  eexists. split.
  - rewrite Hclock1, Hticks1.
    replace (clock w2 (ticks w2)) with (clock w (S (ticks w)));
      [reflexivity|].
    destruct Hw2 as [->|[body ->]]; cbn [clock ticks tick record_call];
      now rewrite Hclock1, Hticks1.
  - unfold write_item. cbn [table]. rewrite lookup_insert_eq. reflexivity.
Qed.

Lemma exchange_extends_history_witness :
  exists w',
    answer (B := Reference.builtins) cors_headers (lit "hello")
      (PStr (lit "s1")) (PStr default_model_id) 1000 (7 # 10)
      Examples.talking_world
    = (w', Ok {| statusCode := 200;
                 headers := cors_headers;
                 body := PDict [(lit "response", PStr (lit "ok"));
                                (lit "session_id", PStr (lit "s1"));
                                (lit "model_used", PStr default_model_id);
                                (lit "processing_time",
                                 PFloat
                                   (elapsed (Builtins := Reference.builtins)
                                      (inject_Z 1700000000)
                                      (inject_Z 1700000000 + (3 # 2))%Q));
                                (lit "region", PStr (lit "ap-northeast-2"));
                                (lit "status", PStr (lit "success"))] |}) /\
    (table w' !! lit "s1") ≫= dict_find (lit "messages")
    = Some (PList [Examples.user_hello; Examples.assistant_ok;
                   Examples.user_hello; Examples.assistant_ok]).
Proof.
  destruct (exchange_extends_history (B := Reference.builtins) cors_headers
              (lit "hello") (lit "s1") (PStr default_model_id) 1000 (7 # 10)
              Examples.talking_world
              (record_op (GetItem (PStr (lit "s1"))) Examples.talking_world)
              (record_call (PStr default_model_id)
                 (anthropic_body (B := Reference.builtins)
                    [Examples.user_hello; Examples.assistant_ok;
                     Examples.user_hello] 1000 (7 # 10))
                 (tick (record_op (GetItem (PStr (lit "s1")))
                          Examples.talking_world)))
              [Examples.user_hello; Examples.assistant_ok] (PStr (lit "ok"))
              1700000003 1700000004)
    as (w' & Hanswer & Hstored);
    try reflexivity; try discriminate.
  exists w'. split; [|exact Hstored].
  rewrite Hanswer. reflexivity.
Defined.

(** ** Server errors *)

(** A [ClientError] that leaves [answer] is one the inference endpoint
    raised: the errors of the store are swallowed by the two history
    functions. *)
Lemma answer_client_error_origin `{B : Builtins} (hdrs : list (pystr * pystr))
    (message : pystr) (session_id model_id : pyval float) (max_tokens : Z)
    (temperature : float) (w w' : world) (code detail text : pystr) :
  answer hdrs message session_id model_id max_tokens temperature w
  = (w', Raise (ClientError code detail text)) ->
  exists body, bedrock w model_id body = Fails (ClientError code detail text).
Proof.
  unfold answer. intros H.
  apply bind_inv in H as [(w1 & v & Hload & H)|(e & Hload & _)];
    [|apply load_history_world in Hload as [[v Hv] _]; discriminate].
  apply load_history_world in Hload as [_ Hw1].
  apply bind_inv in H as [(w1' & history & Happend & H)|(e & Happend & Heq)];
    unfold lift in Happend; injection Happend as <- Happend;
    [|injection Heq as <-;
      apply py_append_raises in Happend as (? & ? & ?); discriminate].
  apply bind_inv in H as [(w1' & start_time & Htime & H)|(e & Htime & _)];
    [|discriminate].
  unfold time_time in Htime. injection Htime as <- _.
  apply bind_inv in H as [(w2 & reply & Hcall & H)|(e & Hcall & Heq)].
  - exfalso.
    apply bind_inv in H as [(w2' & end_time & Htime & H)|(e & Htime & _)];
      [|discriminate].
    apply bind_inv in H as [(w3 & u & Hsave & H)|(e & Hsave & _)];
      [discriminate|].
    apply save_stage_world in Hsave as [Hu _]. discriminate.
  - injection Heq as <-.
    apply call_bedrock_client_error_origin in Hcall as [body Hbody].
    exists body. rewrite Hw1 in Hbody.
    destruct (truthy session_id && configured w); exact Hbody.
Qed.

(** Every 500 response is of one of two kinds: an [aws_error] that
    reports a [ClientError] the inference endpoint raised, with its code
    and the text chosen for it, or an [internal_error] with the text of
    the exception.  The history store never shows in an [aws_error]. *)
Theorem server_errors_classified `{B : Builtins} (event : pyval float)
    (w w' : world) (r : response) :
  lambda_handler event w = (w', Returned r) ->
  statusCode r = 500 ->
  (exists model_id body code detail text,
     bedrock w model_id body = Fails (ClientError code detail text) /\
     r = {| statusCode := 500;
            headers := cors_headers;
            body := PDict [(lit "error",
                            PStr (aws_error_message code detail text));
                           (lit "error_code", PStr code);
                           (lit "status", PStr (lit "aws_error"))] |})
  \/
  (exists text,
     r = {| statusCode := 500;
            headers := cors_headers;
            body := PDict [(lit "error",
                            PStr (lit "서버 내부 오류가 발생했습니다: " ++ text));
                           (lit "status", PStr (lit "internal_error"))] |}).
Proof.
  unfold lambda_handler. intros H Hstatus.
  destruct (check_serializable event) as [[]|e]; [|destruct e; discriminate].
  cbv zeta in H. unfold respond in H.
  destruct (handler_body cors_headers event w) as [w1 [r1|e]] eqn:Hbody.
  - injection H as _ <-.
    apply handler_body_response in Hbody as [_ Hcodes].
    rewrite Hstatus in Hcodes. destruct Hcodes as [?|[?|?]]; discriminate.
  - destruct e as [code detail text|cls text]; simpl in H;
      injection H as _ <-; [left|right; eauto].
    apply handler_body_inv in Hbody
      as [[_ Hnone]|(message & session_id & model_id & max_tokens
                     & temperature & Hanswer)].
    + now destruct (Hnone code detail text).
    + apply answer_client_error_origin in Hanswer as [body Hfails].
      exists model_id, body, code, detail, text. split; [exact Hfails|].
      reflexivity.
Qed.

Lemma server_errors_classified_witness :
  exists w' r,
    lambda_handler (B := Reference.builtins)
      (Examples.post Examples.session_request) Examples.throttled_world
    = (w', Returned r) /\
    ((exists model_id body code detail text,
        bedrock Examples.throttled_world model_id body
        = Fails (ClientError code detail text) /\
        r = {| statusCode := 500;
               headers := cors_headers;
               body := PDict [(lit "error",
                               PStr (aws_error_message code detail text));
                              (lit "error_code", PStr code);
                              (lit "status", PStr (lit "aws_error"))] |})
     \/
     (exists text,
        r = {| statusCode := 500;
               headers := cors_headers;
               body := PDict [(lit "error",
                               PStr (lit "서버 내부 오류가 발생했습니다: "
                                       ++ text));
                              (lit "status",
                               PStr (lit "internal_error"))] |})).
Proof.
  eexists. eexists.
  assert (H : lambda_handler (B := Reference.builtins)
                (Examples.post Examples.session_request)
                Examples.throttled_world
              = (record_call (PStr default_model_id)
                   (anthropic_body (B := Reference.builtins)
                      [Examples.user_hello] 1000 (7 # 10))
                   (tick (record_op (GetItem (PStr (lit "s1")))
                            Examples.throttled_world)),
                 Returned
                   (aws_error_response cors_headers
                      (lit "요청이 너무 많습니다. 잠시 후 다시 시도해주세요.")
                      (lit "ThrottlingException"))))
    by reflexivity.
  split; [exact H|].
  exact (server_errors_classified (B := Reference.builtins) _ _ _ _ H eq_refl).
Defined.

(** ** Defaults *)

(** A request that names no model, no [max_tokens] and no [temperature]
    (and no session) goes to the default model, [default_model_id], with
    the values of the environment variables [MAX_TOKENS] and
    [TEMPERATURE], or ["1000"] and ["0.7"] where they are not set,
    converted by [int] and [float]. *)
Theorem omitted_parameters_default `{B : Builtins} (event : pyval float)
    (text : pystr) (request : pydict float) (m : pystr) (max_tokens : Z)
    (temperature : float) (w : world) :
  is_post event = true ->
  body_text event = Some text ->
  json_loads text = Some (PDict request) ->
  dict_get (lit "message") (PStr []) request = PStr m ->
  forallb is_space m = false ->
  len (strip m) <= 10000 ->
  dict_find (lit "session_id") request = None ->
  dict_find (lit "model_id") request = None ->
  dict_find (lit "max_tokens") request = None ->
  dict_find (lit "temperature") request = None ->
  int_of_str (default (lit "1000") (environ w !! lit "MAX_TOKENS"))
  = Some max_tokens ->
  float_of_str (default (lit "0.7") (environ w !! lit "TEMPERATURE"))
  = Some temperature ->
  bedrock_calls (fst (lambda_handler event w))
  = (PStr default_model_id,
     anthropic_body [turn (lit "user") (PStr (strip m))] max_tokens temperature)
    :: bedrock_calls w.
Proof.
  intros Hpost Htext Hjson Hm Hblank Hshort Hsid Hmodel Htokens Htemperature
    Hint Hfloat.
  assert (Hraw_int : py_int (raw_max_tokens w request) = Ok max_tokens).
  { unfold raw_max_tokens, dict_get. rewrite Htokens. unfold py_int.
    now rewrite Hint. }
  assert (Hraw_float : py_float (raw_temperature w request) = Ok temperature).
  { unfold raw_temperature, dict_get. rewrite Htemperature. unfold py_float.
    now rewrite Hfloat. }
  rewrite (handler_accepts event text request m max_tokens temperature w
             Hpost Htext Hjson Hm Hblank Hshort Hraw_int Hraw_float).
  unfold dict_get. rewrite Hsid, Hmodel.
  rewrite (answer_falsy_session _ _ PNone _ _ _ _ eq_refl).
  assert (Hprinted : printable (str_of (PStr default_model_id)) = true)
    by (rewrite str_of_str; reflexivity).
  pose proof (call_bedrock_records [turn (lit "user") (PStr (strip m))]
                (PStr default_model_id)
                (anthropic_body [turn (lit "user") (PStr (strip m))] max_tokens
                   temperature)
                max_tokens temperature (tick w)
                (build_body_anthropic _ default_model_id _ _ eq_refl)
                Hprinted eq_refl)
    as Hcall.
  unfold answer_sessionless, bind, time_time, ret, respond.
  destruct (call_bedrock [turn (lit "user") (PStr (strip m))]
              (PStr default_model_id) max_tokens temperature (tick w))
    as [w2 [reply|e]]; exact Hcall.
Qed.

Lemma omitted_parameters_default_witness :
  bedrock_calls
    (fst (lambda_handler (B := Reference.builtins)
            (Examples.post (Examples.message_body (lit "hello")))
            (Examples.world_of {[ lit "MAX_TOKENS" := lit "256" ]} ∅)))
  = [(PStr default_model_id,
      anthropic_body (B := Reference.builtins) [Examples.user_hello] 256
        (7 # 10))].
Proof.
  assert (Hshort : len (strip (lit "hello")) <= 10000)
    by (vm_compute; discriminate).
  exact (omitted_parameters_default (B := Reference.builtins)
           (Examples.post (Examples.message_body (lit "hello")))
           (Examples.message_body (lit "hello"))
           [(lit "message", PStr (lit "hello"))] (lit "hello") 256 (7 # 10)
           (Examples.world_of {[ lit "MAX_TOKENS" := lit "256" ]} ∅)
           eq_refl eq_refl eq_refl eq_refl eq_refl Hshort eq_refl eq_refl
           eq_refl eq_refl eq_refl eq_refl).
Defined.
